(** * Invoicey: the invoice domain services, embedded and verified

    A shallow embedding of the TypeScript services of the Invoicey
    application (backend/src/services and the Supabase-backed
    frontend/src/lib/services), followed by the properties the
    specification states about them.

    Conventions of the embedding
    - a JavaScript [number] is an IEEE-754 binary64 value, modelled with
      the executable specification of the Corelib ([spec_float], precision
      53, exponent bound 1024), so every arithmetic step rounds as the
      engine does;
    - integer-valued numbers that are only compared and printed (the
      year, [Date.now()]) are modelled as [Z]; the invoice sequence, which
      is also added to, is a [Z] whose sum is rounded as binary64 rounds
      it ([JS.add_integers]): integers of magnitude up to 2^53 are exact;
    - what is written to localStorage is read back as JSON gives it back
      ([JSON.value]);
    - a JavaScript string is a [string], each character one code unit, of
      the range 0 to 255 (the Latin-1 range of UTF-16); text with a code
      unit above 255 is not a value of the embedding; the relational
      operators on strings compare code units lexicographically
      ([String.ltb]);
    - an optional property ([company?], [notes?], a defaulted parameter) is
      an [option];
    - the clock and the random source are read from an environment;
    - a function that reads or writes localStorage is a function of the
      world, returning an outcome (a value or a thrown error) together
      with the world it leaves behind. *)

From Stdlib Require Import ZArith Lia Bool List String Ascii.
From Stdlib Require Import SpecFloat Sorted.
From stdpp Require Import base option list strings pretty gmap.

Local Open Scope string_scope.
Local Open Scope Z_scope.

(** ** JavaScript numbers *)

Module JS.

Definition number : Type := spec_float.

Definition prec : Z := 53.
Definition emax : Z := 1024.

Definition add (x y : number) : number := SFadd prec emax x y.
Definition mul (x y : number) : number := SFmul prec emax x y.
Definition div (x y : number) : number := SFdiv prec emax x y.

(** The number denoted by an integer literal. *)
Definition of_Z (n : Z) : number := binary_normalize prec emax n 0 false.

(** [ratio p q] is the number denoted by the decimal literal whose exact
    value is [p/q]: the quotient is correctly rounded, as the literal is. *)
Definition ratio (p q : Z) : number := div (of_Z p) (of_Z q).

(** [Math.round x] for a finite non-integral [x = (-1)^s * m * 2^e],
    [e < 0]: the integer [floor (x + 1/2)], computed exactly. *)
Definition round_half_up (s : bool) (m : positive) (e : Z) : Z :=
  (2 * cond_Zopp s (Z.pos m) + 2 ^ (- e)) / 2 ^ (- e + 1).

(** [Math.round]: NaN, the infinities and the zeros are returned as they
    are, and so is a number that is already an integer; otherwise the
    nearest integer, a tie going toward +infinity; a result of zero keeps
    the sign of the argument. *)
Definition Math_round (x : number) : number :=
  match x with
  | S754_finite s m e =>
      if 0 <=? e then x
      else binary_normalize prec emax (round_half_up s m e) 0 s
  | _ => x
  end.

(** The rounding the specification words describe: nearest integer, a
    tie going away from zero. *)
Definition round_half_away (s : bool) (m : positive) (e : Z) : Z :=
  cond_Zopp s ((2 * Z.pos m + 2 ^ (- e)) / 2 ^ (- e + 1)).

Definition round_away (x : number) : number :=
  match x with
  | S754_finite s m e =>
      if 0 <=? e then x
      else binary_normalize prec emax (round_half_away s m e) 0 s
  | _ => x
  end.

(** [s.trim()]: white space and line terminators are removed at both
    ends.  Of the code units 0 to 255 these are TAB, LF, VT, FF, CR, SP
    and the no-break space U+00A0; the others that trim removes (U+1680,
    U+2000 to U+200A, U+2028, U+2029, U+202F, U+205F, U+3000, U+FEFF) lie
    above 255. *)
Definition is_white_space (c : ascii) : bool :=
  let n := N_of_ascii c in
  ((9 <=? n) && (n <=? 13))%N || (n =? 32)%N || (n =? 160)%N.

Fixpoint trimStart (s : string) : string :=
  match s with
  | String c rest => if is_white_space c then trimStart rest else s
  | EmptyString => EmptyString
  end.

Fixpoint trimEnd (s : string) : string :=
  match s with
  | String c rest =>
      match trimEnd rest with
      | EmptyString => if is_white_space c then EmptyString else String c EmptyString
      | rest' => String c rest'
      end
  | EmptyString => EmptyString
  end.

Definition trim (s : string) : string := trimEnd (trimStart s).

(** The binary64 number nearest to the integer [z], a tie going to the
    even significand: what an integer result (of magnitude below 2^1024) is
    rounded to.  An integer of at most 53 binary digits is kept. *)
Definition round_integer (z : Z) : Z :=
  let digits := Z.log2 (Z.abs z) + 1 in
  if digits <=? prec then z
  else
    let ulp := 2 ^ (digits - prec) in
    let q := Z.abs z / ulp in
    let r := Z.abs z mod ulp in
    let q := if 2 * r <? ulp then q
             else if ulp <? 2 * r then q + 1
             else if Z.even q then q else q + 1 in
    Z.sgn z * (q * ulp).

(** [a + b] for two integer-valued numbers. *)
Definition add_integers (a b : Z) : Z := round_integer (a + b).

(** [String(n)] for an integer [n] of magnitude below 10^21 (from there on
    String uses the exponent notation). *)
Definition String_of (n : Z) : string := pretty n.

(** [s.padStart(width, '0')]. *)
Definition padStart0 (width : nat) (s : string) : string :=
  String.concat "" (replicate (width - String.length s)%nat "0") ++ s.

(** [s.includes(part)]: [part] occurs in [s] as a contiguous run. *)
Fixpoint includes (s part : string) : bool :=
  String.prefix part s
  || match s with
     | String _ rest => includes rest part
     | EmptyString => false
     end.

(** [l.slice(0, end)] for an integer [end]: a negative [end] counts from
    the end of the array. *)
Definition slice_to {A : Type} (l : list A) (end_ : Z) : list A :=
  if end_ <? 0 then take (Z.to_nat (Z.max (Z.of_nat (List.length l) + end_) 0)) l
  else take (Z.to_nat end_) l.

(** [l.sort(compareFn)] for a consistent [compareFn]: the sort is stable,
    [x] goes before [y] when [compareFn x y] is negative and after it when
    positive. *)
Fixpoint sort_insert {A : Type} (compareFn : A -> A -> Z) (x : A) (sorted : list A)
    : list A :=
  match sorted with
  | [] => [x]
  | y :: rest =>
      if compareFn x y <=? 0 then x :: y :: rest
      else y :: sort_insert compareFn x rest
  end.

Definition sort {A : Type} (compareFn : A -> A -> Z) (l : list A) : list A :=
  foldr (sort_insert compareFn) [] l.

End JS.

Abbreviation number := JS.number.

(** ** The data model (types/index.ts, data/mockData.ts) *)

Module Client.
Record t := mk {
  id : string;
  name : string;
  email : string;
  company : option string;
  phone : option string;
  address : option string;
  createdAt : string }.
End Client.

Module ClientInput.
Record t := mk {
  name : string;
  email : string;
  company : option string;
  phone : option string;
  address : option string }.
End ClientInput.

Module LineItem.
Record t := mk {
  id : string;
  description : string;
  quantity : number;
  rate : number;
  amount : number }.
End LineItem.

Module LineItemInput.
Record t := mk { description : string; quantity : number; rate : number }.
End LineItemInput.

(** InvoiceStatus = 'draft' | 'sent' | 'paid' | 'overdue'; a status is kept
    as the string it is at run time, so that a stored record with another
    status can be spoken of. *)
Definition InvoiceStatus : Type := string.

Module Invoice.
Record t := mk {
  id : string;
  invoiceNumber : string;
  clientId : string;
  client : Client.t;
  status : InvoiceStatus;
  issueDate : string;
  dueDate : string;
  lineItems : list LineItem.t;
  subtotal : number;
  tax : number;
  total : number;
  notes : option string;
  createdAt : string }.

(** { ...invoice, status: s } *)
Definition with_status (invoice : t) (s : InvoiceStatus) : t :=
  mk (id invoice) (invoiceNumber invoice) (clientId invoice) (client invoice) s
     (issueDate invoice) (dueDate invoice) (lineItems invoice)
     (subtotal invoice) (tax invoice) (total invoice) (notes invoice)
     (createdAt invoice).
End Invoice.

Module InvoiceInput.
Record t := mk {
  clientId : string;
  issueDate : string;
  dueDate : string;
  lineItems : list LineItemInput.t;
  notes : option string;
  status : option InvoiceStatus }.
End InvoiceInput.

Module ValidationResult.
Record t := mk { valid : bool; errors : gmap string string }.
End ValidationResult.

Module Totals.
Record t := mk { subtotal : number; tax : number; total : number }.
End Totals.

Module Metrics.
Record t := mk {
  totalRevenue : number;
  pendingAmount : number;
  overdueAmount : number;
  totalClients : nat;
  paidInvoices : nat;
  pendingInvoices : nat;
  overdueInvoices : nat;
  draftInvoices : nat }.
End Metrics.

Module CounterData.
Record t := mk { year : Z; sequence : Z }.
End CounterData.

(** ** The world: localStorage, the clock and the random source *)

(** ** JSON: what is read back from what was written *)

Module JSON.

(** A number as JSON.stringify prints it and JSON.parse reads it back: a
    finite number is read back as it was, -0 is printed 0, and NaN and the
    infinities are printed null.  A null in the place of a number is kept
    as +0: the services only copy such a value or add it to a sum, and
    addition takes null for +0. *)
Definition number (x : JS.number) : JS.number :=
  match x with
  | S754_finite _ _ _ => x
  | _ => S754_zero false
  end.

Definition lineItem (item : LineItem.t) : LineItem.t :=
  {| LineItem.id := LineItem.id item;
     LineItem.description := LineItem.description item;
     LineItem.quantity := number (LineItem.quantity item);
     LineItem.rate := number (LineItem.rate item);
     LineItem.amount := number (LineItem.amount item) |}.

(** Strings are read back as they were written, and a property that is
    undefined is left out of the text and is undefined again when read. *)
Definition invoice (invoice : Invoice.t) : Invoice.t :=
  {| Invoice.id := Invoice.id invoice;
     Invoice.invoiceNumber := Invoice.invoiceNumber invoice;
     Invoice.clientId := Invoice.clientId invoice;
     Invoice.client := Invoice.client invoice;
     Invoice.status := Invoice.status invoice;
     Invoice.issueDate := Invoice.issueDate invoice;
     Invoice.dueDate := Invoice.dueDate invoice;
     Invoice.lineItems := List.map lineItem (Invoice.lineItems invoice);
     Invoice.subtotal := number (Invoice.subtotal invoice);
     Invoice.tax := number (Invoice.tax invoice);
     Invoice.total := number (Invoice.total invoice);
     Invoice.notes := Invoice.notes invoice;
     Invoice.createdAt := Invoice.createdAt invoice |}.

(** [value v] is JSON.parse(JSON.stringify(v)) for the three types the
    services store.  A client holds strings only; the year and the sequence
    of the counter are integers, which are read back as they were written. *)
Class Value (T : Type) := value : T -> T.

#[global] Instance clients : Value (list Client.t) := fun clients => clients.
#[global] Instance invoices : Value (list Invoice.t) := List.map invoice.
#[global] Instance counterData : Value CounterData.t := fun data => data.

(** A JSON text is kept as the value that is read from it. *)
Definition stringify {T : Type} `{Value T} (v : T) : T := value v.
Definition parse {T : Type} `{Value T} (text : T) : T := value text.

End JSON.

(** The three items the services keep in localStorage, each a JSON text;
    an item that was never set is [None].  [available] is what
    isLocalStorageAvailable finds by writing a test item, and a store that
    takes the test item is taken to accept the writes that follow. *)
Record LocalStorage := {
  available : bool;
  invoicey_clients : option (list Client.t);
  invoicey_invoices : option (list Invoice.t);
  invoicey_invoice_counter_data : option CounterData.t }.

Record World := { localStorage : LocalStorage; draws : nat }.

(** What a call reads from outside: [Date.now()], the ISO date of today,
    the current year, and the successive values of
    [Math.random().toString(36).substring(2, 9)]. *)
Record Env := {
  Date_now : Z;
  today : string;
  currentYear : Z;
  Math_random : nat -> string }.

(** An [Error] thrown by a service.  The message of a validation error
    interpolates the error map, that of a not-found error the entity and
    the id; the other messages are fixed texts. *)
Inductive Error :=
  | Validation_failed (errors : gmap string string)
  | Not_found (entity id : string)
  | Message (text : string).

Inductive Outcome (A : Type) :=
  | Returns (a : A)
  | Throws (e : Error).
Arguments Returns {A} a.
Arguments Throws {A} e.

(** A computation over a state [S]: the outcome and the state left behind
    (what was written before a throw stays written). *)
Definition Eff (S A : Type) : Type := S -> Outcome A * S.

Definition ret {S A} (a : A) : Eff S A := fun w => (Returns a, w).
Definition throw {S A} (e : Error) : Eff S A := fun w => (Throws e, w).
Definition bind {S A B} (c : Eff S A) (k : A -> Eff S B) : Eff S B :=
  fun w =>
    match c w with
    | (Returns a, w') => k a w'
    | (Throws e, w') => (Throws e, w')
    end.

Notation "x <- c ;; k" := (bind c (fun x => k))
  (at level 100, c at next level, right associativity).
Notation "c ;;; k" := (bind c (fun _ => k))
  (at level 100, right associativity).

Fixpoint mapM {S A B} (f : A -> Eff S B) (l : list A) : Eff S (list B) :=
  match l with
  | [] => ret []
  | x :: rest => y <- f x ;; ys <- mapM f rest ;; ret (y :: ys)
  end.

(** The services of the backend run over localStorage. *)
Abbreviation M := (Eff World).

(** ** services/storage.ts *)

Module storage.

(** get<T>(key): null when localStorage is unavailable or the key is
    absent, and else JSON.parse of the item (the items are texts that
    JSON.stringify wrote, which parse). *)
Definition get {T : Type} `{JSON.Value T} (getItem : LocalStorage -> option T)
    : M (option T) :=
  fun w =>
    if available (localStorage w)
    then (Returns (JSON.parse <$> getItem (localStorage w)), w)
    else (Returns None, w).

(** set<T>(key, value): the item becomes JSON.stringify(value); nothing is
    written when localStorage is unavailable. *)
Definition set {T : Type} `{JSON.Value T} (setItem : T -> LocalStorage -> LocalStorage)
    (value : T) : M unit :=
  fun w =>
    if available (localStorage w)
    then
      let serialized := JSON.stringify value in
      (Returns tt, {| localStorage := setItem serialized (localStorage w);
                      draws := draws w |})
    else (Returns tt, w).

Definition getClients : M (list Client.t) :=
  clients <- get invoicey_clients ;; ret (default [] clients).

Definition setClients (clients : list Client.t) : M unit :=
  set (fun item ls => {| available := available ls;
                         invoicey_clients := Some item;
                         invoicey_invoices := invoicey_invoices ls;
                         invoicey_invoice_counter_data :=
                           invoicey_invoice_counter_data ls |})
      clients.

Definition getInvoices : M (list Invoice.t) :=
  invoices <- get invoicey_invoices ;; ret (default [] invoices).

Definition setInvoices (invoices : list Invoice.t) : M unit :=
  set (fun item ls => {| available := available ls;
                         invoicey_clients := invoicey_clients ls;
                         invoicey_invoices := Some item;
                         invoicey_invoice_counter_data :=
                           invoicey_invoice_counter_data ls |})
      invoices.

(** remove(key): nothing is removed when localStorage is unavailable. *)
Definition remove (erase : LocalStorage -> LocalStorage) : M unit :=
  fun w =>
    if available (localStorage w)
    then (Returns tt, {| localStorage := erase (localStorage w); draws := draws w |})
    else (Returns tt, w).

(** clearAll(): removes the clients and the invoices.  Its third key,
    invoicey_invoice_counter, is the one getInvoiceCounter and
    setInvoiceCounter use; no service reads or writes it and it is not an
    item of [LocalStorage].  The counter of the invoice number generator is
    kept under another key, invoicey_invoice_counter_data, which clearAll
    does not name. *)
Definition clearAll : M unit :=
  remove (fun ls => {| available := available ls;
                       invoicey_clients := None;
                       invoicey_invoices := invoicey_invoices ls;
                       invoicey_invoice_counter_data := invoicey_invoice_counter_data ls |}) ;;;
  remove (fun ls => {| available := available ls;
                       invoicey_clients := invoicey_clients ls;
                       invoicey_invoices := None;
                       invoicey_invoice_counter_data := invoicey_invoice_counter_data ls |}) ;;;
  remove (fun ls => ls).

End storage.

(** ** services/invoiceNumberGenerator.ts *)

Module invoiceNumberGenerator.
Section WithEnv.
Variable env : Env.

Definition getCurrentYear : Z := currentYear env.

Definition getCounterData : M (option CounterData.t) :=
  storage.get invoicey_invoice_counter_data.

Definition setCounterData (data : CounterData.t) : M unit :=
  storage.set (fun item ls => {| available := available ls;
                                 invoicey_clients := invoicey_clients ls;
                                 invoicey_invoices := invoicey_invoices ls;
                                 invoicey_invoice_counter_data := Some item |})
              data.

Definition getNextSequence : M Z :=
  let currentYear := getCurrentYear in
  counterData <- getCounterData ;;
  match counterData with
  | None => ret 1
  | Some counterData =>
      if negb (CounterData.year counterData =? currentYear) then ret 1
      else ret (JS.add_integers (CounterData.sequence counterData) 1)
  end.

Definition generate : M string :=
  let currentYear := getCurrentYear in
  sequence <- getNextSequence ;;
  setCounterData {| CounterData.year := currentYear;
                    CounterData.sequence := sequence |} ;;;
  let paddedSequence := JS.padStart0 3 (JS.String_of sequence) in
  ret ("INV-" ++ JS.String_of currentYear ++ "-" ++ paddedSequence).

End WithEnv.

(** reset(): removes the stored counter. *)
Definition reset : M unit :=
  storage.remove (fun ls => {| available := available ls;
                               invoicey_clients := invoicey_clients ls;
                               invoicey_invoices := invoicey_invoices ls;
                               invoicey_invoice_counter_data := None |}).

End invoiceNumberGenerator.

(** ** services/clientService.ts *)

Module clientService.
Section WithEnv.
Variable env : Env.

Definition Math_random_36 : M string :=
  fun w => (Returns (Math_random env (draws w)),
            {| localStorage := localStorage w; draws := S (draws w) |}).

Definition generateId : M string :=
  r <- Math_random_36 ;;
  ret ("client_" ++ JS.String_of (Date_now env) ++ "_" ++ r).

Definition getCurrentTimestamp : string := today env.

Definition validate (input : ClientInput.t) : ValidationResult.t :=
  let errors : gmap string string := ∅ in
  let errors :=
    if String.eqb (ClientInput.name input) "" || String.eqb (JS.trim (ClientInput.name input)) ""
    then <["name" := "Name is required"]> errors else errors in
  let errors :=
    if String.eqb (ClientInput.email input) "" || String.eqb (JS.trim (ClientInput.email input)) ""
    then <["email" := "Email is required"]> errors else errors in
  {| ValidationResult.valid := bool_decide (size errors = 0%nat);
     ValidationResult.errors := errors |}.

Definition create (input : ClientInput.t) : M Client.t :=
  let validation := validate input in
  if negb (ValidationResult.valid validation)
  then throw (Validation_failed (ValidationResult.errors validation))
  else
    clients <- storage.getClients ;;
    id <- generateId ;;
    let newClient :=
      {| Client.id := id;
         Client.name := JS.trim (ClientInput.name input);
         Client.email := JS.trim (ClientInput.email input);
         Client.company := JS.trim <$> ClientInput.company input;
         Client.phone := JS.trim <$> ClientInput.phone input;
         Client.address := JS.trim <$> ClientInput.address input;
         Client.createdAt := getCurrentTimestamp |} in
    storage.setClients (clients ++ [newClient]) ;;;
    ret newClient.

Definition update (id : string) (input : ClientInput.t) : M Client.t :=
  let validation := validate input in
  if negb (ValidationResult.valid validation)
  then throw (Validation_failed (ValidationResult.errors validation))
  else
    clients <- storage.getClients ;;
    match list_find (fun client => Client.id client = id) clients with
    | None => throw (Not_found "Client" id)
    | Some (index, existingClient) =>
        let updatedClient :=
          {| Client.name := JS.trim (ClientInput.name input);
             Client.email := JS.trim (ClientInput.email input);
             Client.company := JS.trim <$> ClientInput.company input;
             Client.phone := JS.trim <$> ClientInput.phone input;
             Client.address := JS.trim <$> ClientInput.address input;
             Client.id := Client.id existingClient;
             Client.createdAt := Client.createdAt existingClient |} in
        storage.setClients (<[index := updatedClient]> clients) ;;;
        ret updatedClient
    end.

Definition deleteClient (id : string) : M unit :=
  clients <- storage.getClients ;;
  match list_find (fun client => Client.id client = id) clients with
  | None => throw (Not_found "Client" id)
  | Some (index, _) => storage.setClients (delete index clients)
  end.

End WithEnv.

Definition getAll : M (list Client.t) := storage.getClients.

Definition getById (id : string) : M (option Client.t) :=
  clients <- storage.getClients ;;
  ret (List.find (fun client => String.eqb (Client.id client) id) clients).

Definition hasInvoices (clientId : string) : M bool :=
  invoices <- storage.getInvoices ;;
  ret (existsb (fun invoice => String.eqb (Invoice.clientId invoice) clientId) invoices).

Section Search.
(** String.prototype.toLowerCase, which follows the Unicode case mapping,
    is taken as given. *)
Variable toLowerCase : string -> string.

Definition search (query : string) (clients : list Client.t) : list Client.t :=
  if String.eqb query "" || String.eqb (JS.trim query) "" then clients
  else
    let lowerQuery := JS.trim (toLowerCase query) in
    List.filter (fun client =>
      let nameMatch := JS.includes (toLowerCase (Client.name client)) lowerQuery in
      let emailMatch := JS.includes (toLowerCase (Client.email client)) lowerQuery in
      let companyMatch :=
        default false
          ((fun company => JS.includes (toLowerCase company) lowerQuery)
             <$> Client.company client) in
      nameMatch || emailMatch || companyMatch) clients.

End Search.

End clientService.

(** ** services/invoiceService.ts *)

Module invoiceService.
Section WithEnv.
Variable env : Env.

Definition Math_random_36 : M string :=
  fun w => (Returns (Math_random env (draws w)),
            {| localStorage := localStorage w; draws := S (draws w) |}).

Definition generateId : M string :=
  r <- Math_random_36 ;;
  ret ("invoice_" ++ JS.String_of (Date_now env) ++ "_" ++ r).

Definition generateLineItemId : M string :=
  r <- Math_random_36 ;;
  ret ("item_" ++ JS.String_of (Date_now env) ++ "_" ++ r).

Definition getCurrentDate : string := today env.

(** calculateTotals(lineItems, taxRate = 10) *)
Definition calculateTotals (lineItems : list LineItemInput.t)
    (taxRate : option number) : Totals.t :=
  let taxRate := default (JS.of_Z 10) taxRate in
  let subtotal :=
    fold_left (fun sum item =>
      JS.add sum (JS.mul (LineItemInput.quantity item) (LineItemInput.rate item)))
      lineItems (JS.of_Z 0) in
  let tax := JS.mul subtotal (JS.div taxRate (JS.of_Z 100)) in
  let total := JS.add subtotal tax in
  {| Totals.subtotal := JS.div (JS.Math_round (JS.mul subtotal (JS.of_Z 100))) (JS.of_Z 100);
     Totals.tax := JS.div (JS.Math_round (JS.mul tax (JS.of_Z 100))) (JS.of_Z 100);
     Totals.total := JS.div (JS.Math_round (JS.mul total (JS.of_Z 100))) (JS.of_Z 100) |}.

Definition getAll : M (list Invoice.t) := storage.getInvoices.

Definition getById (id : string) : M (option Invoice.t) :=
  invoices <- storage.getInvoices ;;
  ret (List.find (fun invoice => String.eqb (Invoice.id invoice) id) invoices).

Definition validate (input : InvoiceInput.t) : ValidationResult.t :=
  let errors : gmap string string := ∅ in
  let errors :=
    if String.eqb (InvoiceInput.clientId input) ""
       || String.eqb (JS.trim (InvoiceInput.clientId input)) ""
    then <["clientId" := "Please select a client"]> errors else errors in
  let errors :=
    if (List.length (InvoiceInput.lineItems input) =? 0)%nat
    then <["lineItems" := "At least one line item is required"]> errors
    else
      let hasValidLineItem :=
        existsb (fun item =>
          negb (String.eqb (LineItemInput.description item) "")
          && negb (String.eqb (JS.trim (LineItemInput.description item)) ""))
          (InvoiceInput.lineItems input) in
      if negb hasValidLineItem
      then <["lineItems" := "At least one line item must have a description"]> errors
      else errors in
  {| ValidationResult.valid := bool_decide (size errors = 0%nat);
     ValidationResult.errors := errors |}.

Definition createLineItem (input : LineItemInput.t) : M LineItem.t :=
  id <- generateLineItemId ;;
  ret {| LineItem.id := id;
         LineItem.description := LineItemInput.description input;
         LineItem.quantity := LineItemInput.quantity input;
         LineItem.rate := LineItemInput.rate input;
         LineItem.amount :=
           JS.div (JS.Math_round
                     (JS.mul (JS.mul (LineItemInput.quantity input) (LineItemInput.rate input))
                             (JS.of_Z 100)))
                  (JS.of_Z 100) |}.

(** [a || b] on statuses: an absent or empty status is falsy. *)
Definition status_or (a : option InvoiceStatus) (b : InvoiceStatus) : InvoiceStatus :=
  match a with
  | Some s => if String.eqb s "" then b else s
  | None => b
  end.

Definition create (input : InvoiceInput.t) (clients : list Client.t) : M Invoice.t :=
  let validation := validate input in
  if negb (ValidationResult.valid validation)
  then throw (Validation_failed (ValidationResult.errors validation))
  else
    match List.find (fun c => String.eqb (Client.id c) (InvoiceInput.clientId input)) clients with
    | None => throw (Not_found "Client" (InvoiceInput.clientId input))
    | Some client =>
        invoices <- storage.getInvoices ;;
        lineItems <- mapM createLineItem (InvoiceInput.lineItems input) ;;
        let totals := calculateTotals (InvoiceInput.lineItems input) None in
        id <- generateId ;;
        invoiceNumber <- invoiceNumberGenerator.generate env ;;
        let newInvoice :=
          {| Invoice.id := id;
             Invoice.invoiceNumber := invoiceNumber;
             Invoice.clientId := InvoiceInput.clientId input;
             Invoice.client := client;
             Invoice.status := status_or (InvoiceInput.status input) "draft";
             Invoice.issueDate := InvoiceInput.issueDate input;
             Invoice.dueDate := InvoiceInput.dueDate input;
             Invoice.lineItems := lineItems;
             Invoice.subtotal := Totals.subtotal totals;
             Invoice.tax := Totals.tax totals;
             Invoice.total := Totals.total totals;
             Invoice.notes := InvoiceInput.notes input;
             Invoice.createdAt := getCurrentDate |} in
        storage.setInvoices (invoices ++ [newInvoice]) ;;;
        ret newInvoice
    end.

Definition update (id : string) (input : InvoiceInput.t) (clients : list Client.t)
    : M Invoice.t :=
  let validation := validate input in
  if negb (ValidationResult.valid validation)
  then throw (Validation_failed (ValidationResult.errors validation))
  else
    invoices <- storage.getInvoices ;;
    match list_find (fun invoice => Invoice.id invoice = id) invoices with
    | None => throw (Not_found "Invoice" id)
    | Some (index, existingInvoice) =>
        match List.find (fun c => String.eqb (Client.id c) (InvoiceInput.clientId input)) clients with
        | None => throw (Not_found "Client" (InvoiceInput.clientId input))
        | Some client =>
            lineItems <- mapM createLineItem (InvoiceInput.lineItems input) ;;
            let totals := calculateTotals (InvoiceInput.lineItems input) None in
            let updatedInvoice :=
              {| Invoice.clientId := InvoiceInput.clientId input;
                 Invoice.client := client;
                 Invoice.status :=
                   status_or (InvoiceInput.status input) (Invoice.status existingInvoice);
                 Invoice.issueDate := InvoiceInput.issueDate input;
                 Invoice.dueDate := InvoiceInput.dueDate input;
                 Invoice.lineItems := lineItems;
                 Invoice.subtotal := Totals.subtotal totals;
                 Invoice.tax := Totals.tax totals;
                 Invoice.total := Totals.total totals;
                 Invoice.notes := InvoiceInput.notes input;
                 Invoice.id := Invoice.id existingInvoice;
                 Invoice.invoiceNumber := Invoice.invoiceNumber existingInvoice;
                 Invoice.createdAt := Invoice.createdAt existingInvoice |} in
            storage.setInvoices (<[index := updatedInvoice]> invoices) ;;;
            ret updatedInvoice
        end
    end.

Definition deleteInvoice (id : string) : M unit :=
  invoices <- storage.getInvoices ;;
  match list_find (fun invoice => Invoice.id invoice = id) invoices with
  | None => throw (Not_found "Invoice" id)
  | Some (index, _) => storage.setInvoices (delete index invoices)
  end.

Definition markAsPaid (id : string) : M Invoice.t :=
  invoices <- storage.getInvoices ;;
  match list_find (fun invoice => Invoice.id invoice = id) invoices with
  | None => throw (Not_found "Invoice" id)
  | Some (index, invoice) =>
      let updatedInvoice := Invoice.with_status invoice "paid" in
      storage.setInvoices (<[index := updatedInvoice]> invoices) ;;;
      ret updatedInvoice
  end.

Definition markAsSent (id : string) : M Invoice.t :=
  invoices <- storage.getInvoices ;;
  match list_find (fun invoice => Invoice.id invoice = id) invoices with
  | None => throw (Not_found "Invoice" id)
  | Some (index, invoice) =>
      let updatedInvoice := Invoice.with_status invoice "sent" in
      storage.setInvoices (<[index := updatedInvoice]> invoices) ;;;
      ret updatedInvoice
  end.

(** The test of the callback of checkOverdue. *)
Definition is_overdue (today : string) (invoice : Invoice.t) : bool :=
  String.eqb (Invoice.status invoice) "sent" && String.ltb (Invoice.dueDate invoice) today.

(** invoices.map(...) of checkOverdue, together with the flag the callback
    raises. *)
Fixpoint overdue_map (today : string) (hasChanges : bool) (invoices : list Invoice.t)
    : bool * list Invoice.t :=
  match invoices with
  | [] => (hasChanges, [])
  | invoice :: rest =>
      if is_overdue today invoice then
        let '(hasChanges, updated) := overdue_map today true rest in
        (hasChanges, Invoice.with_status invoice "overdue" :: updated)
      else
        let '(hasChanges, updated) := overdue_map today hasChanges rest in
        (hasChanges, invoice :: updated)
  end.

Definition checkOverdue (invoices : list Invoice.t) : M (list Invoice.t) :=
  let today := getCurrentDate in
  let '(hasChanges, updatedInvoices) := overdue_map today false invoices in
  (if hasChanges then storage.setInvoices updatedInvoices else ret tt) ;;;
  ret updatedInvoices.

Definition duplicate (id : string) (clients : list Client.t) : M Invoice.t :=
  invoices <- storage.getInvoices ;;
  match List.find (fun invoice => String.eqb (Invoice.id invoice) id) invoices with
  | None => throw (Not_found "Invoice" id)
  | Some original =>
      match List.find (fun c => String.eqb (Client.id c) (Invoice.clientId original)) clients with
      | None => throw (Not_found "Client" (Invoice.clientId original))
      | Some client =>
          let today := getCurrentDate in
          newLineItems <-
            mapM (fun item =>
                    id <- generateLineItemId ;;
                    ret {| LineItem.id := id;
                           LineItem.description := LineItem.description item;
                           LineItem.quantity := LineItem.quantity item;
                           LineItem.rate := LineItem.rate item;
                           LineItem.amount := LineItem.amount item |})
                 (Invoice.lineItems original) ;;
          id <- generateId ;;
          invoiceNumber <- invoiceNumberGenerator.generate env ;;
          let newInvoice :=
            {| Invoice.id := id;
               Invoice.invoiceNumber := invoiceNumber;
               Invoice.clientId := Invoice.clientId original;
               Invoice.client := client;
               Invoice.status := "draft";
               Invoice.issueDate := today;
               Invoice.dueDate := Invoice.dueDate original;
               Invoice.lineItems := newLineItems;
               Invoice.subtotal := Invoice.subtotal original;
               Invoice.tax := Invoice.tax original;
               Invoice.total := Invoice.total original;
               Invoice.notes := Invoice.notes original;
               Invoice.createdAt := today |} in
          storage.setInvoices (invoices ++ [newInvoice]) ;;;
          ret newInvoice
      end
  end.

End WithEnv.

Section Search.
(** String.prototype.toLowerCase, taken as given. *)
Variable toLowerCase : string -> string.

Definition search (query : string) (invoices : list Invoice.t) : list Invoice.t :=
  if String.eqb query "" || String.eqb (JS.trim query) "" then invoices
  else
    let lowerQuery := JS.trim (toLowerCase query) in
    List.filter (fun invoice =>
      let invoiceNumberMatch :=
        JS.includes (toLowerCase (Invoice.invoiceNumber invoice)) lowerQuery in
      let clientNameMatch :=
        JS.includes (toLowerCase (Client.name (Invoice.client invoice))) lowerQuery in
      let companyMatch :=
        default false
          ((fun company => JS.includes (toLowerCase company) lowerQuery)
             <$> Client.company (Invoice.client invoice)) in
      invoiceNumberMatch || clientNameMatch || companyMatch) invoices.

End Search.

Definition filterByStatus (status : string) (invoices : list Invoice.t) : list Invoice.t :=
  if String.eqb status "" || String.eqb status "all" then invoices
  else List.filter (fun invoice => String.eqb (Invoice.status invoice) status) invoices.

End invoiceService.

(** ** services/recentItemsService.ts *)

Module recentItemsService.
Section WithLocale.
(** [a.localeCompare(b)], negative, zero or positive; the collation is the
    engine's. *)
Variable localeCompare : string -> string -> Z.

(** getRecentInvoices(invoices, limit = 5) *)
Definition getRecentInvoices (invoices : list Invoice.t) (limit : option Z)
    : list Invoice.t :=
  let limit := default 5 limit in
  JS.slice_to
    (JS.sort (fun a b => localeCompare (Invoice.createdAt b) (Invoice.createdAt a)) invoices)
    limit.

(** getRecentClients(clients, limit = 4) *)
Definition getRecentClients (clients : list Client.t) (limit : option Z)
    : list Client.t :=
  let limit := default 4 limit in
  JS.slice_to
    (JS.sort (fun a b => localeCompare (Client.createdAt b) (Client.createdAt a)) clients)
    limit.

End WithLocale.
End recentItemsService.

(** ** services/metricsService.ts *)

Module metricsService.

(** The seven running variables of [calculate]. *)
Record Acc := {
  totalRevenue : number;
  pendingAmount : number;
  overdueAmount : number;
  paidInvoices : nat;
  pendingInvoices : nat;
  overdueInvoices : nat;
  draftInvoices : nat }.

(** The body of the loop: the switch on invoice.status. *)
Definition step (a : Acc) (invoice : Invoice.t) : Acc :=
  if String.eqb (Invoice.status invoice) "paid" then
    {| totalRevenue := JS.add (totalRevenue a) (Invoice.total invoice);
       pendingAmount := pendingAmount a; overdueAmount := overdueAmount a;
       paidInvoices := S (paidInvoices a);
       pendingInvoices := pendingInvoices a; overdueInvoices := overdueInvoices a;
       draftInvoices := draftInvoices a |}
  else if String.eqb (Invoice.status invoice) "sent" then
    {| totalRevenue := totalRevenue a;
       pendingAmount := JS.add (pendingAmount a) (Invoice.total invoice);
       overdueAmount := overdueAmount a;
       paidInvoices := paidInvoices a;
       pendingInvoices := S (pendingInvoices a);
       overdueInvoices := overdueInvoices a;
       draftInvoices := draftInvoices a |}
  else if String.eqb (Invoice.status invoice) "overdue" then
    {| totalRevenue := totalRevenue a; pendingAmount := pendingAmount a;
       overdueAmount := JS.add (overdueAmount a) (Invoice.total invoice);
       paidInvoices := paidInvoices a; pendingInvoices := pendingInvoices a;
       overdueInvoices := S (overdueInvoices a);
       draftInvoices := draftInvoices a |}
  else if String.eqb (Invoice.status invoice) "draft" then
    {| totalRevenue := totalRevenue a; pendingAmount := pendingAmount a;
       overdueAmount := overdueAmount a;
       paidInvoices := paidInvoices a; pendingInvoices := pendingInvoices a;
       overdueInvoices := overdueInvoices a;
       draftInvoices := S (draftInvoices a) |}
  else a.

Definition calculate (invoices : list Invoice.t) (clients : list Client.t) : Metrics.t :=
  let a :=
    fold_left step invoices
      {| totalRevenue := JS.of_Z 0; pendingAmount := JS.of_Z 0;
         overdueAmount := JS.of_Z 0; paidInvoices := 0; pendingInvoices := 0;
         overdueInvoices := 0; draftInvoices := 0 |} in
  {| Metrics.totalRevenue :=
       JS.div (JS.Math_round (JS.mul (totalRevenue a) (JS.of_Z 100))) (JS.of_Z 100);
     Metrics.pendingAmount :=
       JS.div (JS.Math_round (JS.mul (pendingAmount a) (JS.of_Z 100))) (JS.of_Z 100);
     Metrics.overdueAmount :=
       JS.div (JS.Math_round (JS.mul (overdueAmount a) (JS.of_Z 100))) (JS.of_Z 100);
     Metrics.totalClients := List.length clients;
     Metrics.paidInvoices := paidInvoices a;
     Metrics.pendingInvoices := pendingInvoices a;
     Metrics.overdueInvoices := overdueInvoices a;
     Metrics.draftInvoices := draftInvoices a |}.

Definition getEmptyMetrics : Metrics.t :=
  {| Metrics.totalRevenue := JS.of_Z 0; Metrics.pendingAmount := JS.of_Z 0;
     Metrics.overdueAmount := JS.of_Z 0; Metrics.totalClients := 0;
     Metrics.paidInvoices := 0; Metrics.pendingInvoices := 0;
     Metrics.overdueInvoices := 0; Metrics.draftInvoices := 0 |}.

End metricsService.

(** ** The Supabase-backed services (frontend/src/lib)

    The same operations against a hosted database.  A request either fails
    with an error object or takes effect on the tables; which requests fail
    is the environment's choice.  The client library reports every failure,
    transport failures included, in the [error] field of the reply. *)

Module Supabase.

Module ClientRow.
Record t := mk {
  id : string;
  name : string;
  email : string;
  company : option string;
  phone : option string;
  address : option string;
  created_at : string;
  updated_at : string }.
End ClientRow.

Module InvoiceRow.
Record t := mk {
  id : string;
  user_id : string;
  client_id : option string;
  invoice_number : string;
  status : InvoiceStatus;
  issue_date : string;
  due_date : string;
  subtotal : number;
  tax : number;
  total : number;
  notes : option string;
  created_at : string;
  updated_at : string }.
End InvoiceRow.

Module LineItemRow.
Record t := mk {
  id : string;
  invoice_id : string;
  description : string;
  quantity : number;
  rate : number;
  amount : number }.
End LineItemRow.

Module SequenceRow.
Record t := mk { user_id : string; last_number : Z }.
End SequenceRow.

(** database.types.ts: the application types of the frontend. *)
Module Client.
Record t := mk {
  id : string;
  name : string;
  email : string;
  company : option string;
  phone : option string;
  address : option string;
  createdAt : string;
  updatedAt : string }.
End Client.

Module Invoice.
Record t := mk {
  id : string;
  clientId : string;
  client : option Client.t;
  invoiceNumber : string;
  status : InvoiceStatus;
  issueDate : string;
  dueDate : string;
  lineItems : list LineItem.t;
  subtotal : number;
  tax : number;
  total : number;
  notes : option string;
  createdAt : string;
  updatedAt : string }.
End Invoice.

(** Partial<InvoiceInput>: every property may be left out. *)
Module PartialInvoiceInput.
Record t := mk {
  clientId : option string;
  issueDate : option string;
  dueDate : option string;
  lineItems : option (list LineItemInput.t);
  notes : option string;
  status : option InvoiceStatus }.
End PartialInvoiceInput.

Record Database := {
  clients : list ClientRow.t;
  invoices : list InvoiceRow.t;
  line_items : list LineItemRow.t;
  invoice_sequences : list SequenceRow.t }.

(** The tables and the number of requests sent so far. *)
Record Remote := { database : Database; requests : nat }.

Record PostgrestError := { code : string }.

(** What a call meets outside: the signed-in user (if any), the error (if
    any) the n-th request fails with, the ids and the time stamp the
    database gives to inserted rows, and the two dates [duplicate] reads
    from the clock. *)
Record Session := {
  user : option string;
  fault : nat -> option PostgrestError;
  gen_random_uuid : nat -> nat -> string;
  db_now : string;
  date_today : string;
  date_in_30_days : string }.

(** The replies of the queries the service sends. *)
Module Query.

Definition no_rows : PostgrestError := {| code := "PGRST116" |}.

(** .single(): exactly one row, else the error PGRST116. *)
Definition single {A} (rows : list A) : PostgrestError + A :=
  match rows with
  | [row] => inr row
  | _ => inl no_rows
  end.

Definition select_sequence (userId : string) (d : Database)
    : (PostgrestError + SequenceRow.t) * Database :=
  (single (List.filter (fun row => String.eqb (SequenceRow.user_id row) userId)
                       (invoice_sequences d)), d).

Definition insert_sequence (row : SequenceRow.t) (d : Database)
    : (PostgrestError + unit) * Database :=
  (inr tt, {| clients := clients d; invoices := invoices d;
              line_items := line_items d;
              invoice_sequences := invoice_sequences d ++ [row] |}).

Definition update_sequence (userId : string) (last_number : Z) (d : Database)
    : (PostgrestError + unit) * Database :=
  (inr tt, {| clients := clients d; invoices := invoices d;
              line_items := line_items d;
              invoice_sequences :=
                List.map (fun row =>
                  if String.eqb (SequenceRow.user_id row) userId
                  then {| SequenceRow.user_id := SequenceRow.user_id row;
                          SequenceRow.last_number := last_number |}
                  else row) (invoice_sequences d) |}).

(** The client a row of invoices is joined with: clients(...) *)
Definition joined_client (d : Database) (row : InvoiceRow.t) : option ClientRow.t :=
  match InvoiceRow.client_id row with
  | Some cid => List.find (fun c => String.eqb (ClientRow.id c) cid) (clients d)
  | None => None
  end.

(** insert(row).select('*, clients(...)').single() *)
Definition insert_invoice (row : InvoiceRow.t) (d : Database)
    : (PostgrestError + InvoiceRow.t * option ClientRow.t) * Database :=
  (inr (row, joined_client d row),
   {| clients := clients d; invoices := invoices d ++ [row];
      line_items := line_items d; invoice_sequences := invoice_sequences d |}).

Definition insert_line_items (rows : list LineItemRow.t) (d : Database)
    : (PostgrestError + unit) * Database :=
  (inr tt, {| clients := clients d; invoices := invoices d;
              line_items := line_items d ++ rows;
              invoice_sequences := invoice_sequences d |}).

(** delete().eq('id', id) on invoices; the line items of a deleted
    invoice go with it (ON DELETE CASCADE). *)
Definition delete_invoice (id : string) (d : Database)
    : (PostgrestError + unit) * Database :=
  (inr tt, {| clients := clients d;
              invoices :=
                List.filter (fun row => negb (String.eqb (InvoiceRow.id row) id)) (invoices d);
              line_items :=
                List.filter (fun row => negb (String.eqb (LineItemRow.invoice_id row) id))
                            (line_items d);
              invoice_sequences := invoice_sequences d |}).

(** delete().eq('id', id).eq('user_id', userId) on invoices; the line
    items of a deleted invoice go with it (ON DELETE CASCADE). *)
Definition delete_own_invoice (id userId : string) (d : Database)
    : (PostgrestError + unit) * Database :=
  let matches row :=
    String.eqb (InvoiceRow.id row) id && String.eqb (InvoiceRow.user_id row) userId in
  (inr tt, {| clients := clients d;
              invoices := List.filter (fun row => negb (matches row)) (invoices d);
              line_items :=
                if existsb matches (invoices d)
                then List.filter (fun row => negb (String.eqb (LineItemRow.invoice_id row) id))
                                 (line_items d)
                else line_items d;
              invoice_sequences := invoice_sequences d |}).

(** update(data).eq('id', id).eq('user_id', userId)
    .select('*, clients(...)').single(): the rows that match are changed
    and returned; when they are not exactly one the reply is the error
    PGRST116 and nothing is changed. *)
Definition update_invoice (id userId : string) (change : InvoiceRow.t -> InvoiceRow.t)
    (d : Database) : (PostgrestError + InvoiceRow.t * option ClientRow.t) * Database :=
  let matches row :=
    String.eqb (InvoiceRow.id row) id && String.eqb (InvoiceRow.user_id row) userId in
  match single (List.filter matches (invoices d)) with
  | inr row =>
      (inr (change row, joined_client d (change row)),
       {| clients := clients d;
          invoices := List.map (fun row => if matches row then change row else row)
                               (invoices d);
          line_items := line_items d;
          invoice_sequences := invoice_sequences d |})
  | inl e => (inl e, d)
  end.

(** delete().eq('invoice_id', id) on line_items *)
Definition delete_line_items (invoice_id : string) (d : Database)
    : (PostgrestError + unit) * Database :=
  (inr tt, {| clients := clients d; invoices := invoices d;
              line_items :=
                List.filter (fun row => negb (String.eqb (LineItemRow.invoice_id row)
                                                         invoice_id))
                            (line_items d);
              invoice_sequences := invoice_sequences d |}).

(** select('*, clients(...)').eq('id', id).eq('user_id', userId).single() *)
Definition select_invoice (id userId : string) (d : Database)
    : (PostgrestError + InvoiceRow.t * option ClientRow.t) * Database :=
  (match single (List.filter (fun row => String.eqb (InvoiceRow.id row) id
                                         && String.eqb (InvoiceRow.user_id row) userId)
                             (invoices d)) with
   | inr row => inr (row, joined_client d row)
   | inl e => inl e
   end, d).

Definition select_line_items (invoice_id : string) (d : Database)
    : (PostgrestError + list LineItemRow.t) * Database :=
  (inr (List.filter (fun row => String.eqb (LineItemRow.invoice_id row) invoice_id)
                    (line_items d)), d).

End Query.

Module invoiceService.
Section WithSession.
Variable session : Session.

(** await supabase.from(...)...: the reply { data, error } of the next
    request. *)
Definition request {A} (query : Database -> (PostgrestError + A) * Database)
    : Eff Remote (PostgrestError + A) :=
  fun r =>
    match fault session (requests r) with
    | Some e => (Returns (inl e), {| database := database r; requests := S (requests r) |})
    | None =>
        let '(reply, d) := query (database r) in
        (Returns reply, {| database := d; requests := S (requests r) |})
    end.

(** The number of the request about to be sent. *)
Definition request_number : Eff Remote nat := fun r => (Returns (requests r), r).

Definition toLineItem (row : LineItemRow.t) : LineItem.t :=
  {| LineItem.id := LineItemRow.id row;
     LineItem.description := LineItemRow.description row;
     LineItem.quantity := LineItemRow.quantity row;
     LineItem.rate := LineItemRow.rate row;
     LineItem.amount := LineItemRow.amount row |}.

Definition toClient (row : ClientRow.t) : Client.t :=
  {| Client.id := ClientRow.id row;
     Client.name := ClientRow.name row;
     Client.email := ClientRow.email row;
     Client.company := ClientRow.company row;
     Client.phone := ClientRow.phone row;
     Client.address := ClientRow.address row;
     Client.createdAt := ClientRow.created_at row;
     Client.updatedAt := ClientRow.updated_at row |}.

Definition toInvoice (row : InvoiceRow.t) (lineItems : list LineItemRow.t)
    (client : option ClientRow.t) : Invoice.t :=
  {| Invoice.id := InvoiceRow.id row;
     Invoice.clientId := default "" (InvoiceRow.client_id row);
     Invoice.client := toClient <$> client;
     Invoice.invoiceNumber := InvoiceRow.invoice_number row;
     Invoice.status := InvoiceRow.status row;
     Invoice.issueDate := InvoiceRow.issue_date row;
     Invoice.dueDate := InvoiceRow.due_date row;
     Invoice.lineItems := List.map toLineItem lineItems;
     Invoice.subtotal := InvoiceRow.subtotal row;
     Invoice.tax := InvoiceRow.tax row;
     Invoice.total := InvoiceRow.total row;
     Invoice.notes := InvoiceRow.notes row;
     Invoice.createdAt := InvoiceRow.created_at row;
     Invoice.updatedAt := InvoiceRow.updated_at row |}.

(** handleError(error): never returns.  An error object of a reply is
    no TypeError, so the network test does not apply to it. *)
Definition handleError {A} (error : PostgrestError) : Eff Remote A :=
  if String.eqb (code error) "23505"
  then throw (Message "An invoice with this number already exists")
  else if String.eqb (code error) "23503"
  then throw (Message "Referenced client does not exist")
  else if String.eqb (code error) "PGRST116"
  then throw (Message "Invoice not found")
  else throw (Message "A database error occurred. Please try again.").

Definition getCurrentUserId : Eff Remote string :=
  match user session with
  | Some id => ret id
  | None => throw (Message "You must be logged in to perform this action")
  end.

(** calculateTotals(lineItems, taxRate = 0) *)
Definition calculateTotals (lineItems : list LineItemInput.t)
    (taxRate : option number) : Totals.t :=
  let taxRate := default (JS.of_Z 0) taxRate in
  let subtotal :=
    fold_left (fun sum item =>
      JS.add sum (JS.mul (LineItemInput.quantity item) (LineItemInput.rate item)))
      lineItems (JS.of_Z 0) in
  let tax := JS.mul subtotal (JS.div taxRate (JS.of_Z 100)) in
  let total := JS.add subtotal tax in
  {| Totals.subtotal := JS.div (JS.Math_round (JS.mul subtotal (JS.of_Z 100))) (JS.of_Z 100);
     Totals.tax := JS.div (JS.Math_round (JS.mul tax (JS.of_Z 100))) (JS.of_Z 100);
     Totals.total := JS.div (JS.Math_round (JS.mul total (JS.of_Z 100))) (JS.of_Z 100) |}.

Definition getById (id : string) : Eff Remote (option Invoice.t) :=
  userId <- getCurrentUserId ;;
  reply <- request (Query.select_invoice id userId) ;;
  match reply with
  | inl invoiceError =>
      if String.eqb (code invoiceError) "PGRST116" then ret None
      else handleError invoiceError
  | inr (invoice, client) =>
      reply <- request (Query.select_line_items id) ;;
      match reply with
      | inl lineItemsError => handleError lineItemsError
      | inr lineItems => ret (Some (toInvoice invoice lineItems client))
      end
  end.

Definition generateInvoiceNumber : Eff Remote string :=
  userId <- getCurrentUserId ;;
  reply <- request (Query.select_sequence userId) ;;
  nextNumber <-
    match reply with
    | inl fetchError =>
        if String.eqb (code fetchError) "PGRST116" then
          reply <- request (Query.insert_sequence
                              {| SequenceRow.user_id := userId;
                                 SequenceRow.last_number := 1 |}) ;;
          match reply with
          | inl insertError => handleError insertError
          | inr _ => ret 1
          end
        else handleError fetchError
    | inr sequence =>
        let nextNumber := SequenceRow.last_number sequence + 1 in
        reply <- request (Query.update_sequence userId nextNumber) ;;
        match reply with
        | inl updateError => handleError updateError
        | inr _ => ret nextNumber
        end
    end ;;
  ret ("INV-" ++ JS.padStart0 4 (JS.String_of nextNumber)).

Definition create (input : InvoiceInput.t) : Eff Remote (option Invoice.t) :=
  userId <- getCurrentUserId ;;
  invoiceNumber <- generateInvoiceNumber ;;
  let totals := calculateTotals (InvoiceInput.lineItems input) None in
  n <- request_number ;;
  reply <- request (Query.insert_invoice
    {| InvoiceRow.id := gen_random_uuid session n 0;
       InvoiceRow.user_id := userId;
       InvoiceRow.client_id :=
         if String.eqb (InvoiceInput.clientId input) "" then None
         else Some (InvoiceInput.clientId input);
       InvoiceRow.invoice_number := invoiceNumber;
       InvoiceRow.status := invoiceService.status_or (InvoiceInput.status input) "draft";
       InvoiceRow.issue_date := InvoiceInput.issueDate input;
       InvoiceRow.due_date := InvoiceInput.dueDate input;
       InvoiceRow.subtotal := Totals.subtotal totals;
       InvoiceRow.tax := Totals.tax totals;
       InvoiceRow.total := Totals.total totals;
       InvoiceRow.notes := InvoiceInput.notes input;
       InvoiceRow.created_at := db_now session;
       InvoiceRow.updated_at := db_now session |}) ;;
  match reply with
  | inl invoiceError => handleError invoiceError
  | inr (invoice, _) =>
      (if (0 <? List.length (InvoiceInput.lineItems input))%nat then
         n <- request_number ;;
         let lineItemsToInsert :=
           imap (fun i item =>
             {| LineItemRow.id := gen_random_uuid session n i;
                LineItemRow.invoice_id := InvoiceRow.id invoice;
                LineItemRow.description := LineItemInput.description item;
                LineItemRow.quantity := LineItemInput.quantity item;
                LineItemRow.rate := LineItemInput.rate item;
                LineItemRow.amount :=
                  JS.mul (LineItemInput.quantity item) (LineItemInput.rate item) |})
             (InvoiceInput.lineItems input) in
         reply <- request (Query.insert_line_items lineItemsToInsert) ;;
         match reply with
         | inl lineItemsError =>
             request (Query.delete_invoice (InvoiceRow.id invoice)) ;;;
             handleError lineItemsError
         | inr _ => ret tt
         end
       else ret tt) ;;;
      getById (InvoiceRow.id invoice)
  end.

Definition duplicate (id : string) : Eff Remote (option Invoice.t) :=
  getCurrentUserId ;;;
  original <- getById id ;;
  match original with
  | None => throw (Message "Invoice not found")
  | Some original =>
      create
        {| InvoiceInput.clientId := Invoice.clientId original;
           InvoiceInput.issueDate := date_today session;
           InvoiceInput.dueDate := date_in_30_days session;
           InvoiceInput.lineItems :=
             List.map (fun item =>
               {| LineItemInput.description := LineItem.description item;
                  LineItemInput.quantity := LineItem.quantity item;
                  LineItemInput.rate := LineItem.rate item |})
               (Invoice.lineItems original);
           InvoiceInput.notes := Invoice.notes original;
           InvoiceInput.status := Some "draft" |}
  end.

(** The object updateData of update, as the change it makes to a row:
    the properties the input leaves out keep their value.  [now] is
    new Date().toISOString() at the call. *)
Definition updateData (now : string) (input : PartialInvoiceInput.t) (row : InvoiceRow.t)
    : InvoiceRow.t :=
  let totals := (fun lineItems => calculateTotals lineItems None)
                  <$> PartialInvoiceInput.lineItems input in
  {| InvoiceRow.id := InvoiceRow.id row;
     InvoiceRow.user_id := InvoiceRow.user_id row;
     InvoiceRow.client_id :=
       match PartialInvoiceInput.clientId input with
       | Some clientId => if String.eqb clientId "" then None else Some clientId
       | None => InvoiceRow.client_id row
       end;
     InvoiceRow.invoice_number := InvoiceRow.invoice_number row;
     InvoiceRow.status :=
       default (InvoiceRow.status row) (PartialInvoiceInput.status input);
     InvoiceRow.issue_date :=
       default (InvoiceRow.issue_date row) (PartialInvoiceInput.issueDate input);
     InvoiceRow.due_date :=
       default (InvoiceRow.due_date row) (PartialInvoiceInput.dueDate input);
     InvoiceRow.subtotal := default (InvoiceRow.subtotal row) (Totals.subtotal <$> totals);
     InvoiceRow.tax := default (InvoiceRow.tax row) (Totals.tax <$> totals);
     InvoiceRow.total := default (InvoiceRow.total row) (Totals.total <$> totals);
     InvoiceRow.notes :=
       match PartialInvoiceInput.notes input with
       | Some notes => Some notes
       | None => InvoiceRow.notes row
       end;
     InvoiceRow.created_at := InvoiceRow.created_at row;
     InvoiceRow.updated_at := now |}.

Definition update (now : string) (id : string) (input : PartialInvoiceInput.t)
    : Eff Remote (option Invoice.t) :=
  userId <- getCurrentUserId ;;
  reply <- request (Query.update_invoice id userId (updateData now input)) ;;
  match reply with
  | inl invoiceError => handleError invoiceError
  | inr _ =>
      match PartialInvoiceInput.lineItems input with
      | Some lineItems =>
          request (Query.delete_line_items id) ;;;
          if (0 <? List.length lineItems)%nat then
            n <- request_number ;;
            let lineItemsToInsert :=
              imap (fun i item =>
                {| LineItemRow.id := gen_random_uuid session n i;
                   LineItemRow.invoice_id := id;
                   LineItemRow.description := LineItemInput.description item;
                   LineItemRow.quantity := LineItemInput.quantity item;
                   LineItemRow.rate := LineItemInput.rate item;
                   LineItemRow.amount :=
                     JS.mul (LineItemInput.quantity item) (LineItemInput.rate item) |})
                lineItems in
            reply <- request (Query.insert_line_items lineItemsToInsert) ;;
            match reply with
            | inl lineItemsError => handleError lineItemsError
            | inr _ => ret tt
            end
          else ret tt
      | None => ret tt
      end ;;;
      getById id
  end.

Definition delete (id : string) : Eff Remote unit :=
  userId <- getCurrentUserId ;;
  reply <- request (Query.delete_own_invoice id userId) ;;
  match reply with
  | inl error => handleError error
  | inr _ => ret tt
  end.

End WithSession.
End invoiceService.

End Supabase.

(** ** The vocabulary of the specification *)

Module Spec.

(** round2, as the code computes it: Math.round(x * 100) / 100. *)
Definition round2 (x : number) : number :=
  JS.div (JS.Math_round (JS.mul x (JS.of_Z 100))) (JS.of_Z 100).

(** round2 with the rounding the specification names: half away from
    zero at the cent boundary. *)
Definition round2_half_away (x : number) : number :=
  JS.div (JS.round_away (JS.mul x (JS.of_Z 100))) (JS.of_Z 100).

(** A sum of numbers, added from the left starting at 0. *)
Definition sum (xs : list number) : number := fold_left JS.add xs (JS.of_Z 0).

(** quantity_i * rate_i, item by item. *)
Definition products (lineItems : list LineItemInput.t) : list number :=
  List.map (fun item => JS.mul (LineItemInput.quantity item) (LineItemInput.rate item))
           lineItems.

(** The three totals, each rounded on its own by [round], for the tax
    rate [default_rate] when none is supplied. *)
Definition totals (round : number -> number) (default_rate : Z)
    (lineItems : list LineItemInput.t) (taxRate : option number) : Totals.t :=
  let taxRate := default (JS.of_Z default_rate) taxRate in
  let subtotal := sum (products lineItems) in
  let tax := JS.mul subtotal (JS.div taxRate (JS.of_Z 100)) in
  {| Totals.subtotal := round subtotal;
     Totals.tax := round tax;
     Totals.total := round (JS.add subtotal tax) |}.

(** The totals as the specification words them: taxRate defaulting to
    10, rounding half away from zero. *)
Definition totals_as_specified (calculateTotals : list LineItemInput.t -> option number -> Totals.t)
    : Prop :=
  forall lineItems taxRate,
    calculateTotals lineItems taxRate = totals round2_half_away 10 lineItems taxRate.

(** The invoice checkOverdue puts in the place of [invoice]. *)
Definition mark (today : string) (invoice : Invoice.t) : Invoice.t :=
  if invoiceService.is_overdue today invoice
  then Invoice.with_status invoice "overdue" else invoice.

(** The sequence getNextSequence gives for a stored counter: 1 when there
    is none or it is of another year, and else the stored sequence plus 1,
    added as numbers are. *)
Definition next_sequence (currentYear : Z) (stored : option CounterData.t) : Z :=
  match stored with
  | None => 1
  | Some counter =>
      if CounterData.year counter =? currentYear
      then JS.add_integers (CounterData.sequence counter) 1 else 1
  end.

(** The sequencer, in the words of the specification: for every stored
    counter of the current year the next sequence is the stored sequence
    plus 1, and the call that follows is given a strictly greater one. *)
Definition sequencer_as_specified : Prop :=
  forall (env : Env) (w : World) (counter : CounterData.t),
    available (localStorage w) = true ->
    invoicey_invoice_counter_data (localStorage w) = Some counter ->
    CounterData.year counter = currentYear env ->
    exists (first second : Z) (invoiceNumber : string) (w' : World),
      invoiceNumberGenerator.getNextSequence env w = (Returns first, w)
      /\ invoiceNumberGenerator.generate env w = (Returns invoiceNumber, w')
      /\ invoiceNumberGenerator.getNextSequence env w' = (Returns second, w')
      /\ first = CounterData.sequence counter + 1
      /\ first < second.

(** INV-<year>-<sequence zero-padded to 3 digits> *)
Definition invoice_number (year sequence : Z) : string :=
  "INV-" ++ JS.String_of year ++ "-" ++ JS.padStart0 3 (JS.String_of sequence).

(** What is persisted, as the services read it back. *)
Definition stored_invoices (w : World) : list Invoice.t :=
  if available (localStorage w)
  then default [] (JSON.parse <$> invoicey_invoices (localStorage w)) else [].

Definition stored_clients (w : World) : list Client.t :=
  if available (localStorage w)
  then default [] (invoicey_clients (localStorage w)) else [].

Definition stored_counter (w : World) : option CounterData.t :=
  if available (localStorage w)
  then invoicey_invoice_counter_data (localStorage w) else None.

(** The world after [n] more values were drawn from Math.random. *)
Definition after_draws (n : nat) (w : World) : World :=
  {| localStorage := localStorage w; draws := (draws w + n)%nat |}.

(** [operation], run in [w], overwrites the status of the invoice stored
    at position [i] and nothing else. *)
Definition changes_status_only (operation : M Invoice.t) (status : InvoiceStatus)
    (w : World) (i : nat) (invoice : Invoice.t) : Prop :=
  exists (updated : Invoice.t) (w' : World),
    operation w = (Returns updated, w')
    /\ Invoice.status updated = status
    /\ Invoice.id updated = Invoice.id invoice
    /\ Invoice.invoiceNumber updated = Invoice.invoiceNumber invoice
    /\ Invoice.clientId updated = Invoice.clientId invoice
    /\ Invoice.client updated = Invoice.client invoice
    /\ Invoice.issueDate updated = Invoice.issueDate invoice
    /\ Invoice.dueDate updated = Invoice.dueDate invoice
    /\ Invoice.lineItems updated = Invoice.lineItems invoice
    /\ Invoice.subtotal updated = Invoice.subtotal invoice
    /\ Invoice.tax updated = Invoice.tax invoice
    /\ Invoice.total updated = Invoice.total invoice
    /\ Invoice.notes updated = Invoice.notes invoice
    /\ Invoice.createdAt updated = Invoice.createdAt invoice
    /\ stored_invoices w' = <[i := updated]> (stored_invoices w)
    /\ List.length (stored_invoices w') = List.length (stored_invoices w)
    /\ stored_invoices w' !! i = Some updated
    /\ (forall j : nat, j <> i -> stored_invoices w' !! j = stored_invoices w !! j)
    /\ stored_clients w' = stored_clients w
    /\ stored_counter w' = stored_counter w.



(** Nothing is left of [s] once it is trimmed. *)
Definition blank (s : string) : Prop := JS.trim s = "".

(** A computation that comes back with a value. *)
Definition returns {S A : Type} (c : Eff S A) (w : S) : Prop :=
  exists (a : A) (w' : S), c w = (Returns a, w').

(** Validation failures are never thrown, in the words of the
    specification: create and update come back with a value whatever
    the input. *)
Definition validation_never_throws : Prop :=
  forall (env : Env) (w : World),
    (forall input clients,
       ValidationResult.valid (invoiceService.validate input) = false ->
       returns (invoiceService.create env input clients) w)
    /\ (forall id input clients,
       ValidationResult.valid (invoiceService.validate input) = false ->
       returns (invoiceService.update env id input clients) w)
    /\ (forall input,
       ValidationResult.valid (clientService.validate input) = false ->
       returns (clientService.create env input) w)
    /\ (forall id input,
       ValidationResult.valid (clientService.validate input) = false ->
       returns (clientService.update id input) w).

(** [invoice] is the stored invoice the services find for [id]: the first
    one of the collection with that id, at position [i]. *)
Definition found (w : World) (id : string) (i : nat) (invoice : Invoice.t) : Prop :=
  stored_invoices w !! i = Some invoice
  /\ Invoice.id invoice = id
  /\ (forall (j : nat) (other : Invoice.t),
       stored_invoices w !! j = Some other -> (j < i)%nat -> Invoice.id other <> id).

(** One operation of the invoice repository takes the invoice [before]
    to the record [after] with the same id. *)
Definition yields (env : Env) (w : World) (before after : Invoice.t) : Prop :=
  (exists i input clients w',
     found w (Invoice.id before) i before
     /\ invoiceService.update env (Invoice.id before) input clients w = (Returns after, w'))
  \/ (exists i w',
     found w (Invoice.id before) i before
     /\ invoiceService.markAsPaid (Invoice.id before) w = (Returns after, w'))
  \/ (exists i w',
     found w (Invoice.id before) i before
     /\ invoiceService.markAsSent (Invoice.id before) w = (Returns after, w'))
  \/ (exists invoices i updated w',
     invoiceService.checkOverdue env invoices w = (Returns updated, w')
     /\ invoices !! i = Some before /\ updated !! i = Some after).

(** The state machine, in the words of the specification: nothing goes
    back to 'draft' and nothing leaves 'paid'. *)
Definition no_way_back : Prop :=
  forall (env : Env) (w : World) (before after : Invoice.t),
    yields env w before after ->
    (Invoice.status before <> "draft" -> Invoice.status after <> "draft")
    /\ (Invoice.status before = "paid" -> Invoice.status after = "paid").

(** invoice.status === status *)
Definition has_status (status : InvoiceStatus) (invoice : Invoice.t) : bool :=
  String.eqb (Invoice.status invoice) status.

(** The invoices of a collection with a given status, and their totals. *)
Definition with_status (status : InvoiceStatus) (invoices : list Invoice.t)
    : list Invoice.t :=
  List.filter (has_status status) invoices.

Definition totals_of (status : InvoiceStatus) (invoices : list Invoice.t) : list number :=
  List.map Invoice.total (with_status status invoices).




(** The next [n] requests of the session all reach the database. *)
Definition requests_succeed (session : Supabase.Session) (r : Supabase.Remote) (n : nat)
    : Prop :=
  forall k : nat, (k < n)%nat -> Supabase.fault session (k + Supabase.requests r) = None.


(** [n] calls of generate in a row, and the numbers they return. *)
Fixpoint generate_many (env : Env) (n : nat) : M (list string) :=
  match n with
  | O => ret []
  | S n' =>
      number <- invoiceNumberGenerator.generate env ;;
      rest <- generate_many env n' ;;
      ret (number :: rest)
  end.

(** The number a run of decimal digits denotes, read from the left after
    [acc]. *)
Fixpoint parse_decimal (acc : N) (s : string) : N :=
  match s with
  | EmptyString => acc
  | String c rest => parse_decimal (acc * 10 + (N_of_ascii c - 48))%N rest
  end.

(** A number that JSON gives back as it was written: any but -0, NaN and
    the two infinities. *)
Definition kept_by_JSON (x : number) : Prop :=
  x <> S754_zero true /\ x <> S754_nan /\ x <> S754_infinity false
  /\ x <> S754_infinity true.

(** An invoice all of whose numbers are given back as they were written. *)
Definition written_as_is (invoice : Invoice.t) : Prop :=
  kept_by_JSON (Invoice.subtotal invoice)
  /\ kept_by_JSON (Invoice.tax invoice)
  /\ kept_by_JSON (Invoice.total invoice)
  /\ Forall (fun item =>
               kept_by_JSON (LineItem.quantity item)
               /\ kept_by_JSON (LineItem.rate item)
               /\ kept_by_JSON (LineItem.amount item))
            (Invoice.lineItems invoice).

(** [part] occurs in [s] as a contiguous run of characters. *)
Definition occurs (part s : string) : Prop :=
  exists pre post : string, s = pre ++ part ++ post.

(** A comparator that orders [keys] consistently, as Array.prototype.sort
    asks of its callback: swapping the arguments swaps the sign, and
    "not after" is transitive. *)
Definition consistent (compare : string -> string -> Z) (keys : list string) : Prop :=
  (forall a b : string, In a keys -> In b keys -> Z.sgn (compare a b) = - Z.sgn (compare b a))
  /\ (forall a b c : string,
        In a keys -> In b keys -> In c keys ->
        compare a b <= 0 -> compare b c <= 0 -> compare a c <= 0).

(** [result] holds the [n] most recently created of [items] (all of them
    when there are fewer), most recent first: the items left out are [rest],
    and none of them is more recent than a returned one. *)
Definition most_recent {A : Type} (localeCompare : string -> string -> Z)
    (createdAt : A -> string) (n : nat) (items result : list A) : Prop :=
  List.length result = Nat.min n (List.length items)
  /\ (forall (i j : nat) (a b : A),
        result !! i = Some a -> result !! j = Some b -> (i < j)%nat ->
        localeCompare (createdAt b) (createdAt a) <= 0)
  /\ exists rest : list A,
       Permutation (result ++ rest) items
       /\ (forall a b : A,
             In a result -> In b rest -> localeCompare (createdAt b) (createdAt a) <= 0).

(** The status is one of the four the services know. *)
Definition known_status (invoice : Invoice.t) : Prop :=
  Invoice.status invoice = "paid" \/ Invoice.status invoice = "sent"
  \/ Invoice.status invoice = "overdue" \/ Invoice.status invoice = "draft".

End Spec.

(** ** Sample data, after tests/services.test.ts *)

Module Sample.

Definition env : Env :=
  {| Date_now := 1767225600000;
     today := "2026-01-15";
     currentYear := 2026;
     Math_random := fun k => "r" ++ pretty k |}.

Definition empty : World :=
  {| localStorage :=
       {| available := true; invoicey_clients := None; invoicey_invoices := None;
          invoicey_invoice_counter_data := None |};
     draws := 0 |}.

Definition mockClient : Client.t :=
  {| Client.id := "client_1"; Client.name := "Test Client";
     Client.email := "test@example.com"; Client.company := Some "Acme Inc";
     Client.phone := None; Client.address := None; Client.createdAt := "2026-01-01" |}.

Definition invoice (id number : string) (status : InvoiceStatus) (dueDate : string)
    (total : Z) : Invoice.t :=
  {| Invoice.id := id; Invoice.invoiceNumber := number; Invoice.clientId := "client_1";
     Invoice.client := mockClient; Invoice.status := status;
     Invoice.issueDate := "2026-01-01"; Invoice.dueDate := dueDate;
     Invoice.lineItems :=
       [ {| LineItem.id := "item_1"; LineItem.description := "Test";
            LineItem.quantity := JS.of_Z 1; LineItem.rate := JS.of_Z total;
            LineItem.amount := JS.of_Z total |} ];
     Invoice.subtotal := JS.of_Z total; Invoice.tax := JS.of_Z 0;
     Invoice.total := JS.of_Z total; Invoice.notes := Some "net 30";
     Invoice.createdAt := "2026-01-01" |}.

Definition inv1 : Invoice.t := invoice "inv1" "INV-2026-001" "paid" "2026-01-31" 110.
Definition inv2 : Invoice.t := invoice "inv2" "INV-2026-002" "sent" "2026-01-10" 220.
Definition inv3 : Invoice.t := invoice "inv3" "INV-2026-003" "overdue" "2026-01-05" 330.
Definition inv4 : Invoice.t := invoice "inv4" "INV-2026-004" "draft" "2026-01-31" 440.

Definition invoices : list Invoice.t := [inv1; inv2; inv3; inv4].

(** A browser that holds the four invoices, the client and the counter. *)
Definition stocked : World :=
  {| localStorage :=
       {| available := true;
          invoicey_clients := Some [mockClient];
          invoicey_invoices := Some invoices;
          invoicey_invoice_counter_data :=
            Some {| CounterData.year := 2026; CounterData.sequence := 4 |} |};
     draws := 0 |}.


Definition lineItem (description : string) (quantity rate : Z) : LineItemInput.t :=
  {| LineItemInput.description := description;
     LineItemInput.quantity := JS.of_Z quantity; LineItemInput.rate := JS.of_Z rate |}.

Definition input : InvoiceInput.t :=
  {| InvoiceInput.clientId := "client_1"; InvoiceInput.issueDate := "2026-01-01";
     InvoiceInput.dueDate := "2026-01-31";
     InvoiceInput.lineItems := [lineItem "Test Item" 2 100];
     InvoiceInput.notes := None; InvoiceInput.status := None |}.

(** No client selected and no line item. *)
Definition invalid_input : InvoiceInput.t :=
  {| InvoiceInput.clientId := ""; InvoiceInput.issueDate := "2026-01-01";
     InvoiceInput.dueDate := "2026-01-31"; InvoiceInput.lineItems := [];
     InvoiceInput.notes := None; InvoiceInput.status := None |}.

Definition clientInput : ClientInput.t :=
  {| ClientInput.name := " Updated "; ClientInput.email := "updated@example.com";
     ClientInput.company := None; ClientInput.phone := Some " 555 ";
     ClientInput.address := None |}.

(** The form of an invoice edited and saved as a draft. *)
Definition draft_input : InvoiceInput.t :=
  {| InvoiceInput.clientId := "client_1"; InvoiceInput.issueDate := "2026-01-01";
     InvoiceInput.dueDate := "2026-01-31";
     InvoiceInput.lineItems := [lineItem "Test Item" 2 100];
     InvoiceInput.notes := None; InvoiceInput.status := Some "draft" |}.

(** An invoice created as 'sent' in an empty store, the invoice that create
    returns for it, and the store it leaves. *)
Definition sent_input : InvoiceInput.t :=
  {| InvoiceInput.clientId := "client_1"; InvoiceInput.issueDate := "2026-01-01";
     InvoiceInput.dueDate := "2026-01-31";
     InvoiceInput.lineItems := [lineItem "Test Item" 2 100];
     InvoiceInput.notes := None; InvoiceInput.status := Some "sent" |}.

Definition sent_invoice : Invoice.t :=
  match fst (invoiceService.create env sent_input [mockClient] empty) with
  | Returns created => created
  | Throws _ => inv2
  end.

Definition after_create : World :=
  snd (invoiceService.create env sent_input [mockClient] empty).

(** A credit of less than half a cent: the totals of the invoice created
    from it are -0. *)
Definition credit_input : InvoiceInput.t :=
  {| InvoiceInput.clientId := "client_1"; InvoiceInput.issueDate := "2026-01-01";
     InvoiceInput.dueDate := "2026-01-31";
     InvoiceInput.lineItems :=
       [ {| LineItemInput.description := "Credit";
            LineItemInput.quantity := JS.of_Z (-1);
            LineItemInput.rate := JS.ratio 4 1000 |} ];
     InvoiceInput.notes := None; InvoiceInput.status := None |}.

(** The no-break space U+00A0. *)
Definition nbsp : string := String (ascii_of_N 160) "".

(** [invoice], created on another day. *)
Definition created (invoice : Invoice.t) (createdAt : string) : Invoice.t :=
  {| Invoice.id := Invoice.id invoice; Invoice.invoiceNumber := Invoice.invoiceNumber invoice;
     Invoice.clientId := Invoice.clientId invoice; Invoice.client := Invoice.client invoice;
     Invoice.status := Invoice.status invoice; Invoice.issueDate := Invoice.issueDate invoice;
     Invoice.dueDate := Invoice.dueDate invoice; Invoice.lineItems := Invoice.lineItems invoice;
     Invoice.subtotal := Invoice.subtotal invoice; Invoice.tax := Invoice.tax invoice;
     Invoice.total := Invoice.total invoice; Invoice.notes := Invoice.notes invoice;
     Invoice.createdAt := createdAt |}.

(** Three invoices, the second one the most recent. *)
Definition dated : list Invoice.t :=
  [created inv1 "2026-01-02"; created inv2 "2026-01-09"; created inv3 "2026-01-05"].

(** The same client, registered on three days. *)
Definition registered : list Client.t :=
  List.map (fun createdAt =>
              {| Client.id := "client_" ++ createdAt; Client.name := "Test Client";
                 Client.email := "test@example.com"; Client.company := None;
                 Client.phone := None; Client.address := None;
                 Client.createdAt := createdAt |})
           ["2026-01-02"; "2026-01-09"; "2026-01-05"].

(** A collation: the order of the code units. *)
Definition localeCompare (a b : string) : Z :=
  match String.compare a b with Lt => -1 | Eq => 0 | Gt => 1 end.

(** The hosted database of a user who has numbered seven invoices. *)
Definition database : Supabase.Database :=
  {| Supabase.clients :=
       [ {| Supabase.ClientRow.id := "c1"; Supabase.ClientRow.name := "Test Client";
            Supabase.ClientRow.email := "test@example.com";
            Supabase.ClientRow.company := None; Supabase.ClientRow.phone := None;
            Supabase.ClientRow.address := None;
            Supabase.ClientRow.created_at := "2026-01-01T00:00:00Z";
            Supabase.ClientRow.updated_at := "2026-01-01T00:00:00Z" |} ];
     Supabase.invoices := [];
     Supabase.line_items := [];
     Supabase.invoice_sequences :=
       [ {| Supabase.SequenceRow.user_id := "u1";
            Supabase.SequenceRow.last_number := 7 |} ] |}.

Definition remote : Supabase.Remote :=
  {| Supabase.database := database; Supabase.requests := 0 |}.


(** A session in which every request succeeds. *)
Definition session : Supabase.Session :=
  {| Supabase.user := Some "u1";
     Supabase.fault := fun _ => None;
     Supabase.gen_random_uuid := fun n i => "uuid-" ++ pretty n ++ "-" ++ pretty i;
     Supabase.db_now := "2026-01-15T10:00:00Z";
     Supabase.date_today := "2026-01-15";
     Supabase.date_in_30_days := "2026-02-14" |}.

(** The same, for another user. *)
Definition other_session : Supabase.Session :=
  {| Supabase.user := Some "u2";
     Supabase.fault := fun _ => None;
     Supabase.gen_random_uuid := fun n i => "uuid-" ++ pretty n ++ "-" ++ pretty i;
     Supabase.db_now := "2026-01-15T10:00:00Z";
     Supabase.date_today := "2026-01-15";
     Supabase.date_in_30_days := "2026-02-14" |}.

Definition supabase_input : InvoiceInput.t :=
  {| InvoiceInput.clientId := "c1"; InvoiceInput.issueDate := "2026-01-01";
     InvoiceInput.dueDate := "2026-01-31";
     InvoiceInput.lineItems := [lineItem "Test Item" 2 100];
     InvoiceInput.notes := None; InvoiceInput.status := None |}.

(** The hosted database after that user created an invoice from
    [supabase_input], and the row of that invoice. *)
Definition created_remote : Supabase.Remote :=
  snd (Supabase.invoiceService.create session supabase_input remote).

Definition created_row : list Supabase.InvoiceRow.t :=
  Supabase.invoices (Supabase.database created_remote).

(** An edit of the status alone, and an edit of the line items alone. *)
Definition status_edit : Supabase.PartialInvoiceInput.t :=
  {| Supabase.PartialInvoiceInput.clientId := None;
     Supabase.PartialInvoiceInput.issueDate := None;
     Supabase.PartialInvoiceInput.dueDate := None;
     Supabase.PartialInvoiceInput.lineItems := None;
     Supabase.PartialInvoiceInput.notes := None;
     Supabase.PartialInvoiceInput.status := Some "sent" |}.



End Sample.

(** * Properties *)

(** ** Totals *)

Lemma fold_left_products (lineItems : list LineItemInput.t) (acc : number) :
  fold_left (fun sum item =>
      JS.add sum (JS.mul (LineItemInput.quantity item) (LineItemInput.rate item)))
    lineItems acc
  = fold_left JS.add (Spec.products lineItems) acc.
Proof.
  revert acc. induction lineItems as [|item rest IH]; intros acc; simpl.
  - reflexivity.
  - apply IH.
Qed.

(** Math.round picks the integer [n] with [n - 1/2 <= x < n + 1/2]: for
    [x = v / 2^k], [2^k (2n - 1) <= 2 v < 2^k (2n + 1)]. *)
Lemma round_half_up_nearest (s : bool) (m : positive) (k : nat) :
  let v := cond_Zopp s (Z.pos m) in
  let n := JS.round_half_up s m (- Z.of_nat k) in
  2 ^ Z.of_nat k * (2 * n - 1) <= 2 * v < 2 ^ Z.of_nat k * (2 * n + 1).
Proof.
  intros v n. subst n. unfold JS.round_half_up. fold v.
  rewrite Z.opp_involutive.
  assert (Hk : 0 < 2 ^ Z.of_nat k) by (apply Z.pow_pos_nonneg; lia).
  rewrite Z.pow_add_r by lia. change (2 ^ 1) with 2.
  set (p := 2 ^ Z.of_nat k) in *.
  pose proof (Z.div_mod (2 * v + p) (p * 2) ltac:(lia)) as Hdm.
  pose proof (Z.mod_pos_bound (2 * v + p) (p * 2) ltac:(lia)) as Hb.
  set (q := (2 * v + p) / (p * 2)) in *.
  nia.
Qed.

(** On a number that is not negative Math.round is rounding half away from
    zero. *)
Lemma Math_round_nonneg (x : number) :
  SFltb x (JS.of_Z 0) = false -> JS.Math_round x = JS.round_away x.
Proof.
  destruct x as [s|s| |s m e]; try reflexivity.
  destruct s; [discriminate|]. intros _. reflexivity.
Qed.

(** Math.round on the usual test values: 2.5, -2.5, -0.5 (which gives -0),
    0.49999999999999994 (the largest number below 0.5) and 1.005 * 100
    (which is 100.49999999999999). *)
Example Math_round_examples :
  JS.Math_round (JS.ratio 25 10) = JS.of_Z 3
  /\ JS.Math_round (JS.ratio (-25) 10) = JS.of_Z (-2)
  /\ JS.Math_round (JS.ratio (-5) 10) = S754_zero true
  /\ JS.Math_round (S754_finite false 9007199254740991 (-54)) = JS.of_Z 0
  /\ JS.Math_round (JS.mul (JS.ratio 1005 1000) (JS.of_Z 100)) = JS.of_Z 100.
Proof. repeat split; vm_compute; reflexivity. Qed.

(** A negative half-cent: Math.round (-12.5) is -12, not -13. *)
Example Math_round_negative_tie :
  JS.Math_round (JS.ratio (-125) 10) = JS.of_Z (-12)
  /\ JS.round_away (JS.ratio (-125) 10) = JS.of_Z (-13).
Proof. split; vm_compute; reflexivity. Qed.

(** The example of the specification: items (2,100), (1,50) at rate 10. *)
Example calculateTotals_example :
  invoiceService.calculateTotals
    [ {| LineItemInput.description := "Item 1";
         LineItemInput.quantity := JS.of_Z 2; LineItemInput.rate := JS.of_Z 100 |};
      {| LineItemInput.description := "Item 2";
         LineItemInput.quantity := JS.of_Z 1; LineItemInput.rate := JS.of_Z 50 |} ]
    (Some (JS.of_Z 10))
  = {| Totals.subtotal := JS.of_Z 250; Totals.tax := JS.of_Z 25; Totals.total := JS.of_Z 275 |}.
Proof. vm_compute. reflexivity. Qed.

(** The three results are rounded each on its own: for the single item
    (1, 0.0046) the subtotal and the tax round to 0 and the total to 0.01. *)
Example totals_rounded_independently :
  invoiceService.calculateTotals
    [ {| LineItemInput.description := "Item";
         LineItemInput.quantity := JS.of_Z 1; LineItemInput.rate := JS.ratio 46 10000 |} ]
    None
  = {| Totals.subtotal := JS.of_Z 0; Totals.tax := JS.of_Z 0;
       Totals.total := JS.ratio 1 100 |}.
Proof. vm_compute. reflexivity. Qed.

(** The private calculateTotals of the Supabase-backed service charges no
    tax when no rate is given. *)
Example supabase_default_tax_rate :
  Supabase.invoiceService.calculateTotals
    [Sample.lineItem "Item 1" 2 100; Sample.lineItem "Item 2" 1 50] None
  = {| Totals.subtotal := JS.of_Z 250; Totals.tax := JS.of_Z 0; Totals.total := JS.of_Z 250 |}.
Proof. vm_compute. reflexivity. Qed.

(** C1, as stated, fails: for the single item (-1, 0.125) the subtotal is
    -0.12, where rounding half away from zero gives -0.13; and the
    calculateTotals of the Supabase-backed service, given no rate, returns
    the tax 0 for the items (2,100), (1,50), not 25. *)
Lemma calculateTotals_half_away_fails :
  ~ Spec.totals_as_specified invoiceService.calculateTotals
  /\ ~ Spec.totals_as_specified Supabase.invoiceService.calculateTotals.
Proof.
  split; intros H.
  - specialize (H [ {| LineItemInput.description := "credit";
                       LineItemInput.quantity := JS.of_Z (-1);
                       LineItemInput.rate := JS.ratio 125 1000 |} ] None).
    vm_compute in H. discriminate H.
  - specialize (H [Sample.lineItem "Item 1" 2 100; Sample.lineItem "Item 2" 1 50] None).
    vm_compute in H. discriminate H.
Qed.

(** C1 (amended): calculateTotals returns round2 of the sum of the
    products, round2 of that unrounded sum times taxRate/100, and round2 of
    the unrounded sum plus the unrounded tax, taxRate being 10 when absent
    (0 in the Supabase-backed service); round2 x is Math.round(x*100)/100,
    where Math.round takes the nearest integer and sends a tie toward
    +infinity, which is half away from zero on non-negative numbers only. *)
Theorem calculateTotals_spec :
  (forall lineItems taxRate,
     invoiceService.calculateTotals lineItems taxRate
     = Spec.totals Spec.round2 10 lineItems taxRate)
  /\ (forall lineItems taxRate,
     Supabase.invoiceService.calculateTotals lineItems taxRate
     = Spec.totals Spec.round2 0 lineItems taxRate)
  /\ (forall (s : bool) (m : positive) (k : nat),
     let v := cond_Zopp s (Z.pos m) in
     let n := JS.round_half_up s m (- Z.of_nat k) in
     2 ^ Z.of_nat k * (2 * n - 1) <= 2 * v < 2 ^ Z.of_nat k * (2 * n + 1))
  /\ (forall (m : positive) (e : Z),
     JS.Math_round (S754_finite false m e) = JS.round_away (S754_finite false m e)).
Proof.
  split; [|split; [|split]].
  - intros lineItems taxRate.
    unfold invoiceService.calculateTotals, Spec.totals, Spec.round2, Spec.sum.
    rewrite fold_left_products. reflexivity.
  - intros lineItems taxRate.
    unfold Supabase.invoiceService.calculateTotals, Spec.totals, Spec.round2, Spec.sum.
    rewrite fold_left_products. reflexivity.
  - exact round_half_up_nearest.
  - intros m e. reflexivity.
Qed.

(** ** Overdue detection *)

Section Overdue.
Variable today : string.

Lemma overdue_map_snd (invoices : list Invoice.t) (hasChanges : bool) :
  snd (invoiceService.overdue_map today hasChanges invoices) = List.map (Spec.mark today) invoices.
Proof.
  revert hasChanges. induction invoices as [|invoice rest IH]; intros hasChanges.
  - reflexivity.
  - simpl. unfold Spec.mark at 1. destruct (invoiceService.is_overdue today invoice).
    + specialize (IH true).
      destruct (invoiceService.overdue_map today true rest); simpl in *; congruence.
    + specialize (IH hasChanges).
      destruct (invoiceService.overdue_map today hasChanges rest); simpl in *; congruence.
Qed.

Lemma overdue_map_fst (invoices : list Invoice.t) (hasChanges : bool) :
  fst (invoiceService.overdue_map today hasChanges invoices)
  = hasChanges || existsb (invoiceService.is_overdue today) invoices.
Proof.
  revert hasChanges. induction invoices as [|invoice rest IH]; intros hasChanges.
  - simpl. now rewrite orb_false_r.
  - simpl. destruct (invoiceService.is_overdue today invoice).
    + specialize (IH true).
      destruct (invoiceService.overdue_map today true rest); simpl in *.
      now rewrite orb_true_r.
    + specialize (IH hasChanges).
      destruct (invoiceService.overdue_map today hasChanges rest); simpl in *.
      assumption.
Qed.

Lemma mark_not_overdue (invoice : Invoice.t) :
  invoiceService.is_overdue today (Spec.mark today invoice) = false.
Proof.
  unfold Spec.mark. destruct (invoiceService.is_overdue today invoice) eqn:E.
  - reflexivity.
  - exact E.
Qed.

Lemma marked_none_overdue (invoices : list Invoice.t) :
  existsb (invoiceService.is_overdue today) (List.map (Spec.mark today) invoices) = false.
Proof.
  induction invoices as [|invoice rest IH]; simpl.
  - reflexivity.
  - now rewrite mark_not_overdue, IH.
Qed.

Lemma mark_idempotent (invoices : list Invoice.t) :
  List.map (Spec.mark today) (List.map (Spec.mark today) invoices) = List.map (Spec.mark today) invoices.
Proof.
  induction invoices as [|invoice rest IH]; simpl.
  - reflexivity.
  - rewrite IH. f_equal. unfold Spec.mark at 1. now rewrite mark_not_overdue.
Qed.

Lemma is_overdue_true (invoice : Invoice.t) :
  invoiceService.is_overdue today invoice = true
  <-> Invoice.status invoice = "sent" /\ String.ltb (Invoice.dueDate invoice) today = true.
Proof.
  unfold invoiceService.is_overdue. rewrite andb_true_iff, String.eqb_eq. reflexivity.
Qed.

Lemma overdue_map_mark (invoices : list Invoice.t) :
  invoiceService.overdue_map today false invoices
  = (existsb (invoiceService.is_overdue today) invoices, List.map (Spec.mark today) invoices).
Proof.
  rewrite (surjective_pairing (invoiceService.overdue_map today false invoices)).
  now rewrite overdue_map_fst, overdue_map_snd.
Qed.

Lemma mark_lookup (invoices : list Invoice.t) (i : nat) (invoice : Invoice.t) :
  invoices !! i = Some invoice -> List.map (Spec.mark today) invoices !! i = Some (Spec.mark today invoice).
Proof. intros H. change (List.map (Spec.mark today) invoices) with (Spec.mark today <$> invoices).
       now rewrite list_lookup_fmap, H. Qed.

End Overdue.

(** C2: checkOverdue returns a collection of the same length in which an
    invoice that was 'sent' with dueDate < today has status 'overdue' and
    every other field of the original, every other invoice is the original
    at its position, and a second checkOverdue of the result (same day)
    returns it again and writes nothing. *)
Theorem checkOverdue_spec (env : Env) (invoices : list Invoice.t) (w : World) :
  exists (updated : list Invoice.t) (w' : World),
    invoiceService.checkOverdue env invoices w = (Returns updated, w')
    /\ List.length updated = List.length invoices
    /\ (forall (i : nat) (invoice : Invoice.t),
          invoices !! i = Some invoice ->
          Invoice.status invoice = "sent" ->
          String.ltb (Invoice.dueDate invoice) (today env) = true ->
          exists marked : Invoice.t,
            updated !! i = Some marked
            /\ Invoice.status marked = "overdue"
            /\ Invoice.id marked = Invoice.id invoice
            /\ Invoice.invoiceNumber marked = Invoice.invoiceNumber invoice
            /\ Invoice.clientId marked = Invoice.clientId invoice
            /\ Invoice.client marked = Invoice.client invoice
            /\ Invoice.issueDate marked = Invoice.issueDate invoice
            /\ Invoice.dueDate marked = Invoice.dueDate invoice
            /\ Invoice.lineItems marked = Invoice.lineItems invoice
            /\ Invoice.subtotal marked = Invoice.subtotal invoice
            /\ Invoice.tax marked = Invoice.tax invoice
            /\ Invoice.total marked = Invoice.total invoice
            /\ Invoice.notes marked = Invoice.notes invoice
            /\ Invoice.createdAt marked = Invoice.createdAt invoice)
    /\ (forall (i : nat) (invoice : Invoice.t),
          invoices !! i = Some invoice ->
          ~ (Invoice.status invoice = "sent"
             /\ String.ltb (Invoice.dueDate invoice) (today env) = true) ->
          updated !! i = Some invoice)
    /\ Forall (fun invoice =>
                 ~ (Invoice.status invoice = "sent"
                    /\ String.ltb (Invoice.dueDate invoice) (today env) = true))
              updated
    /\ invoiceService.checkOverdue env updated w' = (Returns updated, w').
Proof.
  unfold invoiceService.checkOverdue, invoiceService.getCurrentDate.
  rewrite overdue_map_mark.
  set (updated := List.map (Spec.mark (today env)) invoices).
  assert (Hrun : exists w',
    (((if existsb (invoiceService.is_overdue (today env)) invoices
       then storage.setInvoices updated else ret tt) ;;; ret updated) : M _) w
    = (Returns updated, w')).
  { destruct (existsb _ invoices); unfold bind, ret, storage.setInvoices, storage.set;
      [destruct (available (localStorage w))|]; eexists; reflexivity. }
  destruct Hrun as [w' Hrun]. exists updated, w'.
  split; [exact Hrun|]. split; [apply length_map|].
  split; [|split; [|split]].
  - intros i invoice Hi Hs Hd.
    exists {| Invoice.id := Invoice.id invoice;
              Invoice.invoiceNumber := Invoice.invoiceNumber invoice;
              Invoice.clientId := Invoice.clientId invoice;
              Invoice.client := Invoice.client invoice;
              Invoice.status := "overdue";
              Invoice.issueDate := Invoice.issueDate invoice;
              Invoice.dueDate := Invoice.dueDate invoice;
              Invoice.lineItems := Invoice.lineItems invoice;
              Invoice.subtotal := Invoice.subtotal invoice;
              Invoice.tax := Invoice.tax invoice;
              Invoice.total := Invoice.total invoice;
              Invoice.notes := Invoice.notes invoice;
              Invoice.createdAt := Invoice.createdAt invoice |}.
    split; [|repeat split].
    subst updated. rewrite (mark_lookup _ _ _ _ Hi). unfold Spec.mark.
    now rewrite (proj2 (is_overdue_true (today env) invoice) (conj Hs Hd)).
  - intros i invoice Hi Hn.
    subst updated. rewrite (mark_lookup _ _ _ _ Hi). unfold Spec.mark.
    destruct (invoiceService.is_overdue (today env) invoice) eqn:E; [|reflexivity].
    apply is_overdue_true in E. contradiction.
  - subst updated. apply Forall_forall. intros marked Hin Hpast.
    apply is_overdue_true in Hpast.
    apply list_elem_of_fmap in Hin as (invoice & -> & _).
    rewrite mark_not_overdue in Hpast. discriminate Hpast.
  - rewrite overdue_map_mark. subst updated.
    rewrite marked_none_overdue, mark_idempotent. reflexivity.
Qed.

(** Of the four sample invoices, the second ('sent', due 2025-12-31, read
    on 2026-01-01) comes back 'overdue' with its number and its total; the
    first ('paid') comes back as it was. *)
Lemma checkOverdue_spec_witness :
  exists (updated : list Invoice.t) (w' : World),
    invoiceService.checkOverdue Sample.env Sample.invoices Sample.stocked = (Returns updated, w')
    /\ (exists marked : Invoice.t,
          updated !! 1%nat = Some marked
          /\ Invoice.status marked = "overdue"
          /\ Invoice.invoiceNumber marked = Invoice.invoiceNumber Sample.inv2
          /\ Invoice.total marked = Invoice.total Sample.inv2)
    /\ updated !! 0%nat = Some Sample.inv1.
Proof.
  destruct (checkOverdue_spec Sample.env Sample.invoices Sample.stocked)
    as (updated & w' & Hrun & _ & Hsent & Hother & _).
  exists updated, w'. split; [exact Hrun|]. split.
  - destruct (Hsent 1%nat Sample.inv2 eq_refl eq_refl eq_refl)
      as (marked & Hmarked & Hstatus & _ & Hnumber & _ & _ & _ & _ & _ & _ & _ & Htotal & _).
    exists marked. repeat split; assumption.
  - apply (Hother 0%nat Sample.inv1); [reflexivity|].
    intros [Hs _]. discriminate Hs.
Defined.

(** ** Reading the store *)

Ltac unfold_storage :=
  unfold storage.getInvoices, storage.setInvoices, storage.getClients,
    storage.setClients, invoiceNumberGenerator.getCounterData,
    invoiceNumberGenerator.setCounterData, storage.get, storage.set,
    bind, ret, throw in *.

Lemma getInvoices_run (w : World) :
  storage.getInvoices w = (Returns (Spec.stored_invoices w), w).
Proof.
  unfold Spec.stored_invoices. unfold_storage.
  destruct (available (localStorage w)); reflexivity.
Qed.

Lemma getClients_run (w : World) :
  storage.getClients w = (Returns (Spec.stored_clients w), w).
Proof.
  unfold Spec.stored_clients. unfold_storage.
  destruct (available (localStorage w)); [|reflexivity].
  now destruct (invoicey_clients (localStorage w)).
Qed.

Lemma getCounterData_run (w : World) :
  invoiceNumberGenerator.getCounterData w = (Returns (Spec.stored_counter w), w).
Proof.
  unfold Spec.stored_counter. unfold_storage.
  destruct (available (localStorage w)); [|reflexivity].
  now destruct (invoicey_invoice_counter_data (localStorage w)).
Qed.

Lemma stored_invoices_available (w : World) (i : nat) (invoice : Invoice.t) :
  Spec.stored_invoices w !! i = Some invoice -> available (localStorage w) = true.
Proof.
  unfold Spec.stored_invoices. destruct (available (localStorage w)); [reflexivity|].
  intros H. discriminate H.
Qed.

Lemma stored_clients_available (w : World) (i : nat) (client : Client.t) :
  Spec.stored_clients w !! i = Some client -> available (localStorage w) = true.
Proof.
  unfold Spec.stored_clients. destruct (available (localStorage w)); [reflexivity|].
  intros H. discriminate H.
Qed.

(** ** What is read back *)

Lemma JSON_number_idempotent (x : number) : JSON.number (JSON.number x) = JSON.number x.
Proof. now destruct x. Qed.

(** The numbers that are read back as they were written: all but -0, NaN
    and the two infinities. *)
Lemma JSON_number_kept (x : number) :
  JSON.number x = x
  <-> x <> S754_zero true /\ x <> S754_nan /\ x <> S754_infinity false
      /\ x <> S754_infinity true.
Proof.
  destruct x as [[|]|[|]| |s m e]; cbn [JSON.number]; split;
    try (intros H; discriminate H);
    try (intros (H1 & H2 & H3 & H4); congruence);
    intros _; repeat split; discriminate.
Qed.

Lemma JSON_lineItem_idempotent (item : LineItem.t) :
  JSON.lineItem (JSON.lineItem item) = JSON.lineItem item.
Proof.
  unfold JSON.lineItem.
  cbn [LineItem.id LineItem.description LineItem.quantity LineItem.rate LineItem.amount].
  now rewrite !JSON_number_idempotent.
Qed.

Lemma JSON_invoice_idempotent (invoice : Invoice.t) :
  JSON.invoice (JSON.invoice invoice) = JSON.invoice invoice.
Proof.
  unfold JSON.invoice.
  cbn [Invoice.id Invoice.invoiceNumber Invoice.clientId Invoice.client Invoice.status
       Invoice.issueDate Invoice.dueDate Invoice.lineItems Invoice.subtotal Invoice.tax
       Invoice.total Invoice.notes Invoice.createdAt].
  rewrite !JSON_number_idempotent, List.map_map.
  f_equal. apply List.map_ext. exact JSON_lineItem_idempotent.
Qed.

Lemma JSON_invoices_idempotent (invoices : list Invoice.t) :
  List.map JSON.invoice (List.map JSON.invoice invoices) = List.map JSON.invoice invoices.
Proof. rewrite List.map_map. apply List.map_ext. exact JSON_invoice_idempotent. Qed.

Lemma JSON_with_status (invoice : Invoice.t) (status : InvoiceStatus) :
  JSON.invoice (Invoice.with_status invoice status)
  = Invoice.with_status (JSON.invoice invoice) status.
Proof. reflexivity. Qed.

(** What the services read from the store is read back as it is. *)
Lemma stored_invoices_read_back (w : World) :
  List.map JSON.invoice (Spec.stored_invoices w) = Spec.stored_invoices w.
Proof.
  unfold Spec.stored_invoices. destruct (available (localStorage w)); [|reflexivity].
  destruct (invoicey_invoices (localStorage w)) as [invoices|]; [|reflexivity].
  exact (JSON_invoices_idempotent invoices).
Qed.

Lemma stored_invoice_read_back (w : World) (invoice : Invoice.t) :
  In invoice (Spec.stored_invoices w) -> JSON.invoice invoice = invoice.
Proof.
  intros Hin. rewrite <- stored_invoices_read_back in Hin.
  apply List.in_map_iff in Hin as (original & <- & _).
  apply JSON_invoice_idempotent.
Qed.

(** ** The invoice number sequencer *)

Lemma getNextSequence_run (env : Env) (w : World) :
  invoiceNumberGenerator.getNextSequence env w
  = (Returns (Spec.next_sequence (currentYear env) (Spec.stored_counter w)), w).
Proof.
  unfold invoiceNumberGenerator.getNextSequence, bind at 1.
  rewrite getCounterData_run. unfold Spec.next_sequence, invoiceNumberGenerator.getCurrentYear.
  destruct (Spec.stored_counter w) as [counter|]; [|reflexivity].
  destruct (CounterData.year counter =? currentYear env); reflexivity.
Qed.

(** The world after the counter is set to {year, sequence}. *)
Lemma generate_run (env : Env) (w : World) :
  let sequence := Spec.next_sequence (currentYear env) (Spec.stored_counter w) in
  invoiceNumberGenerator.generate env w
  = (Returns (Spec.invoice_number (currentYear env) sequence),
     if available (localStorage w)
     then {| localStorage :=
               {| available := true;
                  invoicey_clients := invoicey_clients (localStorage w);
                  invoicey_invoices := invoicey_invoices (localStorage w);
                  invoicey_invoice_counter_data :=
                    Some {| CounterData.year := currentYear env;
                            CounterData.sequence := sequence |} |};
             draws := draws w |}
     else w).
Proof.
  intros sequence. unfold invoiceNumberGenerator.generate, bind at 1.
  rewrite getNextSequence_run. fold sequence.
  unfold invoiceNumberGenerator.setCounterData, storage.set, bind, ret,
    invoiceNumberGenerator.getCurrentYear, Spec.invoice_number.
  destruct (available (localStorage w)); reflexivity.
Qed.

(** Where localStorage is unavailable nothing is stored, and every call is
    given the sequence 1. *)
Lemma generate_unavailable (env : Env) (w : World) :
  available (localStorage w) = false ->
  invoiceNumberGenerator.generate env w = (Returns (Spec.invoice_number (currentYear env) 1), w).
Proof.
  intros H. rewrite generate_run. cbv zeta. unfold Spec.stored_counter.
  rewrite H. reflexivity.
Qed.

Example invoice_number_examples :
  Spec.invoice_number 2026 1 = "INV-2026-001"
  /\ Spec.invoice_number 2026 42 = "INV-2026-042"
  /\ Spec.invoice_number 2026 1000 = "INV-2026-1000".
Proof. repeat split; vm_compute; reflexivity. Qed.

(** Integers of magnitude up to 2^53 are numbers as they are. *)
Lemma round_integer_exact (z : Z) : Z.abs z <= 2 ^ 53 -> JS.round_integer z = z.
Proof.
  intros Hz. destruct (Z.eq_dec (Z.abs z) (2 ^ 53)) as [Hmax|Hless].
  - destruct (Z.abs_eq_or_opp z) as [H|H]; rewrite H in Hmax.
    + rewrite Hmax. vm_compute. reflexivity.
    + assert (Hneg : z = - 2 ^ 53) by lia. rewrite Hneg. vm_compute. reflexivity.
  - unfold JS.round_integer. cbv zeta.
    assert (Hdigits : Z.log2 (Z.abs z) + 1 <= JS.prec).
    { unfold JS.prec. destruct (Z.eq_dec (Z.abs z) 0) as [H0|H0].
      - rewrite H0. vm_compute. discriminate.
      - assert (Z.log2 (Z.abs z) < 53); [|lia].
        apply Z.log2_lt_pow2; lia. }
    apply Z.leb_le in Hdigits. now rewrite Hdigits.
Qed.

Lemma add_integers_exact (a : Z) :
  - 2 ^ 53 - 1 <= a < 2 ^ 53 -> JS.add_integers a 1 = a + 1.
Proof. intros Ha. unfold JS.add_integers. apply round_integer_exact. lia. Qed.

(** 2^53 + 1 is no number: the sum is rounded back to 2^53. *)
Lemma add_integers_stalls : JS.add_integers (2 ^ 53) 1 = 2 ^ 53.
Proof. vm_compute. reflexivity. Qed.

(** [JS.add_integers] is the addition of binary64 on integers: the sums
    around 2^53, as [JS.add] computes them. *)
Example add_integers_binary64 :
  Forall (fun a => JS.add (JS.of_Z a) (JS.of_Z 1) = JS.of_Z (JS.add_integers a 1))
         [0; 4; 999; 2 ^ 53 - 2; 2 ^ 53 - 1; 2 ^ 53; 2 ^ 53 + 2; 2 ^ 53 + 4; 2 ^ 54;
          2 ^ 60 + 2 ^ 8; - 2 ^ 53; - 2 ^ 53 - 2; -1; -7].
Proof. repeat constructor; vm_compute; reflexivity. Qed.

(** C4, as stated, fails: for the stored counter {year, 2^53} the next
    sequence is 2^53 again, not 2^53 + 1, and the call that follows is
    given 2^53 once more: the sequence does not increase. *)
Lemma sequence_stalls_at_2_53 : ~ Spec.sequencer_as_specified.
Proof.
  intros H.
  destruct (H Sample.env
              {| localStorage :=
                   {| available := true; invoicey_clients := None;
                      invoicey_invoices := None;
                      invoicey_invoice_counter_data :=
                        Some {| CounterData.year := 2026;
                                CounterData.sequence := 2 ^ 53 |} |};
                 draws := 0 |}
              {| CounterData.year := 2026; CounterData.sequence := 2 ^ 53 |}
              eq_refl eq_refl eq_refl)
    as (first & second & invoiceNumber & w' & Hfirst & Hgenerate & Hsecond & _ & Hless).
  vm_compute in Hfirst. injection Hfirst as <-.
  vm_compute in Hgenerate. injection Hgenerate as _ <-.
  vm_compute in Hsecond. injection Hsecond as <-.
  vm_compute in Hless. discriminate Hless.
Qed.

Example generate_repeats_at_2_53 :
  match Spec.generate_many Sample.env 2
          {| localStorage :=
               {| available := true; invoicey_clients := None; invoicey_invoices := None;
                  invoicey_invoice_counter_data :=
                    Some {| CounterData.year := 2026;
                            CounterData.sequence := 2 ^ 53 - 1 |} |};
             draws := 0 |} with
  | (Returns numbers, _) =>
      numbers = ["INV-2026-9007199254740992"; "INV-2026-9007199254740992"]
  | _ => False
  end.
Proof. vm_compute. reflexivity. Qed.

(** C4 (amended): over a working localStorage whose stored sequence, if
    any, is an integer of magnitude at most 2^53, the next sequence is 1
    when no counter is stored or its year is not the current year; in the
    year of the counter it is the stored sequence plus 1 as long as the
    stored sequence is below 2^53, and 2^53 again when the stored sequence
    is 2^53.  generate returns INV-<year>-<sequence padded to 3 digits> and
    leaves {year, sequence} stored, touching nothing else; the next call in
    the same year is given a sequence that is greater by 1 as long as the
    sequence is below 2^53, and the same sequence at 2^53. *)
Theorem generate_spec (env : Env) (w : World) :
  available (localStorage w) = true ->
  (forall counter : CounterData.t,
     invoicey_invoice_counter_data (localStorage w) = Some counter ->
     - 2 ^ 53 <= CounterData.sequence counter <= 2 ^ 53) ->
  let stored := invoicey_invoice_counter_data (localStorage w) in
  let sequence := Spec.next_sequence (currentYear env) stored in
  (stored = None -> sequence = 1)
  /\ (forall counter : CounterData.t,
        stored = Some counter -> CounterData.year counter <> currentYear env ->
        sequence = 1)
  /\ (forall counter : CounterData.t,
        stored = Some counter -> CounterData.year counter = currentYear env ->
        CounterData.sequence counter < 2 ^ 53 ->
        sequence = CounterData.sequence counter + 1)
  /\ (forall counter : CounterData.t,
        stored = Some counter -> CounterData.year counter = currentYear env ->
        CounterData.sequence counter = 2 ^ 53 ->
        sequence = 2 ^ 53)
  /\ invoiceNumberGenerator.getNextSequence env w = (Returns sequence, w)
  /\ exists w' : World,
       invoiceNumberGenerator.generate env w
       = (Returns ("INV-" ++ JS.String_of (currentYear env) ++ "-"
                   ++ JS.padStart0 3 (JS.String_of sequence)), w')
       /\ invoicey_invoice_counter_data (localStorage w')
          = Some {| CounterData.year := currentYear env; CounterData.sequence := sequence |}
       /\ invoicey_invoices (localStorage w') = invoicey_invoices (localStorage w)
       /\ invoicey_clients (localStorage w') = invoicey_clients (localStorage w)
       /\ exists (next : Z) (w'' : World),
            invoiceNumberGenerator.getNextSequence env w' = (Returns next, w')
            /\ invoiceNumberGenerator.generate env w'
               = (Returns ("INV-" ++ JS.String_of (currentYear env) ++ "-"
                           ++ JS.padStart0 3 (JS.String_of next)), w'')
            /\ invoicey_invoice_counter_data (localStorage w'')
               = Some {| CounterData.year := currentYear env;
                         CounterData.sequence := next |}
            /\ (sequence < 2 ^ 53 -> next = sequence + 1 /\ sequence < next)
            /\ (sequence = 2 ^ 53 -> next = sequence).
Proof.
  intros Havail Hsafe stored sequence.
  assert (Hseq : Spec.next_sequence (currentYear env) (Spec.stored_counter w) = sequence).
  { unfold Spec.stored_counter. rewrite Havail. reflexivity. }
  assert (Hsame : forall counter : CounterData.t,
            stored = Some counter -> CounterData.year counter = currentYear env ->
            sequence = JS.add_integers (CounterData.sequence counter) 1).
  { intros counter Hsome Hyear. unfold sequence. rewrite Hsome.
    cbn [Spec.next_sequence]. now rewrite Hyear, Z.eqb_refl. }
  assert (Hlow : - 2 ^ 53 <= sequence).
  { unfold sequence, Spec.next_sequence. destruct stored as [counter|] eqn:Hstored; [|lia].
    destruct (CounterData.year counter =? currentYear env); [|lia].
    specialize (Hsafe counter Hstored).
    destruct (Z.eq_dec (CounterData.sequence counter) (2 ^ 53)) as [Hmax|Hless].
    - rewrite Hmax, add_integers_stalls. lia.
    - rewrite add_integers_exact by lia. lia. }
  split; [intros Hnone; unfold sequence; now rewrite Hnone|].
  split.
  { intros counter Hsome Hyear. unfold sequence. rewrite Hsome. cbn [Spec.next_sequence].
    apply Z.eqb_neq in Hyear. now rewrite Hyear. }
  split.
  { intros counter Hsome Hyear Hless. rewrite (Hsame counter Hsome Hyear).
    specialize (Hsafe counter Hsome). apply add_integers_exact. lia. }
  split.
  { intros counter Hsome Hyear Hmax. rewrite (Hsame counter Hsome Hyear), Hmax.
    exact add_integers_stalls. }
  split; [rewrite getNextSequence_run, Hseq; reflexivity|].
  pose proof (generate_run env w) as Hgen. cbv zeta in Hgen.
  rewrite Hseq, Havail in Hgen.
  eexists. split; [exact Hgen|].
  cbn [localStorage invoicey_invoice_counter_data invoicey_invoices invoicey_clients].
  do 3 (split; [reflexivity|]).
  set (w' := {| localStorage := _; draws := draws w |}).
  assert (Hnext : Spec.next_sequence (currentYear env) (Spec.stored_counter w')
                  = JS.add_integers sequence 1).
  { unfold Spec.stored_counter, Spec.next_sequence, w'.
    cbn [localStorage available invoicey_invoice_counter_data CounterData.year
         CounterData.sequence].
    now rewrite Z.eqb_refl. }
  exists (JS.add_integers sequence 1). eexists.
  split; [rewrite getNextSequence_run, Hnext; reflexivity|].
  split; [rewrite generate_run; cbv zeta; rewrite Hnext; reflexivity|].
  split; [reflexivity|]. split.
  - intros Hless. rewrite add_integers_exact by lia. lia.
  - intros ->. exact add_integers_stalls.
Qed.

(** The sample counter {2026, 4}: the next sequence is 5, the number
    INV-2026-005. *)
Lemma generate_spec_witness :
  invoiceNumberGenerator.getNextSequence Sample.env Sample.stocked
  = (Returns 5, Sample.stocked)
  /\ exists w' : World,
       invoiceNumberGenerator.generate Sample.env Sample.stocked
       = (Returns "INV-2026-005", w').
Proof.
  assert (Hsafe : forall counter : CounterData.t,
            invoicey_invoice_counter_data (localStorage Sample.stocked) = Some counter ->
            - 2 ^ 53 <= CounterData.sequence counter <= 2 ^ 53).
  { intros counter [= <-]. cbn [CounterData.sequence]. lia. }
  destruct (generate_spec Sample.env Sample.stocked eq_refl Hsafe)
    as (_ & _ & _ & _ & Hnext & w' & Hgen & _).
  split; [exact Hnext|]. exists w'. exact Hgen.
Defined.

(** ** Generated identifiers *)

Lemma after_draws_0 (w : World) : Spec.after_draws 0 w = w.
Proof. destruct w as [ls d]. unfold Spec.after_draws. simpl. now rewrite Nat.add_0_r. Qed.

Lemma generateLineItemId_run (env : Env) (w : World) :
  invoiceService.generateLineItemId env w
  = (Returns ("item_" ++ JS.String_of (Date_now env) ++ "_" ++ Math_random env (draws w)),
     Spec.after_draws 1 w).
Proof.
  unfold invoiceService.generateLineItemId, invoiceService.Math_random_36, bind, ret, Spec.after_draws.
  now rewrite Nat.add_1_r.
Qed.

Lemma generateId_run (env : Env) (w : World) :
  invoiceService.generateId env w
  = (Returns ("invoice_" ++ JS.String_of (Date_now env) ++ "_" ++ Math_random env (draws w)),
     Spec.after_draws 1 w).
Proof.
  unfold invoiceService.generateId, invoiceService.Math_random_36, bind, ret, Spec.after_draws.
  now rewrite Nat.add_1_r.
Qed.

(** Mapping a callback that generates one line-item id per element: the
    i-th element is given the i-th next draw. *)
Lemma mapM_line_item_ids {A B : Type} (env : Env) (f : string -> A -> B) (l : list A) (w : World) :
  mapM (fun a => id <- invoiceService.generateLineItemId env ;; ret (f id a)) l w
  = (Returns
       (imap (fun i a =>
          f ("item_" ++ JS.String_of (Date_now env) ++ "_" ++ Math_random env (draws w + i)%nat) a)
          l),
     Spec.after_draws (List.length l) w).
Proof.
  revert w. induction l as [|a rest IH]; intros w.
  - simpl. unfold ret. now rewrite after_draws_0.
  - cbn [mapM]. unfold bind at 1. unfold bind at 1. rewrite generateLineItemId_run.
    unfold ret at 1. unfold bind at 1. rewrite IH. unfold ret.
    rewrite imap_cons. rewrite Nat.add_0_r. f_equal.
    + f_equal. f_equal. apply imap_ext. intros i x _. simpl.
      now rewrite Nat.add_1_r, Nat.add_succ_comm.
    + unfold Spec.after_draws. simpl. f_equal. lia.
Qed.

(** ** Duplication *)


Lemma getById_run (id : string) (w : World) :
  invoiceService.getById id w
  = (Returns (List.find (fun invoice => String.eqb (Invoice.id invoice) id)
                        (Spec.stored_invoices w)), w).
Proof. unfold invoiceService.getById, bind. now rewrite getInvoices_run. Qed.

(** The Supabase-backed duplicate(id) is another operation: it creates the
    copy anew, due 30 days from today, whatever the due date of the
    original (here 2026-01-31). *)
Example supabase_duplicate_due_date :
  match Supabase.invoiceService.create Sample.session Sample.supabase_input Sample.remote with
  | (Returns (Some original), r) =>
      match Supabase.invoiceService.duplicate Sample.session
              (Supabase.Invoice.id original) r with
      | (Returns (Some copy), _) =>
          Supabase.Invoice.dueDate original = "2026-01-31"
          /\ Supabase.Invoice.dueDate copy = "2026-02-14"
      | _ => False
      end
  | _ => False
  end.
Proof. vm_compute. split; reflexivity. Qed.

(** ** Status overwrite: markAsPaid and markAsSent *)

(** The effect of storage.setInvoices on a world that holds invoices. *)
Lemma setInvoices_run (invoices : list Invoice.t) (w : World) :
  available (localStorage w) = true ->
  exists w' : World,
    storage.setInvoices invoices w = (Returns tt, w')
    /\ Spec.stored_invoices w' = List.map JSON.invoice invoices
    /\ Spec.stored_clients w' = Spec.stored_clients w
    /\ Spec.stored_counter w' = Spec.stored_counter w
    /\ draws w' = draws w.
Proof.
  intros Havail. unfold storage.setInvoices, storage.set. rewrite Havail.
  eexists. split; [reflexivity|].
  unfold Spec.stored_invoices, Spec.stored_clients, Spec.stored_counter.
  cbn [localStorage draws available invoicey_invoices invoicey_clients
       invoicey_invoice_counter_data].
  rewrite Havail. split; [|repeat split].
  exact (JSON_invoices_idempotent invoices).
Qed.

(** Writing back what was read, with one invoice replaced, removed or
    added. *)
Lemma read_back_insert (w : World) (i : nat) (invoice : Invoice.t) :
  JSON.invoice invoice = invoice ->
  List.map JSON.invoice (<[i := invoice]> (Spec.stored_invoices w))
  = <[i := invoice]> (Spec.stored_invoices w).
Proof.
  intros Hkept. change (List.map ?f ?l) with (f <$> l).
  rewrite list_fmap_insert, Hkept. f_equal. apply stored_invoices_read_back.
Qed.

Lemma read_back_replace (w : World) (i : nat) (invoice : Invoice.t) :
  List.map JSON.invoice (<[i := invoice]> (Spec.stored_invoices w))
  = <[i := JSON.invoice invoice]> (Spec.stored_invoices w).
Proof.
  change (List.map ?f ?l) with (f <$> l).
  rewrite list_fmap_insert. f_equal. apply stored_invoices_read_back.
Qed.

Lemma read_back_delete (w : World) (i : nat) :
  List.map JSON.invoice (delete i (Spec.stored_invoices w))
  = delete i (Spec.stored_invoices w).
Proof.
  change (List.map ?f ?l) with (f <$> l).
  rewrite list_fmap_delete. f_equal. apply stored_invoices_read_back.
Qed.


Lemma first_with_id (invoices : list Invoice.t) (id : string) (i : nat) (invoice : Invoice.t) :
  invoices !! i = Some invoice ->
  Invoice.id invoice = id ->
  (forall (j : nat) (other : Invoice.t),
     invoices !! j = Some other -> (j < i)%nat -> Invoice.id other <> id) ->
  list_find (fun invoice => Invoice.id invoice = id) invoices = Some (i, invoice).
Proof. intros Hi Hid Hfirst. apply list_find_Some. auto. Qed.

Lemma mark_run (status : InvoiceStatus) (id : string) (w : World) (i : nat)
    (invoice : Invoice.t) :
  list_find (fun invoice => Invoice.id invoice = id) (Spec.stored_invoices w)
    = Some (i, invoice) ->
  exists w' : World,
    (invoices <- storage.getInvoices ;;
     match list_find (fun invoice => Invoice.id invoice = id) invoices with
     | None => throw (Not_found "Invoice" id)
     | Some (index, invoice) =>
         let updatedInvoice := Invoice.with_status invoice status in
         storage.setInvoices (<[index := updatedInvoice]> invoices) ;;;
         ret updatedInvoice
     end) w = (Returns (Invoice.with_status invoice status), w')
    /\ Spec.stored_invoices w'
       = <[i := Invoice.with_status invoice status]> (Spec.stored_invoices w)
    /\ Spec.stored_clients w' = Spec.stored_clients w
    /\ Spec.stored_counter w' = Spec.stored_counter w
    /\ draws w' = draws w.
Proof.
  intros Hfind.
  assert (Havail : available (localStorage w) = true).
  { apply list_find_Some in Hfind as (Hi & _). eapply stored_invoices_available, Hi. }
  unfold bind at 1. rewrite getInvoices_run, Hfind. cbv zeta.
  destruct (setInvoices_run
              (<[i := Invoice.with_status invoice status]> (Spec.stored_invoices w)) w Havail)
    as (w' & Hset & Hinvoices & Hrest).
  exists w'. split; [unfold bind; rewrite Hset; reflexivity|].
  split; [|exact Hrest].
  rewrite Hinvoices. apply read_back_insert.
  rewrite JSON_with_status. f_equal. apply (stored_invoice_read_back w).
  apply list_find_Some in Hfind as (Hi & _).
  apply list_elem_of_In. eapply list_elem_of_lookup_2, Hi.
Qed.

Lemma mark_changes_status_only (status : InvoiceStatus) (id : string) (w : World) (i : nat)
    (invoice : Invoice.t) :
  list_find (fun invoice => Invoice.id invoice = id) (Spec.stored_invoices w)
    = Some (i, invoice) ->
  Spec.changes_status_only
    (invoices <- storage.getInvoices ;;
     match list_find (fun invoice => Invoice.id invoice = id) invoices with
     | None => throw (Not_found "Invoice" id)
     | Some (index, invoice) =>
         let updatedInvoice := Invoice.with_status invoice status in
         storage.setInvoices (<[index := updatedInvoice]> invoices) ;;;
         ret updatedInvoice
     end) status w i invoice.
Proof.
  intros Hfind.
  destruct (mark_run status id w i invoice Hfind) as (w' & Hrun & Hinv & Hcl & Hct & _).
  pose proof (proj1 (proj1 (list_find_Some _ _ _ _) Hfind)) as Hi.
  exists (Invoice.with_status invoice status), w'.
  split; [exact Hrun|].
  repeat (split; [reflexivity|]).
  split; [exact Hinv|]. rewrite Hinv.
  split; [apply length_insert|].
  split; [apply list_lookup_insert_eq; eapply lookup_lt_Some, Hi|].
  split; [|split; assumption].
  intros j Hj. apply list_lookup_insert_ne. congruence.
Qed.

(** C9: markAsPaid(id) (markAsSent(id)) replaces the first stored invoice
    with that id by a copy whose status is 'paid' ('sent') and whose other
    fields are those of the original; the collection keeps its length and
    every other position, and the clients and the counter are as before. *)
Theorem markAs_frame (id : string) (w : World) (i : nat) (invoice : Invoice.t) :
  Spec.stored_invoices w !! i = Some invoice ->
  Invoice.id invoice = id ->
  (forall (j : nat) (other : Invoice.t),
     Spec.stored_invoices w !! j = Some other -> (j < i)%nat -> Invoice.id other <> id) ->
  Spec.changes_status_only (invoiceService.markAsPaid id) "paid" w i invoice
  /\ Spec.changes_status_only (invoiceService.markAsSent id) "sent" w i invoice.
Proof.
  intros Hi Hid Hfirst.
  pose proof (first_with_id _ _ _ _ Hi Hid Hfirst) as Hfind.
  split.
  - exact (mark_changes_status_only "paid" id w i invoice Hfind).
  - exact (mark_changes_status_only "sent" id w i invoice Hfind).
Qed.

Lemma markAs_frame_witness :
  Spec.changes_status_only (invoiceService.markAsPaid "inv2") "paid"
    Sample.stocked 1 Sample.inv2
  /\ Spec.changes_status_only (invoiceService.markAsSent "inv2") "sent"
    Sample.stocked 1 Sample.inv2.
Proof.
  apply (markAs_frame "inv2" Sample.stocked 1 Sample.inv2 eq_refl eq_refl).
  intros j other Hj Hlt. destruct j as [|j]; [|lia].
  injection Hj as <-. discriminate.
Defined.

(** ** Client update *)

Lemma setClients_run (clients : list Client.t) (w : World) :
  available (localStorage w) = true ->
  exists w' : World,
    storage.setClients clients w = (Returns tt, w')
    /\ Spec.stored_clients w' = clients
    /\ Spec.stored_invoices w' = Spec.stored_invoices w
    /\ Spec.stored_counter w' = Spec.stored_counter w
    /\ draws w' = draws w.
Proof.
  intros Havail. unfold storage.setClients, storage.set. rewrite Havail.
  eexists. split; [reflexivity|].
  unfold Spec.stored_invoices, Spec.stored_clients, Spec.stored_counter.
  cbn [localStorage draws available invoicey_invoices invoicey_clients
       invoicey_invoice_counter_data].
  rewrite Havail. repeat split.
Qed.

(** C10: clientService.update of an existing client with a valid input
    stores and returns a client that keeps id and createdAt and takes every
    other field from the input, trimmed: an optional field (company, phone,
    address) the input omits is undefined in the result, whatever the
    existing record held. *)
Theorem client_update_replaces (id : string) (input : ClientInput.t) (w : World)
    (i : nat) (existing : Client.t) :
  Spec.stored_clients w !! i = Some existing ->
  Client.id existing = id ->
  (forall (j : nat) (other : Client.t),
     Spec.stored_clients w !! j = Some other -> (j < i)%nat -> Client.id other <> id) ->
  ValidationResult.valid (clientService.validate input) = true ->
  exists (updated : Client.t) (w' : World),
    clientService.update id input w = (Returns updated, w')
    /\ Client.id updated = Client.id existing
    /\ Client.createdAt updated = Client.createdAt existing
    /\ Client.name updated = JS.trim (ClientInput.name input)
    /\ Client.email updated = JS.trim (ClientInput.email input)
    /\ Client.company updated = JS.trim <$> ClientInput.company input
    /\ Client.phone updated = JS.trim <$> ClientInput.phone input
    /\ Client.address updated = JS.trim <$> ClientInput.address input
    /\ (ClientInput.company input = None -> Client.company updated = None)
    /\ (ClientInput.phone input = None -> Client.phone updated = None)
    /\ (ClientInput.address input = None -> Client.address updated = None)
    /\ Spec.stored_clients w' = <[i := updated]> (Spec.stored_clients w)
    /\ Spec.stored_invoices w' = Spec.stored_invoices w.
Proof.
  intros Hi Hid Hfirst Hvalid.
  assert (Hfind : list_find (fun client => Client.id client = id) (Spec.stored_clients w)
                  = Some (i, existing)).
  { apply list_find_Some. auto. }
  pose proof (stored_clients_available _ _ _ Hi) as Havail.
  unfold clientService.update. rewrite Hvalid. cbn [negb].
  unfold bind at 1. rewrite getClients_run, Hfind.
  set (updated := {| Client.id := Client.id existing;
                     Client.name := JS.trim (ClientInput.name input);
                     Client.email := JS.trim (ClientInput.email input);
                     Client.company := JS.trim <$> ClientInput.company input;
                     Client.phone := JS.trim <$> ClientInput.phone input;
                     Client.address := JS.trim <$> ClientInput.address input;
                     Client.createdAt := Client.createdAt existing |}).
  destruct (setClients_run (<[i := updated]> (Spec.stored_clients w)) w Havail)
    as (w' & Hset & Hcl & Hinv & _).
  exists updated, w'. cbv zeta. unfold bind, ret. fold updated. rewrite Hset.
  split; [reflexivity|].
  repeat (split; [reflexivity|]).
  split; [intros H; unfold updated; cbn; now rewrite H|].
  split; [intros H; unfold updated; cbn; now rewrite H|].
  split; [intros H; unfold updated; cbn; now rewrite H|].
  split; assumption.
Qed.

Lemma client_update_replaces_witness :
  exists (updated : Client.t) (w' : World),
    clientService.update "client_1" Sample.clientInput Sample.stocked = (Returns updated, w')
    /\ Client.name updated = "Updated"
    /\ Client.company updated = None
    /\ Client.phone updated = Some "555"
    /\ Client.createdAt updated = "2026-01-01".
Proof.
  assert (Hfirst : forall (j : nat) (other : Client.t),
            Spec.stored_clients Sample.stocked !! j = Some other ->
            (j < 0)%nat -> Client.id other <> "client_1") by (intros; lia).
  destruct (client_update_replaces "client_1" Sample.clientInput Sample.stocked 0
              Sample.mockClient eq_refl eq_refl Hfirst eq_refl)
    as (updated & w' & Hrun & _ & Hcreated & Hname & _ & Hcompany & Hphone & _).
  exists updated, w'. repeat split; assumption.
Defined.

(** ** What trim removes *)

Lemma trimStart_empty (s : string) :
  JS.trimStart s = ""
  <-> Forall (fun c => JS.is_white_space c = true) (list_ascii_of_string s).
Proof.
  induction s as [|c rest IH]; cbn [JS.trimStart list_ascii_of_string].
  - split; [constructor|reflexivity].
  - rewrite Forall_cons, <- IH. destruct (JS.is_white_space c).
    + split; [auto|intros (_ & H); exact H].
    + split; [discriminate|intros (H & _); discriminate H].
Qed.

Lemma trimEnd_empty (s : string) :
  JS.trimEnd s = ""
  <-> Forall (fun c => JS.is_white_space c = true) (list_ascii_of_string s).
Proof.
  induction s as [|c rest IH]; cbn [JS.trimEnd list_ascii_of_string].
  - split; [constructor|reflexivity].
  - rewrite Forall_cons, <- IH. destruct (JS.trimEnd rest).
    + destruct (JS.is_white_space c); split; auto; try discriminate.
      intros (H & _). discriminate H.
    + split; [discriminate|intros (_ & H); discriminate H].
Qed.

Lemma trimStart_head (s : string) :
  JS.trimStart s = ""
  \/ exists (c : ascii) (rest : string),
       JS.trimStart s = String c rest /\ JS.is_white_space c = false.
Proof.
  induction s as [|c rest IH]; cbn [JS.trimStart]; [now left|].
  destruct (JS.is_white_space c) eqn:Hc; [exact IH|].
  right. now exists c, rest.
Qed.

Lemma is_white_space_spec (c : ascii) :
  JS.is_white_space c = true <-> In (N_of_ascii c) [9; 10; 11; 12; 13; 32; 160]%N.
Proof.
  unfold JS.is_white_space. cbv zeta. cbn [In].
  rewrite !orb_true_iff, andb_true_iff, !N.eqb_eq, !N.leb_le. lia.
Qed.

(** A string is blank exactly when each of its characters is one of TAB,
    LF, VT, FF, CR, SP and the no-break space. *)
Lemma blank_white_space (s : string) :
  Spec.blank s
  <-> Forall (fun c => JS.is_white_space c = true) (list_ascii_of_string s).
Proof.
  unfold Spec.blank, JS.trim. rewrite <- trimStart_empty. split.
  - intros Hend. destruct (trimStart_head s) as [Hstart|(c & rest & Hstart & Hc)];
      [exact Hstart|].
    rewrite Hstart in Hend. apply trimEnd_empty in Hend.
    cbn [list_ascii_of_string] in Hend. apply Forall_cons in Hend as (Hc' & _).
    congruence.
  - intros ->. reflexivity.
Qed.

(** The no-break space is trimmed as a space is: a name, a client id or a
    description made of it is blank, a query made of it searches for
    nothing, and it is removed from both ends of what is stored. *)
Example no_break_space_is_trimmed :
  JS.trim (Sample.nbsp ++ " Ann Lee" ++ Sample.nbsp) = "Ann Lee"
  /\ Spec.blank (Sample.nbsp ++ " " ++ Sample.nbsp)
  /\ ValidationResult.errors
       (clientService.validate
          {| ClientInput.name := Sample.nbsp; ClientInput.email := "a@b.c";
             ClientInput.company := None; ClientInput.phone := None;
             ClientInput.address := None |})
     = {[ "name" := "Name is required" ]}
  /\ ValidationResult.valid
       (invoiceService.validate
          {| InvoiceInput.clientId := Sample.nbsp;
             InvoiceInput.issueDate := "2026-01-15"; InvoiceInput.dueDate := "2026-02-14";
             InvoiceInput.lineItems := [Sample.lineItem Sample.nbsp 1 100];
             InvoiceInput.notes := None; InvoiceInput.status := None |})
     = false
  /\ (forall (toLowerCase : string -> string) (invoices : list Invoice.t),
        invoiceService.search toLowerCase Sample.nbsp invoices = invoices)
  /\ (forall (toLowerCase : string -> string) (clients : list Client.t),
        clientService.search toLowerCase Sample.nbsp clients = clients)
  /\ match fst (clientService.create Sample.env
                  {| ClientInput.name := Sample.nbsp ++ "Ann Lee" ++ Sample.nbsp;
                     ClientInput.email := "ann@example.com";
                     ClientInput.company := Some (" Lee Ltd" ++ Sample.nbsp);
                     ClientInput.phone := None; ClientInput.address := None |}
                  Sample.stocked) with
     | Returns client =>
         Client.name client = "Ann Lee" /\ Client.company client = Some "Lee Ltd"
     | Throws _ => False
     end.
Proof.
  split; [reflexivity|]. split; [reflexivity|]. split; [reflexivity|].
  split; [reflexivity|]. split; [reflexivity|]. split; [reflexivity|].
  vm_compute. split; reflexivity.
Qed.

(** ** Validation *)

Lemma missing_or_blank (s : string) :
  String.eqb s "" || String.eqb (JS.trim s) "" = true <-> Spec.blank s.
Proof.
  unfold Spec.blank. rewrite orb_true_iff, !String.eqb_eq. split.
  - intros [->|H]; [reflexivity|exact H].
  - intros H. right. exact H.
Qed.

Lemma no_valid_line_item (lineItems : list LineItemInput.t) :
  existsb (fun item =>
      negb (String.eqb (LineItemInput.description item) "")
      && negb (String.eqb (JS.trim (LineItemInput.description item)) ""))
    lineItems = false
  <-> Forall (fun item => Spec.blank (LineItemInput.description item)) lineItems.
Proof.
  induction lineItems as [|item rest IH]; simpl.
  - split; [constructor|reflexivity].
  - rewrite orb_false_iff, IH, Forall_cons_iff.
    rewrite <- negb_orb, negb_false_iff, missing_or_blank. reflexivity.
Qed.

Lemma valid_iff_no_errors (errors : gmap string string) :
  bool_decide (size errors = 0%nat) = true <-> errors = ∅.
Proof. rewrite bool_decide_eq_true. apply map_size_empty_iff. Qed.

(** validate (invoice): which errors are recorded. *)
Lemma invoice_validate_errors (input : InvoiceInput.t) :
  let result := invoiceService.validate input in
  (ValidationResult.valid result = true <-> ValidationResult.errors result = ∅)
  /\ (is_Some (ValidationResult.errors result !! "clientId")
      <-> Spec.blank (InvoiceInput.clientId input))
  /\ (is_Some (ValidationResult.errors result !! "lineItems")
      <-> InvoiceInput.lineItems input = []
          \/ Forall (fun item => Spec.blank (LineItemInput.description item))
                    (InvoiceInput.lineItems input)).
Proof.
  intros result. split; [apply valid_iff_no_errors|].
  subst result. unfold invoiceService.validate. cbn [ValidationResult.errors].
  pose proof (missing_or_blank (InvoiceInput.clientId input)) as Hc.
  pose proof (no_valid_line_item (InvoiceInput.lineItems input)) as Hl.
  destruct (String.eqb (InvoiceInput.clientId input) ""
            || String.eqb (JS.trim (InvoiceInput.clientId input)) "") eqn:Ec;
  destruct (InvoiceInput.lineItems input) as [|item rest] eqn:Ei; cbn [List.length Nat.eqb];
  try destruct (existsb _ (item :: rest)) eqn:Ee; cbn [negb];
  rewrite ?lookup_insert_eq, ?lookup_insert_ne, ?lookup_empty by discriminate;
  (split; split);
  try solve [ intros; eexists; reflexivity
            | intros [x Hx]; discriminate Hx
            | intros _; apply Hc; reflexivity
            | intros H; apply Hc in H; discriminate H
            | intros _; left; reflexivity
            | intros _; right; apply Hl; reflexivity
            | intros [H|H]; [discriminate H | apply Hl in H; discriminate H] ].
Qed.

(** validate (client): which errors are recorded. *)
Lemma client_validate_errors (input : ClientInput.t) :
  let result := clientService.validate input in
  (ValidationResult.valid result = true <-> ValidationResult.errors result = ∅)
  /\ (is_Some (ValidationResult.errors result !! "name")
      <-> Spec.blank (ClientInput.name input))
  /\ (is_Some (ValidationResult.errors result !! "email")
      <-> Spec.blank (ClientInput.email input)).
Proof.
  intros result. split; [apply valid_iff_no_errors|].
  subst result. unfold clientService.validate. cbn [ValidationResult.errors].
  pose proof (missing_or_blank (ClientInput.name input)) as Hn.
  pose proof (missing_or_blank (ClientInput.email input)) as He.
  destruct (String.eqb (ClientInput.name input) ""
            || String.eqb (JS.trim (ClientInput.name input)) "") eqn:En;
  destruct (String.eqb (ClientInput.email input) ""
            || String.eqb (JS.trim (ClientInput.email input)) "") eqn:Ee;
  rewrite ?lookup_insert_eq, ?lookup_insert_ne, ?lookup_empty by discriminate;
  (split; split);
  try solve [ intros; eexists; reflexivity
            | intros [x Hx]; discriminate Hx
            | intros _; apply Hn; reflexivity
            | intros _; apply He; reflexivity
            | intros H; apply Hn in H; discriminate H
            | intros H; apply He in H; discriminate H ].
Qed.

Lemma invoice_create_invalid (env : Env) (input : InvoiceInput.t) (clients : list Client.t)
    (w : World) :
  ValidationResult.valid (invoiceService.validate input) = false ->
  invoiceService.create env input clients w
  = (Throws (Validation_failed (ValidationResult.errors (invoiceService.validate input))), w).
Proof. intros H. unfold invoiceService.create. rewrite H. reflexivity. Qed.

Lemma invoice_update_invalid (env : Env) (id : string) (input : InvoiceInput.t)
    (clients : list Client.t) (w : World) :
  ValidationResult.valid (invoiceService.validate input) = false ->
  invoiceService.update env id input clients w
  = (Throws (Validation_failed (ValidationResult.errors (invoiceService.validate input))), w).
Proof. intros H. unfold invoiceService.update. rewrite H. reflexivity. Qed.

Lemma client_create_invalid (env : Env) (input : ClientInput.t) (w : World) :
  ValidationResult.valid (clientService.validate input) = false ->
  clientService.create env input w
  = (Throws (Validation_failed (ValidationResult.errors (clientService.validate input))), w).
Proof. intros H. unfold clientService.create. rewrite H. reflexivity. Qed.

Lemma client_update_invalid (id : string) (input : ClientInput.t) (w : World) :
  ValidationResult.valid (clientService.validate input) = false ->
  clientService.update id input w
  = (Throws (Validation_failed (ValidationResult.errors (clientService.validate input))), w).
Proof. intros H. unfold clientService.update. rewrite H. reflexivity. Qed.

(** C5, as stated, fails: create of an invoice with no client selected and
    no line item throws. *)
Lemma create_invalid_throws : ~ Spec.validation_never_throws.
Proof.
  intros H.
  destruct (H Sample.env Sample.empty) as (Hcreate & _).
  destruct (Hcreate Sample.invalid_input [Sample.mockClient] eq_refl) as (invoice & w' & Hrun).
  rewrite invoice_create_invalid in Hrun by reflexivity.
  discriminate Hrun.
Qed.

(** C5 (amended): validate returns {valid, errors} for every input, valid
    exactly when no error is recorded, with an error under clientId exactly
    when the client id is blank, under lineItems exactly when there is no
    line item or every description is blank, under name (email) exactly
    when the name (email) is blank; create and update, of invoices and of
    clients, throw the validation error that carries these errors when the
    input is invalid, and leave the store as it was.  Blank is what trim
    leaves empty: the empty string and every string made of TAB, LF, VT,
    FF, CR, SP and the no-break space only. *)
Theorem validation_failures (env : Env) (w : World) :
  (forall input : InvoiceInput.t,
     let result := invoiceService.validate input in
     (ValidationResult.valid result = true <-> ValidationResult.errors result = ∅)
     /\ (is_Some (ValidationResult.errors result !! "clientId")
         <-> Spec.blank (InvoiceInput.clientId input))
     /\ (is_Some (ValidationResult.errors result !! "lineItems")
         <-> InvoiceInput.lineItems input = []
             \/ Forall (fun item => Spec.blank (LineItemInput.description item))
                       (InvoiceInput.lineItems input)))
  /\ (forall input : ClientInput.t,
     let result := clientService.validate input in
     (ValidationResult.valid result = true <-> ValidationResult.errors result = ∅)
     /\ (is_Some (ValidationResult.errors result !! "name")
         <-> Spec.blank (ClientInput.name input))
     /\ (is_Some (ValidationResult.errors result !! "email")
         <-> Spec.blank (ClientInput.email input)))
  /\ (forall (id : string) (input : InvoiceInput.t) (clients : list Client.t),
     ValidationResult.valid (invoiceService.validate input) = false ->
     let error :=
       Validation_failed (ValidationResult.errors (invoiceService.validate input)) in
     invoiceService.create env input clients w = (Throws error, w)
     /\ invoiceService.update env id input clients w = (Throws error, w))
  /\ (forall (id : string) (input : ClientInput.t),
     ValidationResult.valid (clientService.validate input) = false ->
     let error :=
       Validation_failed (ValidationResult.errors (clientService.validate input)) in
     clientService.create env input w = (Throws error, w)
     /\ clientService.update id input w = (Throws error, w))
  /\ (forall s : string,
     Spec.blank s
     <-> Forall (fun c => In (N_of_ascii c) [9; 10; 11; 12; 13; 32; 160]%N)
                (list_ascii_of_string s)).
Proof.
  split; [exact invoice_validate_errors|].
  split; [exact client_validate_errors|].
  split; [|split].
  - intros id input clients Hinvalid error. split.
    + now apply invoice_create_invalid.
    + now apply invoice_update_invalid.
  - intros id input Hinvalid error. split.
    + now apply client_create_invalid.
    + now apply client_update_invalid.
  - intros s. rewrite blank_white_space. apply Forall_proper; [|reflexivity].
    intros c. exact (is_white_space_spec c).
Qed.

Lemma validation_failures_witness :
  invoiceService.create Sample.env Sample.invalid_input [Sample.mockClient] Sample.stocked
  = (Throws (Validation_failed
               (ValidationResult.errors (invoiceService.validate Sample.invalid_input))),
     Sample.stocked)
  /\ clientService.update "client_1"
       {| ClientInput.name := "  "; ClientInput.email := "a@b.c";
          ClientInput.company := None; ClientInput.phone := None;
          ClientInput.address := None |} Sample.stocked
     = (Throws (Validation_failed {[ "name" := "Name is required" ]}), Sample.stocked).
Proof.
  destruct (validation_failures Sample.env Sample.stocked)
    as (_ & _ & Hinvoice & Hclient & _).
  split.
  - apply (Hinvoice "inv1" Sample.invalid_input [Sample.mockClient] eq_refl).
  - apply (Hclient "client_1"
             {| ClientInput.name := "  "; ClientInput.email := "a@b.c";
                ClientInput.company := None; ClientInput.phone := None;
                ClientInput.address := None |} eq_refl).
Defined.

(** ** Status transitions *)

Lemma found_list_find (w : World) (id : string) (i : nat) (invoice : Invoice.t) :
  Spec.found w id i invoice
  <-> list_find (fun invoice => Invoice.id invoice = id) (Spec.stored_invoices w)
      = Some (i, invoice).
Proof.
  unfold Spec.found. rewrite list_find_Some. split.
  - intros (Hi & Hid & Hfirst). auto.
  - intros (Hi & Hid & Hfirst). auto.
Qed.

Lemma mapM_createLineItem (env : Env) (lineItems : list LineItemInput.t) (w : World) :
  exists created : list LineItem.t,
    mapM (invoiceService.createLineItem env) lineItems w
    = (Returns created, Spec.after_draws (List.length lineItems) w).
Proof.
  eexists.
  exact (mapM_line_item_ids env
           (fun id input =>
              {| LineItem.id := id;
                 LineItem.description := LineItemInput.description input;
                 LineItem.quantity := LineItemInput.quantity input;
                 LineItem.rate := LineItemInput.rate input;
                 LineItem.amount :=
                   JS.div (JS.Math_round
                             (JS.mul (JS.mul (LineItemInput.quantity input)
                                             (LineItemInput.rate input))
                                     (JS.of_Z 100)))
                          (JS.of_Z 100) |})
           lineItems w).
Qed.

Lemma setInvoices_returns (invoices : list Invoice.t) (w : World) :
  exists w' : World, storage.setInvoices invoices w = (Returns tt, w').
Proof.
  unfold storage.setInvoices, storage.set.
  destruct (available (localStorage w)); eexists; reflexivity.
Qed.

(** What update returns, when it returns. *)
Lemma update_returns (env : Env) (id : string) (input : InvoiceInput.t)
    (clients : list Client.t) (w w' : World) (i : nat) (existing after : Invoice.t) :
  Spec.found w id i existing ->
  invoiceService.update env id input clients w = (Returns after, w') ->
  Invoice.status after
  = invoiceService.status_or (InvoiceInput.status input) (Invoice.status existing)
  /\ Invoice.id after = Invoice.id existing
  /\ Invoice.invoiceNumber after = Invoice.invoiceNumber existing
  /\ Invoice.createdAt after = Invoice.createdAt existing.
Proof.
  intros Hfound%found_list_find. unfold invoiceService.update.
  destruct (ValidationResult.valid (invoiceService.validate input)); [|discriminate].
  cbn [negb]. unfold bind at 1. rewrite getInvoices_run, Hfound.
  destruct (find _ clients) as [client|]; [|discriminate].
  unfold bind at 1.
  destruct (mapM_createLineItem env (InvoiceInput.lineItems input) w) as (created & ->).
  cbv zeta. unfold bind at 1.
  match goal with
  | |- context [storage.setInvoices ?l ?v] =>
      destruct (setInvoices_returns l v) as (w'' & ->)
  end.
  unfold ret. intros [= <- _]. repeat split.
Qed.

Lemma markAs_returns (status : InvoiceStatus) (id : string) (w w' : World) (i : nat)
    (existing after : Invoice.t) :
  Spec.found w id i existing ->
  (invoices <- storage.getInvoices ;;
   match list_find (fun invoice => Invoice.id invoice = id) invoices with
   | None => throw (Not_found "Invoice" id)
   | Some (index, invoice) =>
       let updatedInvoice := Invoice.with_status invoice status in
       storage.setInvoices (<[index := updatedInvoice]> invoices) ;;;
       ret updatedInvoice
   end) w = (Returns after, w') ->
  after = Invoice.with_status existing status.
Proof.
  intros Hfound%found_list_find.
  destruct (mark_run status id w i existing Hfound) as (w'' & -> & _).
  intros [= <- _]. reflexivity.
Qed.

Lemma checkOverdue_returns (env : Env) (invoices updated : list Invoice.t) (w w' : World)
    (i : nat) (before after : Invoice.t) :
  invoiceService.checkOverdue env invoices w = (Returns updated, w') ->
  invoices !! i = Some before ->
  updated !! i = Some after ->
  after = before
  \/ (Invoice.status before = "sent" /\ after = Invoice.with_status before "overdue").
Proof.
  unfold invoiceService.checkOverdue, invoiceService.getCurrentDate.
  rewrite overdue_map_mark. intros Hrun Hi Hu.
  assert (Hupd : updated = List.map (Spec.mark (today env)) invoices).
  { unfold bind, ret in Hrun.
    destruct (existsb _ invoices).
    - match type of Hrun with
      | context [storage.setInvoices ?l ?v] =>
          destruct (setInvoices_returns l v) as (w'' & Hset)
      end.
      rewrite Hset in Hrun. now injection Hrun as <- _.
    - now injection Hrun as <- _. }
  subst updated. rewrite (mark_lookup _ _ _ _ Hi) in Hu. injection Hu as <-.
  unfold Spec.mark. destruct (invoiceService.is_overdue (today env) before) eqn:E.
  - right. apply is_overdue_true in E. split; [apply E|reflexivity].
  - left. reflexivity.
Qed.

(** C6, as stated, fails: an invoice is created as 'sent' in an empty
    store, and update with status 'draft' takes it back to 'draft'. *)
Lemma update_reverts_to_draft : ~ Spec.no_way_back.
Proof.
  intros H.
  assert (Hsent : Invoice.status Sample.sent_invoice = "sent") by reflexivity.
  assert (Hfound : Spec.found Sample.after_create (Invoice.id Sample.sent_invoice) 0
                     Sample.sent_invoice).
  { split; [reflexivity|]. split; [reflexivity|]. intros j other _ Hlt. lia. }
  destruct (invoiceService.update Sample.env (Invoice.id Sample.sent_invoice)
              Sample.draft_input [Sample.mockClient] Sample.after_create)
    as [outcome w'] eqn:Hrun.
  pose proof Hrun as Hvalue. vm_compute in Hvalue.
  destruct outcome as [after|e]; [|discriminate Hvalue].
  assert (Hstatus : Invoice.status after = "draft")
    by (injection Hvalue as <- _; reflexivity).
  destruct (H Sample.env Sample.after_create Sample.sent_invoice after) as (Hdraft & _).
  - left. exists 0%nat, Sample.draft_input, [Sample.mockClient], w'.
    split; [exact Hfound|exact Hrun].
  - apply Hdraft; [rewrite Hsent; discriminate|exact Hstatus].
Qed.

(** ... and, once it is marked as paid, markAsSent takes it out of 'paid'. *)
Example markAsSent_leaves_paid :
  match invoiceService.markAsPaid (Invoice.id Sample.sent_invoice) Sample.after_create with
  | (Returns paid, w) =>
      match invoiceService.markAsSent (Invoice.id Sample.sent_invoice) w with
      | (Returns after, _) => Invoice.status paid = "paid" /\ Invoice.status after = "sent"
      | _ => False
      end
  | _ => False
  end.
Proof. vm_compute. split; reflexivity. Qed.

(** C6 (amended): markAsPaid yields status 'paid' and markAsSent status
    'sent', whatever the status was; checkOverdue leaves every invoice as it
    is, except that a 'sent' invoice becomes 'overdue', so it never yields
    'draft' out of another status and never changes a 'paid' invoice; update
    yields the status of its input when the input has one, 'draft' included,
    and the existing status when it has none. *)
Theorem status_transitions (env : Env) (w : World) (id : string) (i : nat)
    (before : Invoice.t) :
  Spec.found w id i before ->
  (forall (after : Invoice.t) (w' : World),
     invoiceService.markAsPaid id w = (Returns after, w') -> Invoice.status after = "paid")
  /\ (forall (after : Invoice.t) (w' : World),
     invoiceService.markAsSent id w = (Returns after, w') -> Invoice.status after = "sent")
  /\ (forall (input : InvoiceInput.t) (clients : list Client.t) (after : Invoice.t) (w' : World),
     invoiceService.update env id input clients w = (Returns after, w') ->
     (InvoiceInput.status input = None -> Invoice.status after = Invoice.status before)
     /\ (forall s : InvoiceStatus,
           InvoiceInput.status input = Some s -> s <> "" -> Invoice.status after = s))
  /\ (forall (invoices updated : list Invoice.t) (w' : World) (j : nat) (b a : Invoice.t),
     invoiceService.checkOverdue env invoices w = (Returns updated, w') ->
     invoices !! j = Some b ->
     updated !! j = Some a ->
     (a = b \/ (Invoice.status b = "sent" /\ a = Invoice.with_status b "overdue"))
     /\ (Invoice.status b <> "draft" -> Invoice.status a <> "draft")
     /\ (Invoice.status b = "paid" -> a = b)).
Proof.
  intros Hfound. split; [|split; [|split]].
  - intros after w' Hrun.
    now rewrite (markAs_returns "paid" id w w' i before after Hfound Hrun).
  - intros after w' Hrun.
    now rewrite (markAs_returns "sent" id w w' i before after Hfound Hrun).
  - intros input clients after w' Hrun.
    destruct (update_returns env id input clients w w' i before after Hfound Hrun)
      as (Hstatus & _).
    rewrite Hstatus. unfold invoiceService.status_or. split.
    + intros ->. reflexivity.
    + intros s -> Hs. destruct (String.eqb_spec s ""); [contradiction|reflexivity].
  - intros invoices updated w' j b a Hrun Hb Ha.
    pose proof (checkOverdue_returns env invoices updated w w' j b a Hrun Hb Ha) as Hcases.
    split; [exact Hcases|]. split.
    + intros Hb'. destruct Hcases as [->|[_ ->]]; [exact Hb'|discriminate].
    + intros Hpaid. destruct Hcases as [->|[Hsent _]]; [reflexivity|].
      rewrite Hpaid in Hsent. discriminate Hsent.
Qed.

Lemma status_transitions_witness :
  (forall (after : Invoice.t) (w' : World),
     invoiceService.markAsPaid "inv2" Sample.stocked = (Returns after, w') ->
     Invoice.status after = "paid")
  /\ (forall (after : Invoice.t) (w' : World),
     invoiceService.update Sample.env "inv2" Sample.input [Sample.mockClient] Sample.stocked
     = (Returns after, w') ->
     Invoice.status after = "sent").
Proof.
  assert (Hfound : Spec.found Sample.stocked "inv2" 1 Sample.inv2).
  { split; [reflexivity|]. split; [reflexivity|].
    intros j other Hj Hlt. destruct j as [|j]; [|lia].
    injection Hj as <-. discriminate. }
  destruct (status_transitions Sample.env Sample.stocked "inv2" 1 Sample.inv2 Hfound)
    as (Hpaid & _ & Hupdate & _).
  split; [exact Hpaid|].
  intros after w' Hrun.
  destruct (Hupdate Sample.input [Sample.mockClient] after w' Hrun) as (Hkeep & _).
  apply Hkeep. reflexivity.
Defined.

(** ** Metrics *)

Section MetricsFold.

(** The loop of calculate, from any values of the running variables. *)
Lemma fold_step (invoices : list Invoice.t) (a : metricsService.Acc) :
  fold_left metricsService.step invoices a
  = {| metricsService.totalRevenue :=
         fold_left JS.add (Spec.totals_of "paid" invoices)
                   (metricsService.totalRevenue a);
       metricsService.pendingAmount :=
         fold_left JS.add (Spec.totals_of "sent" invoices)
                   (metricsService.pendingAmount a);
       metricsService.overdueAmount :=
         fold_left JS.add (Spec.totals_of "overdue" invoices)
                   (metricsService.overdueAmount a);
       metricsService.paidInvoices :=
         (metricsService.paidInvoices a + List.length (Spec.with_status "paid" invoices))%nat;
       metricsService.pendingInvoices :=
         (metricsService.pendingInvoices a
          + List.length (Spec.with_status "sent" invoices))%nat;
       metricsService.overdueInvoices :=
         (metricsService.overdueInvoices a
          + List.length (Spec.with_status "overdue" invoices))%nat;
       metricsService.draftInvoices :=
         (metricsService.draftInvoices a
          + List.length (Spec.with_status "draft" invoices))%nat |}.
Proof.
  revert a. induction invoices as [|invoice rest IH]; intros a.
  - destruct a. cbn. now rewrite !Nat.add_0_r.
  - cbn [fold_left]. rewrite IH. unfold metricsService.step, Spec.totals_of, Spec.with_status.
    cbn [List.filter]. unfold Spec.has_status. cbn beta.
    destruct (String.eqb_spec (Invoice.status invoice) "paid") as [E|_].
    { rewrite ?E. cbn. f_equal; lia. }
    destruct (String.eqb_spec (Invoice.status invoice) "sent") as [E|_].
    { rewrite ?E. cbn. f_equal; lia. }
    destruct (String.eqb_spec (Invoice.status invoice) "overdue") as [E|_].
    { rewrite ?E. cbn. f_equal; lia. }
    destruct (String.eqb_spec (Invoice.status invoice) "draft") as [E|_].
    { rewrite ?E. cbn. f_equal; lia. }
    reflexivity.
Qed.

End MetricsFold.

Lemma with_status_app (status : InvoiceStatus) (l1 l2 : list Invoice.t) :
  Spec.with_status status (l1 ++ l2)
  = (Spec.with_status status l1 ++ Spec.with_status status l2)%list.
Proof. unfold Spec.with_status. apply List.filter_app. Qed.

Lemma with_status_other (status : InvoiceStatus) (invoice : Invoice.t) (l : list Invoice.t) :
  Invoice.status invoice <> status ->
  Spec.with_status status (invoice :: l) = Spec.with_status status l.
Proof.
  intros H. unfold Spec.with_status, Spec.has_status. cbn [List.filter].
  destruct (String.eqb_spec (Invoice.status invoice) status); [contradiction|reflexivity].
Qed.

(** The metrics, status by status. *)
Lemma calculate_by_status (invoices : list Invoice.t) (clients : list Client.t) :
  metricsService.calculate invoices clients
  = {| Metrics.totalRevenue := Spec.round2 (Spec.sum (Spec.totals_of "paid" invoices));
       Metrics.pendingAmount := Spec.round2 (Spec.sum (Spec.totals_of "sent" invoices));
       Metrics.overdueAmount := Spec.round2 (Spec.sum (Spec.totals_of "overdue" invoices));
       Metrics.totalClients := List.length clients;
       Metrics.paidInvoices := List.length (Spec.with_status "paid" invoices);
       Metrics.pendingInvoices := List.length (Spec.with_status "sent" invoices);
       Metrics.overdueInvoices := List.length (Spec.with_status "overdue" invoices);
       Metrics.draftInvoices := List.length (Spec.with_status "draft" invoices) |}.
Proof.
  unfold metricsService.calculate. rewrite fold_step. reflexivity.
Qed.

(** The example of the specification: paid 110, sent 220, overdue 330,
    draft 440, and two clients. *)
Example calculate_example :
  metricsService.calculate Sample.invoices [Sample.mockClient; Sample.mockClient]
  = {| Metrics.totalRevenue := JS.of_Z 110; Metrics.pendingAmount := JS.of_Z 220;
       Metrics.overdueAmount := JS.of_Z 330; Metrics.totalClients := 2;
       Metrics.paidInvoices := 1; Metrics.pendingInvoices := 1;
       Metrics.overdueInvoices := 1; Metrics.draftInvoices := 1 |}.
Proof. vm_compute. reflexivity. Qed.

(** C7: calculate returns, for 'paid', 'sent' and 'overdue', round2 of the
    sum of the totals of the invoices with that status, the sum being
    rounded once, at the end; the number of invoices of each of the four
    statuses; and the number of clients.  An invoice with any other status
    counts nowhere: the metrics are those of the collection without it. *)
Theorem calculate_spec (invoices : list Invoice.t) (clients : list Client.t) :
  metricsService.calculate invoices clients
  = {| Metrics.totalRevenue := Spec.round2 (Spec.sum (Spec.totals_of "paid" invoices));
       Metrics.pendingAmount := Spec.round2 (Spec.sum (Spec.totals_of "sent" invoices));
       Metrics.overdueAmount := Spec.round2 (Spec.sum (Spec.totals_of "overdue" invoices));
       Metrics.totalClients := List.length clients;
       Metrics.paidInvoices := List.length (Spec.with_status "paid" invoices);
       Metrics.pendingInvoices := List.length (Spec.with_status "sent" invoices);
       Metrics.overdueInvoices := List.length (Spec.with_status "overdue" invoices);
       Metrics.draftInvoices := List.length (Spec.with_status "draft" invoices) |}
  /\ (forall (before after : list Invoice.t) (other : Invoice.t),
        invoices = (before ++ other :: after)%list ->
        Invoice.status other <> "paid" -> Invoice.status other <> "sent" ->
        Invoice.status other <> "overdue" -> Invoice.status other <> "draft" ->
        metricsService.calculate invoices clients
        = metricsService.calculate (before ++ after) clients).
Proof.
  split; [apply calculate_by_status|].
  intros before after other -> Hp Hs Ho Hd.
  rewrite !calculate_by_status. unfold Spec.totals_of.
  rewrite !with_status_app, !with_status_other by assumption.
  reflexivity.
Qed.

Lemma calculate_spec_witness :
  metricsService.calculate
    [Sample.inv1; Sample.invoice "inv5" "INV-2026-005" "void" "2026-01-31" 550; Sample.inv2]
    [Sample.mockClient]
  = metricsService.calculate [Sample.inv1; Sample.inv2] [Sample.mockClient].
Proof.
  apply (proj2 (calculate_spec
                  [Sample.inv1; Sample.invoice "inv5" "INV-2026-005" "void" "2026-01-31" 550;
                   Sample.inv2] [Sample.mockClient])
               [Sample.inv1] [Sample.inv2]
               (Sample.invoice "inv5" "INV-2026-005" "void" "2026-01-31" 550) eq_refl);
    discriminate.
Defined.

(** ** Failures and what they leave behind *)

Section Backend_failures.
Variables (env : Env) (w : World).






End Backend_failures.

Section Supabase_failures.
Import Supabase.
Variable session : Session.

Lemma request_succeeds {A : Type} (query : Database -> (PostgrestError + A) * Database)
    (r : Remote) :
  fault session (requests r) = None ->
  invoiceService.request session query r
  = (Returns (fst (query (database r))),
     {| database := snd (query (database r)); requests := S (requests r) |}).
Proof.
  intros H. unfold invoiceService.request. rewrite H.
  destruct (query (database r)). reflexivity.
Qed.





Lemma filter_all {A : Type} (f : A -> bool) (l : list A) :
  Forall (fun x => f x = true) l -> List.filter f l = l.
Proof.
  induction 1 as [|x rest Hx _ IH]; simpl; [reflexivity|].
  now rewrite Hx, IH.
Qed.



End Supabase_failures.

Section Client_failures.
Variables (env : Env) (w : World).





End Client_failures.







(** * Further properties of the services *)

(** ** storage.ts: what is set is what is read *)

Lemma JSON_lineItems_kept (lineItems : list LineItem.t) :
  List.map JSON.lineItem lineItems = lineItems
  <-> Forall (fun item =>
                Spec.kept_by_JSON (LineItem.quantity item)
                /\ Spec.kept_by_JSON (LineItem.rate item)
                /\ Spec.kept_by_JSON (LineItem.amount item))
             lineItems.
Proof.
  induction lineItems as [|item rest IH]; [split; [constructor|reflexivity]|].
  cbn [List.map]. rewrite Forall_cons, <- IH. unfold Spec.kept_by_JSON.
  rewrite <- !JSON_number_kept. destruct item as [id description quantity rate amount].
  unfold JSON.lineItem.
  cbn [LineItem.id LineItem.description LineItem.quantity LineItem.rate LineItem.amount].
  split.
  - intros [= Hq Hr Ha Hrest]. auto.
  - intros ((Hq & Hr & Ha) & Hrest). now rewrite Hq, Hr, Ha, Hrest.
Qed.

(** An invoice is read back as it was written exactly when none of its
    numbers is -0, NaN or an infinity. *)
Lemma JSON_invoice_kept (invoice : Invoice.t) :
  JSON.invoice invoice = invoice <-> Spec.written_as_is invoice.
Proof.
  unfold Spec.written_as_is, Spec.kept_by_JSON.
  rewrite <- !JSON_number_kept, <- JSON_lineItems_kept.
  destruct invoice. unfold JSON.invoice.
  cbn [Invoice.id Invoice.invoiceNumber Invoice.clientId Invoice.client Invoice.status
       Invoice.issueDate Invoice.dueDate Invoice.lineItems Invoice.subtotal Invoice.tax
       Invoice.total Invoice.notes Invoice.createdAt].
  split.
  - intros [= Hitems Hsubtotal Htax Htotal]. auto.
  - intros (Hsubtotal & Htax & Htotal & Hitems).
    now rewrite Hsubtotal, Htax, Htotal, Hitems.
Qed.

Lemma JSON_invoices_kept (invoices : list Invoice.t) :
  List.map JSON.invoice invoices = invoices <-> Forall Spec.written_as_is invoices.
Proof.
  induction invoices as [|invoice rest IH]; [split; [constructor|reflexivity]|].
  cbn [List.map]. rewrite Forall_cons, <- IH, <- JSON_invoice_kept. split.
  - intros [= Hinvoice Hrest]. auto.
  - intros (Hinvoice & Hrest). now rewrite Hinvoice, Hrest.
Qed.

(** X1: on an available localStorage, the invoices that are read after
    setInvoices are the invoices that were set as JSON gives them back: -0
    is read as 0, and NaN and the infinities as null (kept as 0, for which
    every later sum takes it); they are the invoices that were set exactly
    when none of their numbers is one of these.  The
    clients that were set are the clients that are read.  Setting one
    collection leaves the other and the counter as they were; on an
    unavailable localStorage nothing is written and both collections read
    as empty. *)
Theorem storage_round_trip (w : World) (invoices : list Invoice.t) (clients : list Client.t) :
  (exists w' : World,
     storage.setInvoices invoices w = (Returns tt, w')
     /\ storage.getInvoices w'
        = (Returns (if available (localStorage w)
                    then List.map JSON.invoice invoices else []), w')
     /\ fst (storage.getClients w') = fst (storage.getClients w)
     /\ Spec.stored_counter w' = Spec.stored_counter w)
  /\ (List.map JSON.invoice invoices = invoices <-> Forall Spec.written_as_is invoices)
  /\ (forall x : number,
        (Spec.kept_by_JSON x -> JSON.number x = x)
        /\ (~ Spec.kept_by_JSON x -> JSON.number x = S754_zero false /\ JSON.number x <> x))
  /\ (exists w' : World,
     storage.setClients clients w = (Returns tt, w')
     /\ storage.getClients w'
        = (Returns (if available (localStorage w) then clients else []), w')
     /\ fst (storage.getInvoices w') = fst (storage.getInvoices w)
     /\ Spec.stored_counter w' = Spec.stored_counter w)
  /\ (available (localStorage w) = false ->
      storage.setInvoices invoices w = (Returns tt, w)
      /\ storage.setClients clients w = (Returns tt, w)
      /\ storage.getInvoices w = (Returns [], w)
      /\ storage.getClients w = (Returns [], w)).
Proof.
  split; [|split; [|split; [|split]]].
  - destruct (available (localStorage w)) eqn:Havail.
    + destruct (setInvoices_run invoices w Havail)
        as (w' & Hset & Hinvoices & Hclients & Hcounter & _).
      exists w'. split; [exact Hset|].
      rewrite !getInvoices_run, !getClients_run, Hinvoices, Hclients. auto.
    + exists w. unfold storage.setInvoices, storage.set. rewrite Havail.
      split; [reflexivity|].
      rewrite getInvoices_run. unfold Spec.stored_invoices. rewrite Havail. auto.
  - apply JSON_invoices_kept.
  - intros x. split; [intros Hkept; now apply JSON_number_kept|].
    intros Hnot. split.
    + destruct x as [[|]|[|]| |s m e]; try reflexivity;
        exfalso; apply Hnot; repeat split; discriminate.
    + intros Hsame. apply Hnot. now apply JSON_number_kept.
  - destruct (available (localStorage w)) eqn:Havail.
    + destruct (setClients_run clients w Havail)
        as (w' & Hset & Hclients & Hinvoices & Hcounter & _).
      exists w'. split; [exact Hset|].
      rewrite !getInvoices_run, !getClients_run, Hinvoices, Hclients. auto.
    + exists w. unfold storage.setClients, storage.set. rewrite Havail.
      split; [reflexivity|].
      rewrite getClients_run. unfold Spec.stored_clients. rewrite Havail. auto.
  - intros Havail. rewrite getInvoices_run, getClients_run.
    unfold storage.setInvoices, storage.setClients, storage.set,
      Spec.stored_invoices, Spec.stored_clients.
    rewrite Havail. repeat split.
Qed.

(** The four sample invoices are read as they were set; an invoice with
    the total -0 is read with the total 0. *)
Lemma storage_round_trip_witness :
  (exists w' : World,
     storage.setInvoices Sample.invoices Sample.empty = (Returns tt, w')
     /\ storage.getInvoices w' = (Returns Sample.invoices, w'))
  /\ JSON.number (S754_zero true) = S754_zero false.
Proof.
  destruct (storage_round_trip Sample.empty Sample.invoices [])
    as ((w' & Hset & Hget & _) & _ & Hnumber & _).
  split; [exists w'; split; [exact Hset|exact Hget]|].
  apply (Hnumber (S754_zero true)). intros (Hzero & _). now apply Hzero.
Defined.

(** X2: clearAll empties the clients and the invoices but does not touch
    the counter of the invoice number generator: the number generate
    returns next is the one it would have returned before; reset is what
    takes the sequence back to 1, and it leaves clients and invoices
    alone. *)
Theorem clearAll_keeps_the_sequence (env : Env) (w : World) :
  (exists w' : World,
     storage.clearAll w = (Returns tt, w')
     /\ storage.getInvoices w' = (Returns [], w')
     /\ storage.getClients w' = (Returns [], w')
     /\ fst (invoiceNumberGenerator.generate env w')
        = fst (invoiceNumberGenerator.generate env w))
  /\ (exists w' : World,
     invoiceNumberGenerator.reset w = (Returns tt, w')
     /\ fst (invoiceNumberGenerator.generate env w')
        = Returns (Spec.invoice_number (currentYear env) 1)
     /\ fst (storage.getInvoices w') = fst (storage.getInvoices w)
     /\ fst (storage.getClients w') = fst (storage.getClients w)).
Proof.
  split.
  - unfold storage.clearAll, storage.remove, bind.
    destruct (available (localStorage w)) eqn:Havail.
    + cbn [localStorage available draws invoicey_invoices invoicey_clients
           invoicey_invoice_counter_data].
      eexists. split; [reflexivity|].
      rewrite !getInvoices_run, !getClients_run, !generate_run. cbv zeta.
      unfold Spec.stored_invoices, Spec.stored_clients, Spec.stored_counter.
      cbn [localStorage available invoicey_invoices invoicey_clients
           invoicey_invoice_counter_data fst].
      rewrite Havail. repeat split.
    + repeat (rewrite ?Havail; cbn beta iota).
      exists w. split; [reflexivity|].
      rewrite !getInvoices_run, !getClients_run.
      unfold Spec.stored_invoices, Spec.stored_clients. rewrite Havail.
      repeat split.
  - unfold invoiceNumberGenerator.reset, storage.remove.
    destruct (available (localStorage w)) eqn:Havail.
    + eexists. split; [reflexivity|].
      rewrite !getInvoices_run, !getClients_run, !generate_run. cbv zeta.
      unfold Spec.stored_invoices, Spec.stored_clients, Spec.stored_counter.
      cbn [localStorage available invoicey_invoices invoicey_clients
           invoicey_invoice_counter_data fst].
      rewrite Havail. repeat split.
    + exists w. split; [reflexivity|].
      rewrite generate_unavailable by exact Havail. repeat split.
Qed.

(** ** invoiceNumberGenerator.ts: the numbers of a year are all different *)

Lemma pretty_N_char_value (d : N) :
  (d < 10)%N -> (N_of_ascii (pretty_N_char d) - 48)%N = d.
Proof.
  intros Hd.
  assert (Hcases : (d = 0 \/ d = 1 \/ d = 2 \/ d = 3 \/ d = 4 \/ d = 5 \/ d = 6
                    \/ d = 7 \/ d = 8 \/ d = 9)%N) by lia.
  repeat (destruct Hcases as [->|Hcases]; [reflexivity|]). subst d. reflexivity.
Qed.

(** Reading the digits pretty_N_go writes in front of [s]. *)
Lemma parse_pretty_N_go (x : N) :
  exists k : N, forall (acc : N) (s : string),
    Spec.parse_decimal acc (pretty_N_go x s) = Spec.parse_decimal (acc * 10 ^ k + x)%N s.
Proof.
  induction (N.lt_wf_0 x) as [x _ IH].
  destruct (N.eq_dec x 0%N) as [->|Hx].
  - exists 0%N. intros acc s. rewrite pretty_N_go_0. f_equal. lia.
  - assert (Hpos : (0 < x)%N) by lia.
    destruct (IH (x `div` 10)%N) as (k & Hk); [apply N.div_lt; lia|].
    exists (k + 1)%N. intros acc s.
    rewrite pretty_N_go_step by exact Hpos. rewrite Hk. cbn [Spec.parse_decimal].
    rewrite pretty_N_char_value by (apply N.mod_lt; lia).
    f_equal. rewrite N.pow_add_r, N.pow_1_r.
    pose proof (N.div_mod x 10 ltac:(lia)) as Hdm. lia.
Qed.

Lemma parse_pretty_N (x : N) : Spec.parse_decimal 0 (pretty x) = x.
Proof.
  unfold pretty, pretty_N. destruct (decide (x = 0%N)) as [->|Hx]; [reflexivity|].
  destruct (parse_pretty_N_go x) as (k & Hk). rewrite Hk. simpl. lia.
Qed.

Lemma String_of_nonneg (z : Z) : 0 <= z -> JS.String_of z = pretty (Z.to_N z).
Proof.
  intros Hz. unfold JS.String_of. destruct z as [|p|p]; [reflexivity|reflexivity|lia].
Qed.

Lemma parse_leading_zeros (m : nat) (s : string) :
  Spec.parse_decimal 0 (String.concat "" (replicate m "0") ++ s) = Spec.parse_decimal 0 s.
Proof.
  induction m as [|m IH]; [reflexivity|].
  destruct m as [|m'].
  - reflexivity.
  - cbn [replicate String.concat] in *. cbn [String.append Spec.parse_decimal] in *.
    exact IH.
Qed.

(** The padded sequence reads back as the sequence. *)
Lemma parse_padStart0 (width : nat) (z : Z) :
  0 <= z -> Spec.parse_decimal 0 (JS.padStart0 width (JS.String_of z)) = Z.to_N z.
Proof.
  intros Hz. unfold JS.padStart0. rewrite parse_leading_zeros.
  rewrite String_of_nonneg by exact Hz. apply parse_pretty_N.
Qed.

Lemma append_cancel (prefix a b : string) : prefix ++ a = prefix ++ b -> a = b.
Proof.
  induction prefix as [|c rest IH]; simpl; intros H; [exact H|].
  injection H as H. auto.
Qed.

Lemma invoice_number_inj (year a b : Z) :
  0 <= a -> 0 <= b -> Spec.invoice_number year a = Spec.invoice_number year b -> a = b.
Proof.
  intros Ha Hb H. unfold Spec.invoice_number in H.
  apply (append_cancel "INV-") in H.
  apply append_cancel in H. apply (append_cancel "-") in H.
  apply (f_equal (Spec.parse_decimal 0)) in H.
  rewrite !parse_padStart0 in H by assumption. lia.
Qed.

Lemma generate_many_run (env : Env) (n : nat) (w : World) :
  available (localStorage w) = true ->
  0 <= Spec.next_sequence (currentYear env) (Spec.stored_counter w) ->
  Spec.next_sequence (currentYear env) (Spec.stored_counter w) + Z.of_nat n <= 2 ^ 53 + 1 ->
  exists w' : World,
    Spec.generate_many env n w
    = (Returns
         (List.map (fun k : nat =>
                      Spec.invoice_number (currentYear env)
                        (Spec.next_sequence (currentYear env) (Spec.stored_counter w)
                         + Z.of_nat k))
                   (seq 0 n)),
       w').
Proof.
  revert w. induction n as [|n IH]; intros w Havail Hfirst Hlast.
  - exists w. reflexivity.
  - cbn [Spec.generate_many]. unfold bind at 1. rewrite generate_run. cbv zeta.
    rewrite Havail.
    set (s0 := Spec.next_sequence (currentYear env) (Spec.stored_counter w)) in *.
    set (w1 := {| localStorage := _; draws := draws w |}).
    assert (Hnext : Spec.next_sequence (currentYear env) (Spec.stored_counter w1)
                    = JS.add_integers s0 1).
    { unfold Spec.stored_counter, Spec.next_sequence, w1.
      cbn [localStorage available invoicey_invoice_counter_data CounterData.year
           CounterData.sequence].
      now rewrite Z.eqb_refl. }
    destruct n as [|n].
    + exists w1. cbn [Spec.generate_many seq List.map]. unfold bind, ret.
      now rewrite Z.add_0_r.
    + assert (Hexact : JS.add_integers s0 1 = s0 + 1) by (apply add_integers_exact; lia).
      rewrite Hexact in Hnext.
      destruct (IH w1 eq_refl) as (w' & Hrun); [rewrite Hnext; lia..|].
      exists w'. unfold bind at 1. rewrite Hrun. unfold ret.
      rewrite Hnext. change (seq 0 (S (S n))) with (0%nat :: seq 1 (S n)).
      cbn [List.map]. rewrite Z.add_0_r.
      rewrite <- (seq_shift (S n) 0), List.map_map.
      f_equal. f_equal. f_equal.
      apply List.map_ext. intros k. f_equal. lia.
Qed.

(** X3: on an available localStorage whose stored sequence is an integer
    from 0 to 2^53, n calls of generate in a row that stay within 2^53
    return n invoice numbers that are pairwise different, the k-th carrying
    the first sequence plus k.  (Past 2^53 the sequence no longer advances
    and the number repeats.) *)
Theorem consecutive_numbers_distinct (env : Env) (n : nat) (w : World) :
  available (localStorage w) = true ->
  (forall counter : CounterData.t,
     invoicey_invoice_counter_data (localStorage w) = Some counter ->
     0 <= CounterData.sequence counter <= 2 ^ 53) ->
  Spec.next_sequence (currentYear env) (invoicey_invoice_counter_data (localStorage w))
  + Z.of_nat n <= 2 ^ 53 + 1 ->
  exists (numbers : list string) (w' : World),
    Spec.generate_many env n w = (Returns numbers, w')
    /\ List.length numbers = n
    /\ NoDup numbers
    /\ (forall k : nat, (k < n)%nat ->
          numbers !! k
          = Some (Spec.invoice_number (currentYear env)
                    (Spec.next_sequence (currentYear env)
                       (invoicey_invoice_counter_data (localStorage w))
                     + Z.of_nat k))).
Proof.
  intros Havail Hseq Hlast.
  assert (Hstored : Spec.stored_counter w = invoicey_invoice_counter_data (localStorage w)).
  { unfold Spec.stored_counter. now rewrite Havail. }
  assert (Hs0 : 1 <= Spec.next_sequence (currentYear env)
                       (invoicey_invoice_counter_data (localStorage w))).
  { unfold Spec.next_sequence.
    destruct (invoicey_invoice_counter_data (localStorage w)) as [counter|] eqn:E; [|lia].
    destruct (CounterData.year counter =? currentYear env); [|lia].
    specialize (Hseq counter eq_refl).
    destruct (Z.eq_dec (CounterData.sequence counter) (2 ^ 53)) as [Hmax|Hless].
    - rewrite Hmax, add_integers_stalls. lia.
    - rewrite add_integers_exact by lia. lia. }
  destruct (generate_many_run env n w Havail) as (w' & Hrun);
    [rewrite Hstored; lia..|].
  rewrite Hstored in Hrun.
  set (s0 := Spec.next_sequence (currentYear env)
               (invoicey_invoice_counter_data (localStorage w))) in *.
  eexists. exists w'. split; [exact Hrun|].
  split; [now rewrite length_map, length_seq|].
  split.
  - apply (NoDup_fmap_2_strong _ (seq 0 n)); [|apply NoDup_seq].
    intros j k _ _ H. apply invoice_number_inj in H; lia.
  - intros k Hk.
    change (List.map ?f ?l) with (f <$> l).
    rewrite list_lookup_fmap, lookup_seq_lt by exact Hk. reflexivity.
Qed.

Lemma consecutive_numbers_distinct_witness :
  exists (numbers : list string) (w' : World),
    Spec.generate_many Sample.env 3 Sample.stocked = (Returns numbers, w')
    /\ NoDup numbers
    /\ numbers !! 2%nat = Some "INV-2026-007".
Proof.
  assert (Hseq : forall counter : CounterData.t,
            invoicey_invoice_counter_data (localStorage Sample.stocked) = Some counter ->
            0 <= CounterData.sequence counter <= 2 ^ 53).
  { intros counter [= <-]. cbn [CounterData.sequence]. lia. }
  assert (Hlast : Spec.next_sequence (currentYear Sample.env)
                    (invoicey_invoice_counter_data (localStorage Sample.stocked))
                  + Z.of_nat 3 <= 2 ^ 53 + 1).
  { vm_compute. discriminate. }
  destruct (consecutive_numbers_distinct Sample.env 3 Sample.stocked eq_refl Hseq Hlast)
    as (numbers & w' & Hrun & _ & Hdistinct & Hkth).
  exists numbers, w'. split; [exact Hrun|]. split; [exact Hdistinct|].
  apply (Hkth 2%nat). lia.
Defined.

(** ** invoiceService.ts: unknown ids *)

Lemma list_find_unknown (invoices : list Invoice.t) (id : string) :
  Forall (fun invoice => Invoice.id invoice <> id) invoices ->
  list_find (fun invoice => Invoice.id invoice = id) invoices = None.
Proof. intros H. apply list_find_None. exact H. Qed.

Lemma find_unknown (invoices : list Invoice.t) (id : string) :
  Forall (fun invoice => Invoice.id invoice <> id) invoices ->
  List.find (fun invoice => String.eqb (Invoice.id invoice) id) invoices = None.
Proof.
  induction 1 as [|invoice rest Hne _ IH]; simpl; [reflexivity|].
  destruct (String.eqb_spec (Invoice.id invoice) id); [contradiction|exact IH].
Qed.

(** X4: for an id that no stored invoice has, getById returns undefined,
    and markAsPaid, markAsSent, delete and duplicate throw 'Invoice with ID
    <id> not found'; update throws it too for a valid input, before it
    looks for the client; create and update throw 'Client with ID
    <clientId> not found' when the input is valid and no client of the
    collection has the id.  None of these calls writes anything. *)
Theorem unknown_ids (env : Env) (w : World) (id : string) :
  Forall (fun invoice => Invoice.id invoice <> id) (Spec.stored_invoices w) ->
  invoiceService.getById id w = (Returns None, w)
  /\ invoiceService.markAsPaid id w = (Throws (Not_found "Invoice" id), w)
  /\ invoiceService.markAsSent id w = (Throws (Not_found "Invoice" id), w)
  /\ invoiceService.deleteInvoice id w = (Throws (Not_found "Invoice" id), w)
  /\ (forall clients,
        invoiceService.duplicate env id clients w = (Throws (Not_found "Invoice" id), w))
  /\ (forall input clients,
        ValidationResult.valid (invoiceService.validate input) = true ->
        invoiceService.update env id input clients w = (Throws (Not_found "Invoice" id), w))
  /\ (forall input clients,
        ValidationResult.valid (invoiceService.validate input) = true ->
        Forall (fun client => Client.id client <> InvoiceInput.clientId input) clients ->
        invoiceService.create env input clients w
        = (Throws (Not_found "Client" (InvoiceInput.clientId input)), w)).
Proof.
  intros Hunknown.
  pose proof (list_find_unknown _ _ Hunknown) as Hlf.
  pose proof (find_unknown _ _ Hunknown) as Hf.
  split; [rewrite getById_run, Hf; reflexivity|].
  split; [unfold invoiceService.markAsPaid, bind; rewrite getInvoices_run, Hlf; reflexivity|].
  split; [unfold invoiceService.markAsSent, bind; rewrite getInvoices_run, Hlf; reflexivity|].
  split;
    [unfold invoiceService.deleteInvoice, bind; rewrite getInvoices_run, Hlf; reflexivity|].
  split.
  { intros clients. unfold invoiceService.duplicate, bind.
    rewrite getInvoices_run, Hf. reflexivity. }
  split.
  - intros input clients Hvalid. unfold invoiceService.update. rewrite Hvalid. cbn [negb].
    unfold bind. rewrite getInvoices_run, Hlf. reflexivity.
  - intros input clients Hvalid Hclients. unfold invoiceService.create.
    rewrite Hvalid. cbn [negb].
    assert (Hnone : List.find (fun c => String.eqb (Client.id c) (InvoiceInput.clientId input))
                      clients = None).
    { induction Hclients as [|client rest Hne _ IH]; simpl; [reflexivity|].
      destruct (String.eqb_spec (Client.id client) (InvoiceInput.clientId input));
        [contradiction|exact IH]. }
    rewrite Hnone. reflexivity.
Qed.

Lemma unknown_ids_witness :
  invoiceService.markAsPaid "inv9" Sample.stocked
  = (Throws (Not_found "Invoice" "inv9"), Sample.stocked)
  /\ invoiceService.create Sample.env Sample.input [] Sample.stocked
     = (Throws (Not_found "Client" "client_1"), Sample.stocked).
Proof.
  assert (Hunknown : Forall (fun invoice => Invoice.id invoice <> "inv9")
                            (Spec.stored_invoices Sample.stocked)).
  { repeat constructor; discriminate. }
  destruct (unknown_ids Sample.env Sample.stocked "inv9" Hunknown)
    as (_ & Hpaid & _ & _ & _ & _ & Hcreate).
  split; [exact Hpaid|].
  apply (Hcreate Sample.input [] eq_refl). constructor.
Defined.

(** ** invoiceService.ts: create *)

Lemma mapM_createLineItem_run (env : Env) (lineItems : list LineItemInput.t) (w : World) :
  mapM (invoiceService.createLineItem env) lineItems w
  = (Returns
       (imap (fun i input =>
          {| LineItem.id :=
               "item_" ++ JS.String_of (Date_now env) ++ "_"
               ++ Math_random env (draws w + i)%nat;
             LineItem.description := LineItemInput.description input;
             LineItem.quantity := LineItemInput.quantity input;
             LineItem.rate := LineItemInput.rate input;
             LineItem.amount :=
               Spec.round2 (JS.mul (LineItemInput.quantity input)
                                   (LineItemInput.rate input)) |})
          lineItems),
     Spec.after_draws (List.length lineItems) w).
Proof.
  exact (mapM_line_item_ids env
           (fun id input =>
              {| LineItem.id := id;
                 LineItem.description := LineItemInput.description input;
                 LineItem.quantity := LineItemInput.quantity input;
                 LineItem.rate := LineItemInput.rate input;
                 LineItem.amount :=
                   Spec.round2 (JS.mul (LineItemInput.quantity input)
                                       (LineItemInput.rate input)) |})
           lineItems w).
Qed.

(** What create returns and stores, given a valid input whose client is in
    the collection. *)
Lemma create_run (env : Env) (input : InvoiceInput.t)
    (clients : list Client.t) (w : World) (client : Client.t) :
  ValidationResult.valid (invoiceService.validate input) = true ->
  List.find (fun c => String.eqb (Client.id c) (InvoiceInput.clientId input)) clients
    = Some client ->
  exists (newInvoice : Invoice.t) (w' : World),
    invoiceService.create env input clients w = (Returns newInvoice, w')
    /\ Invoice.id newInvoice
       = "invoice_" ++ JS.String_of (Date_now env) ++ "_"
         ++ Math_random env (draws w + List.length (InvoiceInput.lineItems input))%nat
    /\ Invoice.invoiceNumber newInvoice
       = Spec.invoice_number (currentYear env)
           (Spec.next_sequence (currentYear env) (Spec.stored_counter w))
    /\ Invoice.clientId newInvoice = InvoiceInput.clientId input
    /\ Invoice.client newInvoice = client
    /\ (InvoiceInput.status input = None -> Invoice.status newInvoice = "draft")
    /\ (forall s, InvoiceInput.status input = Some s -> s <> "" ->
          Invoice.status newInvoice = s)
    /\ Invoice.issueDate newInvoice = InvoiceInput.issueDate input
    /\ Invoice.dueDate newInvoice = InvoiceInput.dueDate input
    /\ Invoice.notes newInvoice = InvoiceInput.notes input
    /\ Invoice.createdAt newInvoice = today env
    /\ List.length (Invoice.lineItems newInvoice)
       = List.length (InvoiceInput.lineItems input)
    /\ (forall (i : nat) (item : LineItemInput.t),
          InvoiceInput.lineItems input !! i = Some item ->
          Invoice.lineItems newInvoice !! i
          = Some {| LineItem.id :=
                      "item_" ++ JS.String_of (Date_now env) ++ "_"
                      ++ Math_random env (draws w + i)%nat;
                    LineItem.description := LineItemInput.description item;
                    LineItem.quantity := LineItemInput.quantity item;
                    LineItem.rate := LineItemInput.rate item;
                    LineItem.amount :=
                      Spec.round2 (JS.mul (LineItemInput.quantity item)
                                          (LineItemInput.rate item)) |})
    /\ {| Totals.subtotal := Invoice.subtotal newInvoice;
          Totals.tax := Invoice.tax newInvoice;
          Totals.total := Invoice.total newInvoice |}
       = Spec.totals Spec.round2 10 (InvoiceInput.lineItems input) None
    /\ (available (localStorage w) = true ->
        Spec.stored_invoices w'
        = (Spec.stored_invoices w ++ [JSON.invoice newInvoice])%list
        /\ Spec.stored_clients w' = Spec.stored_clients w
        /\ Spec.stored_counter w'
           = Some {| CounterData.year := currentYear env;
                     CounterData.sequence :=
                       Spec.next_sequence (currentYear env) (Spec.stored_counter w) |}).
Proof.
  intros Hvalid Hclient.
  unfold invoiceService.create. rewrite Hvalid, Hclient. cbn [negb].
  unfold bind at 1. rewrite getInvoices_run.
  unfold bind at 1. rewrite mapM_createLineItem_run.
  unfold bind at 1. rewrite generateId_run.
  unfold bind at 1. rewrite generate_run. cbv zeta.
  assert (Htotals : forall l,
            {| Totals.subtotal := Totals.subtotal (invoiceService.calculateTotals l None);
               Totals.tax := Totals.tax (invoiceService.calculateTotals l None);
               Totals.total := Totals.total (invoiceService.calculateTotals l None) |}
            = Spec.totals Spec.round2 10 l None).
  { intros l. unfold invoiceService.calculateTotals, Spec.totals, Spec.round2, Spec.sum.
    rewrite fold_left_products. reflexivity. }
  unfold Spec.after_draws, Spec.stored_counter, Spec.stored_invoices, Spec.stored_clients.
  cbn [localStorage draws].
  destruct (available (localStorage w)) eqn:Havail;
    unfold bind, ret, storage.setInvoices, storage.set;
    cbn [localStorage draws available invoicey_invoices invoicey_clients
         invoicey_invoice_counter_data];
    rewrite ?Havail;
    (eexists; eexists; split; [reflexivity|]);
    cbn [Invoice.id Invoice.invoiceNumber Invoice.clientId Invoice.client Invoice.status
         Invoice.issueDate Invoice.dueDate Invoice.notes Invoice.createdAt
         Invoice.lineItems Invoice.subtotal Invoice.tax Invoice.total];
    (split; [reflexivity|]); (split; [reflexivity|]); (split; [reflexivity|]);
    (split; [reflexivity|]);
    (split; [intros ->; reflexivity|]);
    (split; [intros s -> Hs; unfold invoiceService.status_or;
             destruct (String.eqb_spec s ""); [contradiction|reflexivity]|]);
    (split; [reflexivity|]); (split; [reflexivity|]); (split; [reflexivity|]);
    (split; [reflexivity|]);
    (split; [apply length_imap|]);
    (split; [intros i item Hi; rewrite list_lookup_imap, Hi; reflexivity|]);
    (split; [apply Htotals|]).
  - intros _. split; [|repeat split].
    unfold JSON.parse, JSON.stringify, JSON.value, JSON.invoices.
    cbn [localStorage available invoicey_invoices fmap option_fmap option_map default].
    rewrite JSON_invoices_idempotent, List.map_app.
    destruct (invoicey_invoices (localStorage w)) as [stored|];
      cbn [fmap option_fmap option_map default List.map]; unfold Datatypes.id;
      rewrite ?JSON_invoices_idempotent; reflexivity.
  - intros H. discriminate H.
Qed.

(** X5: create, given a valid input whose client is in the collection,
    returns an invoice with the next number of the sequencer, the client
    found, the dates and notes of the input, the status of the input or
    'draft' when the input has none, createdAt today, one line item per
    input item with the same description, quantity and rate and with amount
    round2(quantity * rate), and the totals of calculateTotals at the
    default rate of 10. *)
Theorem create_returns (env : Env) (input : InvoiceInput.t)
    (clients : list Client.t) (w : World) (client : Client.t) :
  ValidationResult.valid (invoiceService.validate input) = true ->
  List.find (fun c => String.eqb (Client.id c) (InvoiceInput.clientId input)) clients
    = Some client ->
  exists (newInvoice : Invoice.t) (w' : World),
    invoiceService.create env input clients w = (Returns newInvoice, w')
    /\ Invoice.invoiceNumber newInvoice
       = Spec.invoice_number (currentYear env)
           (Spec.next_sequence (currentYear env) (Spec.stored_counter w))
    /\ Invoice.clientId newInvoice = InvoiceInput.clientId input
    /\ Invoice.client newInvoice = client
    /\ (InvoiceInput.status input = None -> Invoice.status newInvoice = "draft")
    /\ (forall s, InvoiceInput.status input = Some s -> s <> "" ->
          Invoice.status newInvoice = s)
    /\ Invoice.issueDate newInvoice = InvoiceInput.issueDate input
    /\ Invoice.dueDate newInvoice = InvoiceInput.dueDate input
    /\ Invoice.notes newInvoice = InvoiceInput.notes input
    /\ Invoice.createdAt newInvoice = today env
    /\ List.map (fun item => (LineItem.description item, LineItem.quantity item,
                              LineItem.rate item, LineItem.amount item))
         (Invoice.lineItems newInvoice)
       = List.map (fun item => (LineItemInput.description item, LineItemInput.quantity item,
                                LineItemInput.rate item,
                                Spec.round2 (JS.mul (LineItemInput.quantity item)
                                                    (LineItemInput.rate item))))
           (InvoiceInput.lineItems input)
    /\ {| Totals.subtotal := Invoice.subtotal newInvoice;
          Totals.tax := Invoice.tax newInvoice;
          Totals.total := Invoice.total newInvoice |}
       = Spec.totals Spec.round2 10 (InvoiceInput.lineItems input) None.
Proof.
  intros Hvalid Hclient.
  destruct (create_run env input clients w client Hvalid Hclient)
    as (newInvoice & w' & Hrun & _ & Hnumber & HclientId & Hc & Hdraft & Hstatus & Hissue
        & Hdue & Hnotes & Hcreated & Hlen & Hitems & Htotals & _).
  exists newInvoice, w'. repeat (split; [assumption|]). split; [|exact Htotals].
  apply list_eq. intros i. rewrite !list_lookup_fmap.
  destruct (InvoiceInput.lineItems input !! i) as [item|] eqn:Hi.
  - rewrite (Hitems i item Hi). reflexivity.
  - apply lookup_ge_None in Hi. rewrite <- Hlen in Hi.
    apply lookup_ge_None in Hi. rewrite Hi. reflexivity.
Qed.

Lemma create_returns_witness :
  exists (newInvoice : Invoice.t) (w' : World),
    invoiceService.create Sample.env Sample.input [Sample.mockClient] Sample.empty
    = (Returns newInvoice, w')
    /\ Invoice.invoiceNumber newInvoice = "INV-2026-001"
    /\ Invoice.status newInvoice = "draft".
Proof.
  destruct (create_returns Sample.env Sample.input [Sample.mockClient] Sample.empty
              Sample.mockClient eq_refl eq_refl)
    as (newInvoice & w' & Hrun & Hnumber & _ & _ & Hdraft & _).
  exists newInvoice, w'. split; [exact Hrun|]. split; [exact Hnumber|].
  apply Hdraft. reflexivity.
Defined.

Lemma find_app_fresh (invoices : list Invoice.t) (newInvoice : Invoice.t) (id : string) :
  List.find (fun invoice => String.eqb (Invoice.id invoice) id) (invoices ++ [newInvoice])
  = match List.find (fun invoice => String.eqb (Invoice.id invoice) id) invoices with
    | Some invoice => Some invoice
    | None => if String.eqb (Invoice.id newInvoice) id then Some newInvoice else None
    end.
Proof.
  induction invoices as [|invoice rest IH]; simpl; [reflexivity|].
  destruct (String.eqb (Invoice.id invoice) id); [reflexivity|exact IH].
Qed.

(** X6: on an available localStorage, create (valid input, client in the
    collection) appends the invoice it returns, as JSON gives it back, to
    the stored collection and leaves the stored clients as they are; when
    no stored invoice already has the generated id, getById of that id then
    returns that stored invoice, which is the invoice create returned
    exactly when none of its numbers is -0, NaN or an infinity, and getById
    of any other id returns what it returned before. *)
Theorem create_then_getById (env : Env) (input : InvoiceInput.t)
    (clients : list Client.t) (w : World) (client : Client.t) :
  available (localStorage w) = true ->
  ValidationResult.valid (invoiceService.validate input) = true ->
  List.find (fun c => String.eqb (Client.id c) (InvoiceInput.clientId input)) clients
    = Some client ->
  Forall (fun invoice =>
            Invoice.id invoice
            <> "invoice_" ++ JS.String_of (Date_now env) ++ "_"
               ++ Math_random env (draws w + List.length (InvoiceInput.lineItems input))%nat)
         (Spec.stored_invoices w) ->
  exists (newInvoice : Invoice.t) (w' : World),
    invoiceService.create env input clients w = (Returns newInvoice, w')
    /\ Spec.stored_invoices w'
       = (Spec.stored_invoices w ++ [JSON.invoice newInvoice])%list
    /\ Spec.stored_clients w' = Spec.stored_clients w
    /\ invoiceService.getById (Invoice.id newInvoice) w'
       = (Returns (Some (JSON.invoice newInvoice)), w')
    /\ (invoiceService.getById (Invoice.id newInvoice) w' = (Returns (Some newInvoice), w')
        <-> Spec.written_as_is newInvoice)
    /\ (forall id : string,
          id <> Invoice.id newInvoice ->
          fst (invoiceService.getById id w') = fst (invoiceService.getById id w)).
Proof.
  intros Havail Hvalid Hclient Hfresh.
  destruct (create_run env input clients w client Hvalid Hclient)
    as (newInvoice & w' & Hrun & Hid & _ & _ & _ & _ & _ & _ & _ & _ & _ & _ & _ & _ & Hstore).
  destruct (Hstore Havail) as (Hinvoices & Hclients & _).
  exists newInvoice, w'. split; [exact Hrun|]. split; [exact Hinvoices|].
  split; [exact Hclients|]. rewrite <- Hid in Hfresh.
  assert (Hget : invoiceService.getById (Invoice.id newInvoice) w'
                 = (Returns (Some (JSON.invoice newInvoice)), w')).
  { rewrite getById_run, Hinvoices, find_app_fresh, (find_unknown _ _ Hfresh).
    cbn [JSON.invoice Invoice.id]. rewrite String.eqb_refl. reflexivity. }
  split; [exact Hget|]. split.
  - rewrite Hget, <- JSON_invoice_kept. split; [intros [= H]; exact H|now intros ->].
  - intros id Hne. rewrite !getById_run, Hinvoices, find_app_fresh. cbn [fst].
    destruct (List.find _ (Spec.stored_invoices w)); [reflexivity|].
    cbn [JSON.invoice Invoice.id].
    destruct (String.eqb_spec (Invoice.id newInvoice) id); [congruence|reflexivity].
Qed.

Lemma create_then_getById_witness :
  exists (newInvoice : Invoice.t) (w' : World),
    invoiceService.create Sample.env Sample.input [Sample.mockClient] Sample.stocked
    = (Returns newInvoice, w')
    /\ invoiceService.getById (Invoice.id newInvoice) w'
       = (Returns (Some (JSON.invoice newInvoice)), w').
Proof.
  assert (Hfresh : Forall (fun invoice => Invoice.id invoice <> "invoice_1767225600000_r1")
                          (Spec.stored_invoices Sample.stocked)).
  { repeat constructor; discriminate. }
  destruct (create_then_getById Sample.env Sample.input [Sample.mockClient] Sample.stocked
              Sample.mockClient eq_refl eq_refl eq_refl Hfresh)
    as (newInvoice & w' & Hrun & _ & _ & Hget & _).
  exists newInvoice, w'. split; [exact Hrun|exact Hget].
Defined.

(** An ordinary invoice is stored as create returns it; the invoice of a
    credit of less than half a cent is returned with the totals -0 and
    stored with the totals 0. *)
Example create_stores_what_JSON_keeps :
  match invoiceService.create Sample.env Sample.input [Sample.mockClient] Sample.stocked,
        invoiceService.create Sample.env Sample.credit_input [Sample.mockClient]
          Sample.stocked with
  | (Returns ordinary, w1), (Returns credit, w2) =>
      last (Spec.stored_invoices w1) = Some ordinary
      /\ Invoice.subtotal credit = S754_zero true
      /\ (Invoice.subtotal <$> last (Spec.stored_invoices w2)) = Some (S754_zero false)
      /\ last (Spec.stored_invoices w2) <> Some credit
  | _, _ => False
  end.
Proof. vm_compute. repeat split. discriminate. Qed.

(** ** invoiceService.ts: delete *)

Lemma find_delete_first (invoices : list Invoice.t) (id other : string) (i : nat)
    (invoice : Invoice.t) :
  list_find (fun invoice => Invoice.id invoice = id) invoices = Some (i, invoice) ->
  other <> id ->
  List.find (fun invoice => String.eqb (Invoice.id invoice) other) (delete i invoices)
  = List.find (fun invoice => String.eqb (Invoice.id invoice) other) invoices.
Proof.
  intros Hfind Hne. apply list_find_Some in Hfind as (Hi & Hid & _).
  revert i Hi. induction invoices as [|first rest IH]; intros i Hi; [discriminate Hi|].
  destruct i as [|i]; simpl in *.
  - injection Hi as ->.
    destruct (String.eqb_spec (Invoice.id invoice) other); [congruence|reflexivity].
  - destruct (String.eqb (Invoice.id first) other); [reflexivity|]. apply IH. exact Hi.
Qed.

Lemma find_delete_unique (invoices : list Invoice.t) (id : string) (i : nat)
    (invoice : Invoice.t) :
  list_find (fun invoice => Invoice.id invoice = id) invoices = Some (i, invoice) ->
  NoDup (List.map Invoice.id invoices) ->
  List.find (fun invoice => String.eqb (Invoice.id invoice) id) (delete i invoices) = None.
Proof.
  intros Hfind Hnodup. apply list_find_Some in Hfind as (Hi & Hid & _).
  apply find_unknown. apply Forall_forall. intros other Hin Hsame.
  apply list_elem_of_lookup in Hin as (j & Hj).
  rewrite list_lookup_delete in Hj.
  assert (Hinj : forall a b x y, invoices !! a = Some x -> invoices !! b = Some y ->
                   Invoice.id x = Invoice.id y -> a = b).
  { intros a b x y Ha Hb Hxy.
    apply (NoDup_lookup (List.map Invoice.id invoices) a b (Invoice.id x)); [exact Hnodup| |].
    - change (List.map Invoice.id invoices) with (Invoice.id <$> invoices).
      now rewrite list_lookup_fmap, Ha.
    - change (List.map Invoice.id invoices) with (Invoice.id <$> invoices).
      now rewrite list_lookup_fmap, Hb, Hxy. }
  destruct (decide (j < i)%nat) as [Hlt|Hge].
  - pose proof (Hinj j i other invoice Hj Hi ltac:(congruence)). lia.
  - pose proof (Hinj (S j) i other invoice Hj Hi ltac:(congruence)). lia.
Qed.

(** X7: delete(id), for an id that some stored invoice has, returns, and
    removes exactly the first stored invoice with that id: the collection is
    one shorter, every other invoice stays, in order, and getById of any
    other id answers as before; the stored clients (no cascade) and the
    sequencer's counter are untouched; when the stored ids are pairwise
    different, getById(id) is undefined afterwards. *)
Theorem delete_removes (id : string) (w : World) (i : nat) (invoice : Invoice.t) :
  available (localStorage w) = true ->
  Spec.found w id i invoice ->
  exists w' : World,
    invoiceService.deleteInvoice id w = (Returns tt, w')
    /\ Spec.stored_invoices w' = delete i (Spec.stored_invoices w)
    /\ S (List.length (Spec.stored_invoices w')) = List.length (Spec.stored_invoices w)
    /\ (forall j : nat, (j < i)%nat ->
          Spec.stored_invoices w' !! j = Spec.stored_invoices w !! j)
    /\ (forall j : nat, (i <= j)%nat ->
          Spec.stored_invoices w' !! j = Spec.stored_invoices w !! S j)
    /\ (forall other : string, other <> id ->
          fst (invoiceService.getById other w') = fst (invoiceService.getById other w))
    /\ (NoDup (List.map Invoice.id (Spec.stored_invoices w)) ->
          fst (invoiceService.getById id w') = Returns None)
    /\ Spec.stored_clients w' = Spec.stored_clients w
    /\ Spec.stored_counter w' = Spec.stored_counter w.
Proof.
  intros Havail Hfound. pose proof Hfound as (Hi & _ & _).
  apply found_list_find in Hfound.
  destruct (setInvoices_run (delete i (Spec.stored_invoices w)) w Havail)
    as (w' & Hset & Hinvoices & Hclients & Hcounter & _).
  rewrite read_back_delete in Hinvoices.
  exists w'. split.
  { unfold invoiceService.deleteInvoice, bind. rewrite getInvoices_run, Hfound. exact Hset. }
  split; [exact Hinvoices|]. rewrite Hinvoices.
  split.
  { rewrite length_delete by (rewrite Hi; eauto).
    apply lookup_lt_Some in Hi. lia. }
  split; [intros j Hj; now rewrite list_lookup_delete_lt|].
  split; [intros j Hj; now rewrite list_lookup_delete_ge|].
  split.
  { intros other Hne. rewrite !getById_run, Hinvoices. cbn [fst]. f_equal.
    exact (find_delete_first _ id other i invoice Hfound Hne). }
  split; [|split; assumption].
  intros Hnodup. rewrite getById_run, Hinvoices. cbn [fst]. f_equal.
  exact (find_delete_unique _ id i invoice Hfound Hnodup).
Qed.

Lemma delete_removes_witness :
  exists w' : World,
    invoiceService.deleteInvoice "inv2" Sample.stocked = (Returns tt, w')
    /\ Spec.stored_invoices w' = [Sample.inv1; Sample.inv3; Sample.inv4]
    /\ fst (invoiceService.getById "inv2" w') = Returns None.
Proof.
  assert (Hfound : Spec.found Sample.stocked "inv2" 1 Sample.inv2).
  { split; [reflexivity|]. split; [reflexivity|].
    intros j other Hj Hlt. destruct j as [|j]; [|lia].
    injection Hj as <-. discriminate. }
  destruct (delete_removes "inv2" Sample.stocked 1 Sample.inv2 eq_refl Hfound)
    as (w' & Hrun & Hinvoices & _ & _ & _ & _ & Hgone & _).
  exists w'. split; [exact Hrun|]. split; [exact Hinvoices|].
  apply Hgone. apply (bool_decide_unpack _). vm_compute. reflexivity.
Defined.

(** ** invoiceService.ts: update *)

(** X8: update(id, input, clients), for a stored invoice, a valid input and
    a client of the collection, returns the invoice with the id, the number
    and the createdAt of the stored one, the client, dates and notes of the
    input, the status of the input or else the stored status, line items
    rebuilt from the input and the totals recomputed at the default rate; it
    is stored, as JSON gives it back, in the place of the old one (that is
    the returned invoice itself exactly when none of its numbers is -0, NaN
    or an infinity); every other stored invoice, the clients and the
    sequencer's counter stay: an update consumes no number. *)
Theorem update_replaces_in_place (env : Env) (id : string) (input : InvoiceInput.t)
    (clients : list Client.t) (w : World) (i : nat) (existing : Invoice.t)
    (client : Client.t) :
  available (localStorage w) = true ->
  ValidationResult.valid (invoiceService.validate input) = true ->
  Spec.found w id i existing ->
  List.find (fun c => String.eqb (Client.id c) (InvoiceInput.clientId input)) clients
    = Some client ->
  exists (updated : Invoice.t) (w' : World),
    invoiceService.update env id input clients w = (Returns updated, w')
    /\ Invoice.id updated = id
    /\ Invoice.invoiceNumber updated = Invoice.invoiceNumber existing
    /\ Invoice.createdAt updated = Invoice.createdAt existing
    /\ Invoice.clientId updated = InvoiceInput.clientId input
    /\ Invoice.client updated = client
    /\ Invoice.status updated
       = invoiceService.status_or (InvoiceInput.status input) (Invoice.status existing)
    /\ Invoice.issueDate updated = InvoiceInput.issueDate input
    /\ Invoice.dueDate updated = InvoiceInput.dueDate input
    /\ Invoice.notes updated = InvoiceInput.notes input
    /\ List.map (fun item => (LineItem.description item, LineItem.quantity item,
                              LineItem.rate item, LineItem.amount item))
         (Invoice.lineItems updated)
       = List.map (fun item => (LineItemInput.description item, LineItemInput.quantity item,
                                LineItemInput.rate item,
                                Spec.round2 (JS.mul (LineItemInput.quantity item)
                                                    (LineItemInput.rate item))))
           (InvoiceInput.lineItems input)
    /\ {| Totals.subtotal := Invoice.subtotal updated;
          Totals.tax := Invoice.tax updated;
          Totals.total := Invoice.total updated |}
       = Spec.totals Spec.round2 10 (InvoiceInput.lineItems input) None
    /\ Spec.stored_invoices w' = <[i := JSON.invoice updated]> (Spec.stored_invoices w)
    /\ (Spec.stored_invoices w' !! i = Some updated <-> Spec.written_as_is updated)
    /\ (forall j : nat, j <> i -> Spec.stored_invoices w' !! j = Spec.stored_invoices w !! j)
    /\ Spec.stored_clients w' = Spec.stored_clients w
    /\ Spec.stored_counter w' = Spec.stored_counter w.
Proof.
  intros Havail Hvalid Hfound Hclient.
  pose proof Hfound as (Hi & Hid & _). apply found_list_find in Hfound.
  unfold invoiceService.update. rewrite Hvalid. cbn [negb].
  unfold bind at 1. rewrite getInvoices_run, Hfound, Hclient.
  unfold bind at 1. rewrite mapM_createLineItem_run. cbv zeta.
  match goal with
  | |- context [storage.setInvoices ?l] =>
      destruct (setInvoices_run l (Spec.after_draws (List.length (InvoiceInput.lineItems input)) w))
        as (w' & Hset & Hinvoices & Hclients & Hcounter & _); [exact Havail|]
  end.
  change (Spec.stored_invoices (Spec.after_draws _ w)) with (Spec.stored_invoices w)
    in Hinvoices.
  rewrite read_back_replace in Hinvoices.
  unfold bind, ret. rewrite Hset.
  eexists. exists w'. split; [reflexivity|].
  cbn [Invoice.id Invoice.invoiceNumber Invoice.clientId Invoice.client Invoice.status
       Invoice.issueDate Invoice.dueDate Invoice.notes Invoice.createdAt
       Invoice.lineItems Invoice.subtotal Invoice.tax Invoice.total].
  split; [exact Hid|]. do 8 (split; [reflexivity|]).
  split.
  { apply list_eq. intros j. rewrite !list_lookup_fmap, list_lookup_imap.
    destruct (InvoiceInput.lineItems input !! j); reflexivity. }
  split.
  { unfold invoiceService.calculateTotals, Spec.totals, Spec.round2, Spec.sum.
    rewrite fold_left_products. reflexivity. }
  split; [exact Hinvoices|].
  split.
  { rewrite Hinvoices, list_lookup_insert_eq by (apply lookup_lt_Some in Hi; exact Hi).
    rewrite <- JSON_invoice_kept.
    split; [intros H; exact (inj Some _ _ H)|intros H; f_equal; exact H]. }
  split; [intros j Hj; rewrite Hinvoices; now apply list_lookup_insert_ne|].
  split; assumption.
Qed.

Lemma update_replaces_in_place_witness :
  exists (updated : Invoice.t) (w' : World),
    invoiceService.update Sample.env "inv2" Sample.input [Sample.mockClient] Sample.stocked
    = (Returns updated, w')
    /\ Invoice.invoiceNumber updated = "INV-2026-002"
    /\ Spec.stored_counter w' = Spec.stored_counter Sample.stocked.
Proof.
  assert (Hfound : Spec.found Sample.stocked "inv2" 1 Sample.inv2).
  { split; [reflexivity|]. split; [reflexivity|].
    intros j other Hj Hlt. destruct j as [|j]; [|lia].
    injection Hj as <-. discriminate. }
  destruct (update_replaces_in_place Sample.env "inv2" Sample.input [Sample.mockClient]
              Sample.stocked 1 Sample.inv2 Sample.mockClient eq_refl eq_refl Hfound eq_refl)
    as (updated & w' & Hrun & _ & Hnumber & _ & _ & _ & _ & _ & _ & _ & _ & _ & _ & _ & _
        & _ & Hcounter).
  exists updated, w'. split; [exact Hrun|]. split; [exact Hnumber|exact Hcounter].
Defined.

(** ** invoiceService.ts and clientService: search and filterByStatus *)

Lemma prefix_occurs (part s : string) :
  String.prefix part s = true <-> exists post : string, s = part ++ post.
Proof.
  revert s. induction part as [|c part IH]; intros s.
  - split; [intros _; now exists s|now destruct s].
  - destruct s as [|d s]; simpl.
    + split; [discriminate|intros (post & H); discriminate H].
    + destruct (ascii_dec c d) as [->|Hne].
      * rewrite IH. split; intros (post & H); exists post; [now rewrite H|now injection H].
      * split; [discriminate|]. intros (post & H). injection H as Hd _. congruence.
Qed.

Lemma includes_occurs (s part : string) :
  JS.includes s part = true <-> Spec.occurs part s.
Proof.
  unfold Spec.occurs. split.
  - induction s as [|c s IH].
    + cbn [JS.includes]. rewrite orb_false_r. intros (post & H)%prefix_occurs.
      now exists "", post.
    + cbn [JS.includes]. intros [(post & H)%prefix_occurs|H]%orb_true_iff.
      * now exists "", post.
      * destruct (IH H) as (pre & post & ->). now exists (String c pre), post.
  - intros (pre & post & ->). induction pre as [|c pre IH].
    + assert (Hprefix : String.prefix part (part ++ post) = true)
        by (apply prefix_occurs; now exists post).
      change ("" ++ part ++ post) with (part ++ post).
      destruct (part ++ post); cbn [JS.includes]; now rewrite Hprefix.
    + cbn [JS.includes append]. apply orb_true_iff. right. exact IH.
Qed.

Lemma filter_sublist {A : Type} (f : A -> bool) (l : list A) : sublist (List.filter f l) l.
Proof.
  induction l as [|x l IH]; simpl; [constructor|].
  destruct (f x); now constructor.
Qed.

Lemma filter_commutes {A : Type} (f g : A -> bool) (l : list A) :
  List.filter f (List.filter g l) = List.filter g (List.filter f l).
Proof.
  induction l as [|x l IH]; simpl; [reflexivity|].
  destruct (f x) eqn:Hf, (g x) eqn:Hg; simpl; rewrite ?Hf, ?Hg, IH; reflexivity.
Qed.

Lemma filter_twice {A : Type} (f : A -> bool) (l : list A) :
  List.filter f (List.filter f l) = List.filter f l.
Proof.
  induction l as [|x l IH]; simpl; [reflexivity|].
  destruct (f x) eqn:Hf; simpl; rewrite ?Hf, IH; reflexivity.
Qed.

(** X9: invoiceService.search returns the collection itself for an empty or
    all-blank query; for any other query it keeps, in their order, exactly
    the invoices in which the trimmed lower-cased query occurs in the
    lower-cased invoice number, client name or client company (an invoice
    whose client has no company can only match on the first two); nothing
    else of an invoice (status, notes, line items, email) is searched. *)
Theorem invoice_search_spec (toLowerCase : string -> string) (query : string)
    (invoices : list Invoice.t) :
  (query = "" \/ Spec.blank query ->
     invoiceService.search toLowerCase query invoices = invoices)
  /\ (query <> "" /\ ~ Spec.blank query ->
      forall invoice : Invoice.t,
        In invoice (invoiceService.search toLowerCase query invoices)
        <-> In invoice invoices
            /\ (Spec.occurs (JS.trim (toLowerCase query))
                            (toLowerCase (Invoice.invoiceNumber invoice))
                \/ Spec.occurs (JS.trim (toLowerCase query))
                               (toLowerCase (Client.name (Invoice.client invoice)))
                \/ exists company : string,
                     Client.company (Invoice.client invoice) = Some company
                     /\ Spec.occurs (JS.trim (toLowerCase query)) (toLowerCase company)))
  /\ sublist (invoiceService.search toLowerCase query invoices) invoices.
Proof.
  unfold invoiceService.search, Spec.blank. split; [|split].
  - intros [Hq | Hq]; rewrite Hq; [reflexivity|]. now rewrite orb_true_r.
  - intros (Hne & Hblank) invoice.
    destruct (String.eqb_spec query ""); [contradiction|].
    destruct (String.eqb_spec (JS.trim query) ""); [contradiction|].
    cbn [orb]. cbv zeta. rewrite List.filter_In, !orb_true_iff, !includes_occurs.
    destruct (Client.company (Invoice.client invoice)) as [company|];
      cbn [fmap option_fmap option_map default].
    + unfold id. rewrite includes_occurs. split.
      * intros (Hin & [[H|H]|H]); split; eauto.
      * intros (Hin & [H|[H|(c & Hc & H)]]); split; auto.
        injection Hc as <-. auto.
    + split.
      * intros (Hin & [[H|H]|H]); [split; auto..|discriminate H].
      * intros (Hin & [H|[H|(c & Hc & _)]]); [split; auto..|discriminate Hc].
  - destruct (_ || _); [reflexivity|apply filter_sublist].
Qed.

(** X10: clientService.search returns the collection itself for an empty or
    all-blank query; for any other query it keeps, in their order, exactly
    the clients in which the trimmed lower-cased query occurs in the
    lower-cased name, email or company; phone and address are not
    searched. *)
Theorem client_search_spec (toLowerCase : string -> string) (query : string)
    (clients : list Client.t) :
  (query = "" \/ Spec.blank query ->
     clientService.search toLowerCase query clients = clients)
  /\ (query <> "" /\ ~ Spec.blank query ->
      forall client : Client.t,
        In client (clientService.search toLowerCase query clients)
        <-> In client clients
            /\ (Spec.occurs (JS.trim (toLowerCase query)) (toLowerCase (Client.name client))
                \/ Spec.occurs (JS.trim (toLowerCase query))
                               (toLowerCase (Client.email client))
                \/ exists company : string,
                     Client.company client = Some company
                     /\ Spec.occurs (JS.trim (toLowerCase query)) (toLowerCase company)))
  /\ sublist (clientService.search toLowerCase query clients) clients.
Proof.
  unfold clientService.search, Spec.blank. split; [|split].
  - intros [Hq | Hq]; rewrite Hq; [reflexivity|]. now rewrite orb_true_r.
  - intros (Hne & Hblank) client.
    destruct (String.eqb_spec query ""); [contradiction|].
    destruct (String.eqb_spec (JS.trim query) ""); [contradiction|].
    cbn [orb]. cbv zeta. rewrite List.filter_In, !orb_true_iff, !includes_occurs.
    destruct (Client.company client) as [company|]; cbn [fmap option_fmap option_map default].
    + unfold id. rewrite includes_occurs. split.
      * intros (Hin & [[H|H]|H]); split; eauto.
      * intros (Hin & [H|[H|(c & Hc & H)]]); split; auto.
        injection Hc as <-. auto.
    + split.
      * intros (Hin & [[H|H]|H]); [split; auto..|discriminate H].
      * intros (Hin & [H|[H|(c & Hc & _)]]); [split; auto..|discriminate Hc].
  - destruct (_ || _); [reflexivity|apply filter_sublist].
Qed.

(** X11: filterByStatus returns the collection itself for '' and 'all' and
    otherwise exactly the invoices whose status equals the argument, in
    their order; searching and filtering by status can be done in either
    order, each passes through a concatenation, and doing either twice is
    doing it once. *)
Theorem search_and_filter_compose (toLowerCase : string -> string) (query status : string)
    (invoices more : list Invoice.t) :
  invoiceService.filterByStatus "" invoices = invoices
  /\ invoiceService.filterByStatus "all" invoices = invoices
  /\ (status <> "" /\ status <> "all" ->
      forall invoice : Invoice.t,
        In invoice (invoiceService.filterByStatus status invoices)
        <-> In invoice invoices /\ Invoice.status invoice = status)
  /\ sublist (invoiceService.filterByStatus status invoices) invoices
  /\ invoiceService.filterByStatus status (invoiceService.search toLowerCase query invoices)
     = invoiceService.search toLowerCase query
         (invoiceService.filterByStatus status invoices)
  /\ invoiceService.filterByStatus status (invoices ++ more)
     = (invoiceService.filterByStatus status invoices
        ++ invoiceService.filterByStatus status more)%list
  /\ invoiceService.search toLowerCase query (invoices ++ more)
     = (invoiceService.search toLowerCase query invoices
        ++ invoiceService.search toLowerCase query more)%list
  /\ invoiceService.filterByStatus status (invoiceService.filterByStatus status invoices)
     = invoiceService.filterByStatus status invoices
  /\ invoiceService.search toLowerCase query (invoiceService.search toLowerCase query invoices)
     = invoiceService.search toLowerCase query invoices.
Proof.
  unfold invoiceService.filterByStatus, invoiceService.search.
  split; [reflexivity|]. split; [reflexivity|].
  split.
  { intros (Hne & Hall) invoice.
    destruct (String.eqb_spec status ""); [contradiction|].
    destruct (String.eqb_spec status "all"); [contradiction|].
    cbn [orb]. now rewrite List.filter_In, String.eqb_eq. }
  split; [destruct (_ || _); [reflexivity|apply filter_sublist]|].
  destruct (String.eqb status "" || String.eqb status "all"),
    (String.eqb query "" || String.eqb (JS.trim query) ""); cbv zeta;
    rewrite ?List.filter_app, ?filter_twice; repeat split; try reflexivity.
  apply filter_commutes.
Qed.

(** ** metricsService: the counts, and the list page's filter *)

Lemma count_statuses (invoices : list Invoice.t) :
  (List.length (Spec.with_status "paid" invoices)
   + List.length (Spec.with_status "sent" invoices)
   + List.length (Spec.with_status "overdue" invoices)
   + List.length (Spec.with_status "draft" invoices) <= List.length invoices)%nat
  /\ ((List.length (Spec.with_status "paid" invoices)
       + List.length (Spec.with_status "sent" invoices)
       + List.length (Spec.with_status "overdue" invoices)
       + List.length (Spec.with_status "draft" invoices))%nat = List.length invoices
      <-> Forall Spec.known_status invoices).
Proof.
  induction invoices as [|invoice rest (IHle & IHeq)].
  - split; [reflexivity|]. split; [constructor|reflexivity].
  - unfold Spec.with_status, Spec.has_status in *. cbn [List.filter].
    rewrite Forall_cons, <- IHeq. unfold Spec.known_status.
    destruct (String.eqb_spec (Invoice.status invoice) "paid") as [Hp|Hp],
             (String.eqb_spec (Invoice.status invoice) "sent") as [Hs|Hs],
             (String.eqb_spec (Invoice.status invoice) "overdue") as [Ho|Ho],
             (String.eqb_spec (Invoice.status invoice) "draft") as [Hd|Hd];
      try (rewrite Hp in *; discriminate);
      try (rewrite Hs in *; discriminate);
      try (rewrite Ho in *; discriminate);
      cbn [List.length]; (split; [lia|]); split;
      try (intros H; split; [tauto|lia]);
      try (intros (_ & H); lia);
      try (intros H; exfalso; lia);
      intros ([H|[H|[H|H]]] & _); contradiction.
Qed.

(** X12: the dashboard's counts are the lengths of the list page's filters:
    calculate counts for 'paid', 'sent', 'overdue' and 'draft' as many
    invoices as filterByStatus returns for that status; the four counts add
    up to at most the number of invoices, and to exactly that number if and
    only if every invoice has one of the four statuses; getEmptyMetrics is
    the metrics of no invoices and no clients. *)
Theorem counts_agree_with_filter (invoices : list Invoice.t) (clients : list Client.t) :
  let metrics := metricsService.calculate invoices clients in
  Metrics.paidInvoices metrics
    = List.length (invoiceService.filterByStatus "paid" invoices)
  /\ Metrics.pendingInvoices metrics
     = List.length (invoiceService.filterByStatus "sent" invoices)
  /\ Metrics.overdueInvoices metrics
     = List.length (invoiceService.filterByStatus "overdue" invoices)
  /\ Metrics.draftInvoices metrics
     = List.length (invoiceService.filterByStatus "draft" invoices)
  /\ (Metrics.paidInvoices metrics + Metrics.pendingInvoices metrics
      + Metrics.overdueInvoices metrics + Metrics.draftInvoices metrics
      <= List.length invoices)%nat
  /\ ((Metrics.paidInvoices metrics + Metrics.pendingInvoices metrics
       + Metrics.overdueInvoices metrics + Metrics.draftInvoices metrics)%nat
      = List.length invoices
      <-> Forall Spec.known_status invoices)
  /\ metricsService.calculate [] [] = metricsService.getEmptyMetrics.
Proof.
  cbv zeta. rewrite calculate_by_status.
  cbn [Metrics.paidInvoices Metrics.pendingInvoices Metrics.overdueInvoices
       Metrics.draftInvoices].
  do 4 (split; [reflexivity|]).
  split; [apply count_statuses|]. split; [apply count_statuses|].
  vm_compute. reflexivity.
Qed.

(** ** invoiceService.ts: checkOverdue, the store and the dashboard *)

Lemma checkOverdue_run (env : Env) (invoices : list Invoice.t) (w : World) :
  exists w' : World,
    invoiceService.checkOverdue env invoices w
    = (Returns (List.map (Spec.mark (today env)) invoices), w')
    /\ (existsb (invoiceService.is_overdue (today env)) invoices = false -> w' = w)
    /\ (available (localStorage w) = false -> w' = w)
    /\ (existsb (invoiceService.is_overdue (today env)) invoices = true ->
        available (localStorage w) = true ->
        Spec.stored_invoices w'
        = List.map JSON.invoice (List.map (Spec.mark (today env)) invoices)
        /\ Spec.stored_clients w' = Spec.stored_clients w
        /\ Spec.stored_counter w' = Spec.stored_counter w
        /\ draws w' = draws w).
Proof.
  unfold invoiceService.checkOverdue, invoiceService.getCurrentDate.
  rewrite overdue_map_mark.
  destruct (existsb _ invoices); unfold bind, ret.
  - destruct (available (localStorage w)) eqn:Havail.
    + destruct (setInvoices_run (List.map (Spec.mark (today env)) invoices) w Havail)
        as (w' & -> & Hstored).
      exists w'. split; [reflexivity|]. split; [discriminate|]. split; [discriminate|].
      intros _ _. exact Hstored.
    + unfold storage.setInvoices, storage.set. rewrite Havail.
      exists w. split; [reflexivity|]. split; [discriminate|]. split; [reflexivity|].
      discriminate.
  - exists w. split; [reflexivity|]. split; [reflexivity|]. split; [reflexivity|].
    discriminate.
Qed.

Lemma with_status_mark (today : string) (status : InvoiceStatus) (invoices : list Invoice.t) :
  status <> "sent" -> status <> "overdue" ->
  Spec.with_status status (List.map (Spec.mark today) invoices)
  = Spec.with_status status invoices.
Proof.
  intros Hsent Hoverdue. unfold Spec.with_status, Spec.has_status.
  induction invoices as [|invoice rest IH]; [reflexivity|].
  cbn [List.map List.filter]. rewrite IH. unfold Spec.mark.
  destruct (invoiceService.is_overdue today invoice) eqn:E; [|reflexivity].
  apply is_overdue_true in E as (Hs & _). cbn [Invoice.status Invoice.with_status].
  rewrite Hs.
  destruct (String.eqb_spec "overdue" status); [congruence|].
  destruct (String.eqb_spec "sent" status); [congruence|]. reflexivity.
Qed.

Lemma sent_overdue_mark (today : string) (invoices : list Invoice.t) :
  List.length (Spec.with_status "sent" (List.map (Spec.mark today) invoices))
  = List.length
      (List.filter (fun invoice =>
                      Spec.has_status "sent" invoice
                      && negb (String.ltb (Invoice.dueDate invoice) today)) invoices)
  /\ (List.length (Spec.with_status "sent" (List.map (Spec.mark today) invoices))
      + List.length (Spec.with_status "overdue" (List.map (Spec.mark today) invoices)))%nat
     = (List.length (Spec.with_status "sent" invoices)
        + List.length (Spec.with_status "overdue" invoices))%nat.
Proof.
  unfold Spec.with_status, Spec.has_status.
  induction invoices as [|invoice rest (IH1 & IH2)]; [split; reflexivity|].
  cbn [List.map List.filter].
  assert (Hmark : Spec.mark today invoice
                  = if invoiceService.is_overdue today invoice
                    then Invoice.with_status invoice "overdue" else invoice) by reflexivity.
  rewrite Hmark. clear Hmark. unfold invoiceService.is_overdue.
  destruct (String.eqb (Invoice.status invoice) "sent") eqn:Hs.
  - apply String.eqb_eq in Hs.
    destruct (String.ltb (Invoice.dueDate invoice) today); cbn [andb negb];
      cbn [Invoice.status Invoice.with_status]; rewrite ?Hs;
      cbn [String.eqb Ascii.eqb Bool.eqb andb List.length]; split; lia.
  - cbn [andb]. rewrite Hs.
    destruct (String.eqb (Invoice.status invoice) "overdue"); cbn [List.length]; split; lia.
Qed.

(** X13: checkOverdue and the dashboard: the metrics of the collection that
    checkOverdue returns have the totalRevenue, the paid and draft counts
    and the client count of the metrics before; the invoices it marks move
    from the pending count to the overdue count, so the two together stay
    the same, and the pending count afterwards is the number of 'sent'
    invoices that are not past due. *)
Theorem checkOverdue_metrics (env : Env) (invoices : list Invoice.t)
    (clients : list Client.t) (w : World) :
  exists (updated : list Invoice.t) (w' : World),
    invoiceService.checkOverdue env invoices w = (Returns updated, w')
    /\ Metrics.totalRevenue (metricsService.calculate updated clients)
       = Metrics.totalRevenue (metricsService.calculate invoices clients)
    /\ Metrics.paidInvoices (metricsService.calculate updated clients)
       = Metrics.paidInvoices (metricsService.calculate invoices clients)
    /\ Metrics.draftInvoices (metricsService.calculate updated clients)
       = Metrics.draftInvoices (metricsService.calculate invoices clients)
    /\ Metrics.totalClients (metricsService.calculate updated clients)
       = Metrics.totalClients (metricsService.calculate invoices clients)
    /\ (Metrics.pendingInvoices (metricsService.calculate updated clients)
        + Metrics.overdueInvoices (metricsService.calculate updated clients))%nat
       = (Metrics.pendingInvoices (metricsService.calculate invoices clients)
          + Metrics.overdueInvoices (metricsService.calculate invoices clients))%nat
    /\ Metrics.pendingInvoices (metricsService.calculate updated clients)
       = List.length
           (List.filter (fun invoice =>
                           String.eqb (Invoice.status invoice) "sent"
                           && negb (String.ltb (Invoice.dueDate invoice) (today env)))
                        invoices)
    /\ (Metrics.overdueInvoices (metricsService.calculate invoices clients)
        <= Metrics.overdueInvoices (metricsService.calculate updated clients))%nat.
Proof.
  destruct (checkOverdue_run env invoices w) as (w' & Hrun & _).
  exists (List.map (Spec.mark (today env)) invoices), w'. split; [exact Hrun|].
  rewrite !calculate_by_status.
  cbn [Metrics.totalRevenue Metrics.paidInvoices Metrics.draftInvoices Metrics.totalClients
       Metrics.pendingInvoices Metrics.overdueInvoices].
  unfold Spec.totals_of.
  rewrite !(with_status_mark (today env) "paid"), !(with_status_mark (today env) "draft")
    by discriminate.
  destruct (sent_overdue_mark (today env) invoices) as (Hsent & Hboth).
  do 4 (split; [reflexivity|]). split; [exact Hboth|]. split; [exact Hsent|].
  assert (Hle : (List.length (List.filter (fun invoice =>
                      Spec.has_status "sent" invoice
                      && negb (String.ltb (Invoice.dueDate invoice) (today env))) invoices)
                 <= List.length (Spec.with_status "sent" invoices))%nat).
  { unfold Spec.with_status. clear. induction invoices as [|invoice rest IH]; [reflexivity|].
    cbn [List.filter]. destruct (Spec.has_status "sent" invoice); cbn [andb];
      [destruct (negb _)|]; cbn [List.length]; lia. }
  lia.
Qed.

Lemma written_as_is_mark (today : string) (invoices : list Invoice.t) :
  Forall Spec.written_as_is (List.map (Spec.mark today) invoices)
  <-> Forall Spec.written_as_is invoices.
Proof.
  induction invoices as [|invoice rest IH]; [split; constructor|].
  cbn [List.map]. rewrite !Forall_cons, IH. unfold Spec.mark at 1.
  destruct (invoiceService.is_overdue today invoice); reflexivity.
Qed.

(** X14: what checkOverdue writes: when no invoice of the argument is
    'sent' and past due, or localStorage is unavailable, nothing is
    written; when one is, the stored invoice collection becomes the
    collection returned as JSON gives it back (the collection returned
    itself exactly when no number of an invoice of the argument is -0, NaN
    or an infinity), whatever was stored before (an invoice that was
    stored but is not in the argument is no longer stored), and the stored
    clients and the sequencer's counter stay. *)
Theorem checkOverdue_overwrites (env : Env) (invoices : list Invoice.t) (w : World) :
  exists (updated : list Invoice.t) (w' : World),
    invoiceService.checkOverdue env invoices w = (Returns updated, w')
    /\ (Forall (fun invoice =>
                  ~ (Invoice.status invoice = "sent"
                     /\ String.ltb (Invoice.dueDate invoice) (today env) = true))
               invoices ->
        w' = w /\ updated = invoices)
    /\ (available (localStorage w) = false -> w' = w)
    /\ (available (localStorage w) = true ->
        Exists (fun invoice =>
                  Invoice.status invoice = "sent"
                  /\ String.ltb (Invoice.dueDate invoice) (today env) = true)
               invoices ->
        Spec.stored_invoices w' = List.map JSON.invoice updated
        /\ (Spec.stored_invoices w' = updated <-> Forall Spec.written_as_is invoices)
        /\ (forall stored : Invoice.t,
              In stored (Spec.stored_invoices w) ->
              Forall (fun invoice => Invoice.id invoice <> Invoice.id stored) invoices ->
              Forall (fun invoice => Invoice.id invoice <> Invoice.id stored)
                     (Spec.stored_invoices w'))
        /\ Spec.stored_clients w' = Spec.stored_clients w
        /\ Spec.stored_counter w' = Spec.stored_counter w).
Proof.
  destruct (checkOverdue_run env invoices w) as (w' & Hrun & Hnone & Hunavailable & Hsome).
  exists (List.map (Spec.mark (today env)) invoices), w'. split; [exact Hrun|].
  split; [|split; [exact Hunavailable|]].
  - intros Hall.
    assert (Hfalse : Forall (fun invoice =>
                               invoiceService.is_overdue (today env) invoice = false)
                            invoices).
    { eapply Forall_impl; [exact Hall|]. intros invoice Hnot. cbv beta in Hnot.
      destruct (invoiceService.is_overdue (today env) invoice) eqn:E; [|reflexivity].
      apply is_overdue_true in E. contradiction. }
    split.
    + apply Hnone. clear -Hfalse. induction Hfalse as [|invoice rest H _ IH]; simpl;
        [reflexivity|now rewrite H, IH].
    + clear -Hfalse. induction Hfalse as [|invoice rest H _ IH]; simpl; [reflexivity|].
      unfold Spec.mark at 1. now rewrite H, IH.
  - intros Havail Hexists.
    assert (Htrue : existsb (invoiceService.is_overdue (today env)) invoices = true).
    { apply existsb_exists. apply Exists_exists in Hexists as (invoice & Hin & Hpast).
      exists invoice. split; [now apply list_elem_of_In|now apply is_overdue_true]. }
    destruct (Hsome Htrue Havail) as (Hinvoices & Hclients & Hcounter & _).
    split; [exact Hinvoices|].
    split; [rewrite Hinvoices, JSON_invoices_kept; apply written_as_is_mark|].
    split; [|split; assumption].
    intros stored _ Hother. rewrite Hinvoices. clear -Hother.
    induction Hother as [|invoice rest H _ IH]; simpl; constructor; [|exact IH].
    unfold Spec.mark. destruct (invoiceService.is_overdue (today env) invoice); exact H.
Qed.

(** ** recentItemsService.ts *)

Section Sort.
Context {A : Type} (compareFn : A -> A -> Z) (P : A -> Prop).
Hypothesis total : forall a b : A, P a -> P b -> compareFn a b <= 0 \/ compareFn b a <= 0.
Hypothesis trans : forall a b c : A,
  P a -> P b -> P c -> compareFn a b <= 0 -> compareFn b c <= 0 -> compareFn a c <= 0.

Lemma sort_insert_Permutation (x : A) (sorted : list A) :
  Permutation (JS.sort_insert compareFn x sorted) (x :: sorted).
Proof.
  induction sorted as [|y rest IH]; simpl; [reflexivity|].
  destruct (compareFn x y <=? 0); [reflexivity|].
  rewrite IH. apply perm_swap.
Qed.

Lemma sort_Permutation (l : list A) : Permutation (JS.sort compareFn l) l.
Proof.
  unfold JS.sort. induction l as [|x l IH]; simpl; [reflexivity|].
  rewrite sort_insert_Permutation. now constructor.
Qed.

Lemma sort_insert_sorted (x : A) (sorted : list A) :
  P x -> Forall P sorted ->
  StronglySorted (fun a b => compareFn a b <= 0) sorted ->
  StronglySorted (fun a b => compareFn a b <= 0) (JS.sort_insert compareFn x sorted).
Proof.
  intros Hx HP Hsorted. induction Hsorted as [|y rest Hrest IH Hy]; simpl.
  - repeat constructor.
  - apply Forall_cons in HP as (Py & Prest).
    destruct (Z.leb_spec (compareFn x y) 0) as [Hle|Hgt].
    + constructor; [now constructor|]. constructor; [exact Hle|].
      apply Forall_forall. intros z Hz.
      apply (trans x y z); auto.
      * exact (proj1 (Forall_forall _ _) Prest z Hz).
      * exact (proj1 (Forall_forall _ _) Hy z Hz).
    + constructor; [now apply IH|].
      rewrite sort_insert_Permutation. constructor; [|exact Hy].
      destruct (total x y Hx Py); [lia|assumption].
Qed.

Lemma sort_sorted (l : list A) :
  Forall P l -> StronglySorted (fun a b => compareFn a b <= 0) (JS.sort compareFn l).
Proof.
  unfold JS.sort. induction 1 as [|x l Hx Hl IH]; simpl; [constructor|].
  apply sort_insert_sorted; [exact Hx| |exact IH].
  fold (JS.sort compareFn l). now rewrite sort_Permutation.
Qed.

End Sort.

Lemma StronglySorted_lookup {A : Type} (R : A -> A -> Prop) (l : list A) (i j : nat) (a b : A) :
  StronglySorted R l -> l !! i = Some a -> l !! j = Some b -> (i < j)%nat -> R a b.
Proof.
  intros Hsorted. revert i j. induction Hsorted as [|x l _ IH Hx]; intros i j Hi Hj Hlt.
  - discriminate Hi.
  - destruct j as [|j]; [lia|]. destruct i as [|i]; simpl in *.
    + injection Hi as <-. exact (proj1 (Forall_lookup _ _) Hx j b Hj).
    + apply (IH i j Hi Hj). lia.
Qed.

Lemma slice_to_take {A : Type} (l : list A) (end_ : Z) :
  JS.slice_to l end_
  = take (if end_ <? 0 then (List.length l - Z.to_nat (- end_))%nat else Z.to_nat end_) l.
Proof.
  unfold JS.slice_to. destruct (end_ <? 0) eqn:E; [|reflexivity].
  apply Z.ltb_lt in E. f_equal. lia.
Qed.

(** The [n] first of a collection sorted by createdAt, most recent first. *)
Lemma take_sort_most_recent {A : Type} (localeCompare : string -> string -> Z)
    (createdAt : A -> string) (n : nat) (items : list A) :
  Spec.consistent localeCompare (List.map createdAt items) ->
  Spec.most_recent localeCompare createdAt n items
    (take n (JS.sort (fun a b => localeCompare (createdAt b) (createdAt a)) items)).
Proof.
  intros (Hsign & Htrans).
  set (compareFn := fun a b : A => localeCompare (createdAt b) (createdAt a)).
  assert (Hsorted : StronglySorted (fun a b => compareFn a b <= 0) (JS.sort compareFn items)).
  { apply (sort_sorted compareFn (fun a => In (createdAt a) (List.map createdAt items))).
    - intros a b Ha Hb. unfold compareFn. pose proof (Hsign _ _ Ha Hb). lia.
    - intros a b c Ha Hb Hc. unfold compareFn. intros Hab Hbc.
      exact (Htrans _ _ _ Hc Hb Ha Hbc Hab).
    - apply Forall_forall. intros a Ha. apply in_map. now apply list_elem_of_In. }
  split; [|split].
  - rewrite length_take. now rewrite (Permutation_length (sort_Permutation compareFn items)).
  - intros i j a b Hi Hj Hlt.
    apply lookup_take_Some in Hi as (Hi & _). apply lookup_take_Some in Hj as (Hj & _).
    exact (StronglySorted_lookup _ _ i j a b Hsorted Hi Hj Hlt).
  - exists (drop n (JS.sort compareFn items)). split.
    + rewrite take_drop. apply sort_Permutation.
    + intros a b Ha%list_elem_of_In Hb%list_elem_of_In.
      apply list_elem_of_lookup in Ha as (i & Hi). apply list_elem_of_lookup in Hb as (j & Hj).
      apply lookup_take_Some in Hi as (Hi & Hlt). rewrite lookup_drop in Hj.
      apply (StronglySorted_lookup _ _ i (n + j) a b Hsorted Hi Hj). lia.
Qed.

(** X15: getRecentInvoices, for a collation that orders the createdAt values
    of the collection consistently, returns the 5 most recently created
    invoices, or as many as [limit] says, or all when there are fewer, most
    recent first, and no invoice left out is more recent than a returned
    one; a negative limit leaves out that many of the least recent
    invoices instead. *)
Theorem getRecentInvoices_spec (localeCompare : string -> string -> Z)
    (invoices : list Invoice.t) :
  Spec.consistent localeCompare (List.map Invoice.createdAt invoices) ->
  Spec.most_recent localeCompare Invoice.createdAt 5 invoices
    (recentItemsService.getRecentInvoices localeCompare invoices None)
  /\ (forall limit : Z, 0 <= limit ->
        Spec.most_recent localeCompare Invoice.createdAt (Z.to_nat limit) invoices
          (recentItemsService.getRecentInvoices localeCompare invoices (Some limit)))
  /\ (forall limit : Z, limit < 0 ->
        Spec.most_recent localeCompare Invoice.createdAt
          (List.length invoices - Z.to_nat (- limit)) invoices
          (recentItemsService.getRecentInvoices localeCompare invoices (Some limit))).
Proof.
  intros Hconsistent. unfold recentItemsService.getRecentInvoices. cbn [default]. unfold id.
  split; [|split].
  - rewrite slice_to_take. now apply take_sort_most_recent.
  - intros limit Hlimit. rewrite slice_to_take.
    destruct (Z.ltb_spec limit 0); [lia|]. now apply take_sort_most_recent.
  - intros limit Hlimit. rewrite slice_to_take.
    destruct (Z.ltb_spec limit 0); [|lia].
    rewrite (Permutation_length (sort_Permutation _ invoices)).
    now apply take_sort_most_recent.
Qed.

Lemma getRecentInvoices_spec_witness :
  Spec.consistent Sample.localeCompare (List.map Invoice.createdAt Sample.dated)
  /\ Spec.most_recent Sample.localeCompare Invoice.createdAt 2 Sample.dated
       (recentItemsService.getRecentInvoices Sample.localeCompare Sample.dated (Some 2)).
Proof.
  assert (Hconsistent : Spec.consistent Sample.localeCompare
                          (List.map Invoice.createdAt Sample.dated)).
  { split; [intros a b Ha Hb|intros a b c Ha Hb Hc]; simpl in Ha, Hb;
      [|simpl in Hc; destruct Hc as [<-|[<-|[<-|[]]]]];
      destruct Ha as [<-|[<-|[<-|[]]]]; destruct Hb as [<-|[<-|[<-|[]]]];
      vm_compute; intuition congruence. }
  split; [exact Hconsistent|].
  exact (proj1 (proj2 (getRecentInvoices_spec Sample.localeCompare Sample.dated Hconsistent))
           2 ltac:(lia)).
Defined.

(** The two most recent of the three dated invoices, and what a limit of
    -1 returns. *)
Example getRecentInvoices_example :
  List.map Invoice.id
    (recentItemsService.getRecentInvoices Sample.localeCompare Sample.dated (Some 2))
  = ["inv2"; "inv3"]
  /\ List.map Invoice.id
       (recentItemsService.getRecentInvoices Sample.localeCompare Sample.dated (Some (-1)))
     = ["inv2"; "inv3"]
  /\ List.map Invoice.id
       (recentItemsService.getRecentInvoices Sample.localeCompare Sample.dated None)
     = ["inv2"; "inv3"; "inv1"].
Proof. vm_compute. repeat split. Qed.

(** X16: getRecentClients, for a collation that orders the createdAt values
    of the collection consistently, returns the 4 most recently created
    clients, or as many as [limit] says, or all when there are fewer, most
    recent first, and no client left out is more recent than a returned
    one; a negative limit leaves out that many of the least recent clients
    instead. *)
Theorem getRecentClients_spec (localeCompare : string -> string -> Z)
    (clients : list Client.t) :
  Spec.consistent localeCompare (List.map Client.createdAt clients) ->
  Spec.most_recent localeCompare Client.createdAt 4 clients
    (recentItemsService.getRecentClients localeCompare clients None)
  /\ (forall limit : Z, 0 <= limit ->
        Spec.most_recent localeCompare Client.createdAt (Z.to_nat limit) clients
          (recentItemsService.getRecentClients localeCompare clients (Some limit)))
  /\ (forall limit : Z, limit < 0 ->
        Spec.most_recent localeCompare Client.createdAt
          (List.length clients - Z.to_nat (- limit)) clients
          (recentItemsService.getRecentClients localeCompare clients (Some limit))).
Proof.
  intros Hconsistent. unfold recentItemsService.getRecentClients. cbn [default]. unfold id.
  split; [|split].
  - rewrite slice_to_take. now apply take_sort_most_recent.
  - intros limit Hlimit. rewrite slice_to_take.
    destruct (Z.ltb_spec limit 0); [lia|]. now apply take_sort_most_recent.
  - intros limit Hlimit. rewrite slice_to_take.
    destruct (Z.ltb_spec limit 0); [|lia].
    rewrite (Permutation_length (sort_Permutation _ clients)).
    now apply take_sort_most_recent.
Qed.

Lemma getRecentClients_spec_witness :
  Spec.consistent Sample.localeCompare (List.map Client.createdAt Sample.registered)
  /\ Spec.most_recent Sample.localeCompare Client.createdAt 4 Sample.registered
       (recentItemsService.getRecentClients Sample.localeCompare Sample.registered None).
Proof.
  assert (Hconsistent : Spec.consistent Sample.localeCompare
                          (List.map Client.createdAt Sample.registered)).
  { split; [intros a b Ha Hb|intros a b c Ha Hb Hc]; simpl in Ha, Hb;
      [|simpl in Hc; destruct Hc as [<-|[<-|[<-|[]]]]];
      destruct Ha as [<-|[<-|[<-|[]]]]; destruct Hb as [<-|[<-|[<-|[]]]];
      vm_compute; intuition congruence. }
  split; [exact Hconsistent|].
  exact (proj1 (getRecentClients_spec Sample.localeCompare Sample.registered Hconsistent)).
Defined.

(** ** clientService: create, delete and hasInvoices *)

Lemma client_find_app (clients : list Client.t) (newClient : Client.t) (id : string) :
  List.find (fun client => String.eqb (Client.id client) id) (clients ++ [newClient])
  = match List.find (fun client => String.eqb (Client.id client) id) clients with
    | Some client => Some client
    | None => if String.eqb (Client.id newClient) id then Some newClient else None
    end.
Proof.
  induction clients as [|client rest IH]; simpl; [reflexivity|].
  destruct (String.eqb (Client.id client) id); [reflexivity|exact IH].
Qed.

Lemma client_find_unknown (clients : list Client.t) (id : string) :
  Forall (fun client => Client.id client <> id) clients ->
  List.find (fun client => String.eqb (Client.id client) id) clients = None.
Proof.
  induction 1 as [|client rest Hne _ IH]; simpl; [reflexivity|].
  destruct (String.eqb_spec (Client.id client) id); [contradiction|exact IH].
Qed.

Lemma client_getById_run (id : string) (w : World) :
  clientService.getById id w
  = (Returns (List.find (fun client => String.eqb (Client.id client) id)
                        (Spec.stored_clients w)), w).
Proof. unfold clientService.getById, bind. now rewrite getClients_run. Qed.

(** X17: clientService.create, given a valid input on an available
    localStorage, returns a client with a generated id, the trimmed name and
    email of the input, neither of them empty, the optional fields of the
    input trimmed (absent ones stay absent) and createdAt today; the client
    is appended to the stored clients, the stored invoices and the
    sequencer's counter are untouched, and when no stored client already has
    the generated id, getById of it returns the new client. *)
Theorem client_create_spec (env : Env) (input : ClientInput.t) (w : World) :
  available (localStorage w) = true ->
  ValidationResult.valid (clientService.validate input) = true ->
  exists (newClient : Client.t) (w' : World),
    clientService.create env input w = (Returns newClient, w')
    /\ Client.id newClient
       = "client_" ++ JS.String_of (Date_now env) ++ "_" ++ Math_random env (draws w)
    /\ Client.name newClient = JS.trim (ClientInput.name input)
    /\ Client.name newClient <> ""
    /\ Client.email newClient = JS.trim (ClientInput.email input)
    /\ Client.email newClient <> ""
    /\ Client.company newClient = JS.trim <$> ClientInput.company input
    /\ Client.phone newClient = JS.trim <$> ClientInput.phone input
    /\ Client.address newClient = JS.trim <$> ClientInput.address input
    /\ Client.createdAt newClient = today env
    /\ Spec.stored_clients w' = (Spec.stored_clients w ++ [newClient])%list
    /\ Spec.stored_invoices w' = Spec.stored_invoices w
    /\ Spec.stored_counter w' = Spec.stored_counter w
    /\ (Forall (fun client => Client.id client <> Client.id newClient)
               (Spec.stored_clients w) ->
        clientService.getById (Client.id newClient) w' = (Returns (Some newClient), w')).
Proof.
  intros Havail Hvalid.
  destruct (client_validate_errors input) as (Herrors & Hname & Hemail). cbv zeta in *.
  apply Herrors in Hvalid as Hempty. rewrite Hempty in Hname, Hemail.
  rewrite lookup_empty in Hname, Hemail.
  assert (Hn : JS.trim (ClientInput.name input) <> "").
  { intros H. apply Hname in H. destruct H as [x Hx]. discriminate Hx. }
  assert (He : JS.trim (ClientInput.email input) <> "").
  { intros H. apply Hemail in H. destruct H as [x Hx]. discriminate Hx. }
  unfold clientService.create. rewrite Hvalid. cbn [negb].
  unfold bind at 1. rewrite getClients_run.
  unfold bind at 1, clientService.generateId, clientService.Math_random_36.
  unfold bind at 1. unfold ret at 1. cbv zeta.
  match goal with
  | |- context [(storage.setClients ?l ;;; _) ?v] =>
      destruct (setClients_run l v) as (w' & Hset & Hclients & Hinvoices & Hcounter & _);
        [exact Havail|]
  end.
  unfold bind, ret. rewrite Hset. eexists. exists w'. split; [reflexivity|].
  cbn [Client.id Client.name Client.email Client.company Client.phone Client.address
       Client.createdAt].
  split; [reflexivity|]. split; [reflexivity|]. split; [exact Hn|].
  split; [reflexivity|]. split; [exact He|]. do 4 (split; [reflexivity|]).
  split; [exact Hclients|]. split; [exact Hinvoices|]. split; [exact Hcounter|].
  intros Hfresh. rewrite client_getById_run, Hclients, client_find_app.
  rewrite (client_find_unknown _ _ Hfresh). cbn [Client.id].
  now rewrite String.eqb_refl.
Qed.

Lemma client_create_spec_witness :
  exists (newClient : Client.t) (w' : World),
    clientService.create Sample.env Sample.clientInput Sample.stocked = (Returns newClient, w')
    /\ Client.name newClient = "Updated"
    /\ Client.phone newClient = Some "555".
Proof.
  destruct (client_create_spec Sample.env Sample.clientInput Sample.stocked eq_refl eq_refl)
    as (newClient & w' & Hrun & _ & Hname & _ & _ & _ & _ & Hphone & _).
  exists newClient, w'. split; [exact Hrun|]. split; [exact Hname|exact Hphone].
Defined.

(** X18: clientService.delete(id) of a stored client removes the first
    stored client with that id and nothing else, and does not cascade: the
    stored invoices are untouched, so hasInvoices(id) answers afterwards
    what it answered before; when the stored client ids are pairwise
    different, a stored invoice of that client can then no longer be
    duplicated against the stored clients: duplicate throws 'Client with ID
    <id> not found'. *)
Theorem client_delete_does_not_cascade (env : Env) (id : string) (w : World) (i : nat)
    (client : Client.t) :
  list_find (fun client => Client.id client = id) (Spec.stored_clients w) = Some (i, client) ->
  exists w' : World,
    clientService.deleteClient id w = (Returns tt, w')
    /\ Spec.stored_clients w' = delete i (Spec.stored_clients w)
    /\ Spec.stored_invoices w' = Spec.stored_invoices w
    /\ Spec.stored_counter w' = Spec.stored_counter w
    /\ fst (clientService.hasInvoices id w') = fst (clientService.hasInvoices id w)
    /\ (NoDup (List.map Client.id (Spec.stored_clients w)) ->
        fst (clientService.getById id w') = Returns None
        /\ forall (invoiceId : string) (invoice : Invoice.t),
             List.find (fun invoice => String.eqb (Invoice.id invoice) invoiceId)
                       (Spec.stored_invoices w) = Some invoice ->
             Invoice.clientId invoice = id ->
             invoiceService.duplicate env invoiceId (Spec.stored_clients w') w'
             = (Throws (Not_found "Client" id), w')).
Proof.
  intros Hfound. pose proof Hfound as (Hi & Hid & _)%list_find_Some.
  pose proof (stored_clients_available w i client Hi) as Havail.
  destruct (setClients_run (delete i (Spec.stored_clients w)) w Havail)
    as (w' & Hset & Hclients & Hinvoices & Hcounter & _).
  exists w'. split.
  { unfold clientService.deleteClient, bind. rewrite getClients_run, Hfound. exact Hset. }
  split; [exact Hclients|]. split; [exact Hinvoices|]. split; [exact Hcounter|].
  split.
  { unfold clientService.hasInvoices, bind. rewrite !getInvoices_run, Hinvoices.
    reflexivity. }
  intros Hnodup.
  assert (Hgone : List.find (fun client => String.eqb (Client.id client) id)
                            (delete i (Spec.stored_clients w)) = None).
  { apply client_find_unknown. apply Forall_forall. intros other Hin Hsame.
    apply list_elem_of_lookup in Hin as (j & Hj). rewrite list_lookup_delete in Hj.
    assert (Hinj : forall a b x y,
              Spec.stored_clients w !! a = Some x -> Spec.stored_clients w !! b = Some y ->
              Client.id x = Client.id y -> a = b).
    { intros a b x y Ha Hb Hxy.
      apply (NoDup_lookup (List.map Client.id (Spec.stored_clients w)) a b (Client.id x));
        [exact Hnodup| |];
        change (List.map Client.id (Spec.stored_clients w))
          with (Client.id <$> Spec.stored_clients w);
        rewrite list_lookup_fmap; [now rewrite Ha|now rewrite Hb, Hxy]. }
    destruct (decide (j < i)%nat) as [Hlt|Hge].
    - pose proof (Hinj j i other client Hj Hi ltac:(congruence)). lia.
    - pose proof (Hinj (S j) i other client Hj Hi ltac:(congruence)). lia. }
  split.
  - rewrite client_getById_run, Hclients. cbn [fst]. now rewrite Hgone.
  - intros invoiceId invoice Hinvoice HclientId.
    unfold invoiceService.duplicate, bind. rewrite getInvoices_run, Hinvoices, Hinvoice.
    rewrite Hclients, HclientId, Hgone. reflexivity.
Qed.

Lemma client_delete_does_not_cascade_witness :
  exists w' : World,
    clientService.deleteClient "client_1" Sample.stocked = (Returns tt, w')
    /\ Spec.stored_clients w' = []
    /\ fst (clientService.hasInvoices "client_1" w') = Returns true
    /\ invoiceService.duplicate Sample.env "inv1" (Spec.stored_clients w') w'
       = (Throws (Not_found "Client" "client_1"), w').
Proof.
  assert (Hfound : list_find (fun client => Client.id client = "client_1")
                             (Spec.stored_clients Sample.stocked)
                   = Some (0%nat, Sample.mockClient)).
  { apply list_find_Some. split; [reflexivity|]. split; [reflexivity|]. intros j y _ Hj. lia. }
  destruct (client_delete_does_not_cascade Sample.env "client_1" Sample.stocked 0
              Sample.mockClient Hfound)
    as (w' & Hrun & Hclients & _ & _ & Hhas & Hdangling).
  exists w'. split; [exact Hrun|]. split; [exact Hclients|].
  split; [rewrite Hhas; reflexivity|].
  apply (proj2 (Hdangling ltac:(repeat constructor; cbn; intros H; inversion H))
           "inv1" Sample.inv1 eq_refl eq_refl).
Defined.

(** ** The Supabase-backed invoice service *)

(** X19: without a signed-in user, getById, generateInvoiceNumber, create
    and duplicate of the Supabase-backed service throw 'You must be logged
    in to perform this action' before any request is sent: the database is
    not consulted and nothing is written. *)
Theorem supabase_requires_login (session : Supabase.Session) (r : Supabase.Remote) :
  Supabase.user session = None ->
  let error := Message "You must be logged in to perform this action" in
  (forall id, Supabase.invoiceService.getById session id r = (Throws error, r))
  /\ Supabase.invoiceService.generateInvoiceNumber session r = (Throws error, r)
  /\ (forall input, Supabase.invoiceService.create session input r = (Throws error, r))
  /\ (forall id, Supabase.invoiceService.duplicate session id r = (Throws error, r)).
Proof.
  intros Huser error.
  unfold Supabase.invoiceService.getById, Supabase.invoiceService.generateInvoiceNumber,
    Supabase.invoiceService.create, Supabase.invoiceService.duplicate,
    Supabase.invoiceService.getCurrentUserId.
  rewrite Huser. repeat split.
Qed.

Lemma supabase_requires_login_witness :
  Supabase.invoiceService.create
    {| Supabase.user := None;
       Supabase.fault := Supabase.fault Sample.session;
       Supabase.gen_random_uuid := Supabase.gen_random_uuid Sample.session;
       Supabase.db_now := Supabase.db_now Sample.session;
       Supabase.date_today := Supabase.date_today Sample.session;
       Supabase.date_in_30_days := Supabase.date_in_30_days Sample.session |}
    Sample.supabase_input Sample.remote
  = (Throws (Message "You must be logged in to perform this action"), Sample.remote).
Proof.
  apply (supabase_requires_login
           {| Supabase.user := None;
              Supabase.fault := Supabase.fault Sample.session;
              Supabase.gen_random_uuid := Supabase.gen_random_uuid Sample.session;
              Supabase.db_now := Supabase.db_now Sample.session;
              Supabase.date_today := Supabase.date_today Sample.session;
              Supabase.date_in_30_days := Supabase.date_in_30_days Sample.session |}
           Sample.remote eq_refl).
Defined.



Lemma supabase_getById_run (session : Supabase.Session) (r : Supabase.Remote)
    (userId id : string) :
  Supabase.user session = Some userId ->
  Supabase.fault session (Supabase.requests r) = None ->
  Supabase.invoiceService.getById session id r
  = match Supabase.Query.single
            (List.filter
               (fun row => String.eqb (Supabase.InvoiceRow.id row) id
                           && String.eqb (Supabase.InvoiceRow.user_id row) userId)
               (Supabase.invoices (Supabase.database r))) with
    | inl invoiceError =>
        if String.eqb (Supabase.code invoiceError) "PGRST116" then ret None
        else Supabase.invoiceService.handleError invoiceError
    | inr invoice =>
        reply <- Supabase.invoiceService.request session
                   (Supabase.Query.select_line_items id) ;;
        match reply with
        | inl lineItemsError => Supabase.invoiceService.handleError lineItemsError
        | inr lineItems =>
            ret (Some (Supabase.invoiceService.toInvoice invoice lineItems
                         (Supabase.Query.joined_client (Supabase.database r) invoice)))
        end
    end {| Supabase.database := Supabase.database r;
           Supabase.requests := S (Supabase.requests r) |}.
Proof.
  intros Huser H0.
  unfold Supabase.invoiceService.getById, Supabase.invoiceService.getCurrentUserId.
  rewrite Huser. unfold bind at 1. unfold ret at 1.
  unfold bind at 1. rewrite (request_succeeds session _ r H0).
  unfold Supabase.Query.select_invoice. cbn [fst snd].
  destruct (Supabase.Query.single _); reflexivity.
Qed.

(** X21: getById of a signed-in user whose requests reach the database
    returns null when every invoice row with that id belongs to another
    user, and whenever it returns an invoice, that invoice is built from a
    row of the user's own with the id asked for, joined with its client and
    with exactly the line items whose invoice_id is that id; the database is
    left as it was. *)
Theorem supabase_getById_own_only (session : Supabase.Session) (r : Supabase.Remote)
    (userId id : string) :
  Supabase.user session = Some userId ->
  Spec.requests_succeed session r 2 ->
  (Forall (fun row => Supabase.InvoiceRow.id row = id ->
                      Supabase.InvoiceRow.user_id row <> userId)
          (Supabase.invoices (Supabase.database r)) ->
   Supabase.invoiceService.getById session id r
   = (Returns None,
      {| Supabase.database := Supabase.database r;
         Supabase.requests := S (Supabase.requests r) |}))
  /\ (forall (invoice : Supabase.Invoice.t) (r' : Supabase.Remote),
        Supabase.invoiceService.getById session id r = (Returns (Some invoice), r') ->
        Supabase.database r' = Supabase.database r
        /\ Supabase.Invoice.id invoice = id
        /\ exists row : Supabase.InvoiceRow.t,
             In row (Supabase.invoices (Supabase.database r))
             /\ Supabase.InvoiceRow.id row = id
             /\ Supabase.InvoiceRow.user_id row = userId
             /\ invoice
                = Supabase.invoiceService.toInvoice row
                    (List.filter
                       (fun item => String.eqb (Supabase.LineItemRow.invoice_id item) id)
                       (Supabase.line_items (Supabase.database r)))
                    (Supabase.Query.joined_client (Supabase.database r) row)).
Proof.
  intros Huser Hok.
  pose proof (Hok 0%nat ltac:(lia)) as H0. pose proof (Hok 1%nat ltac:(lia)) as H1.
  cbn [Nat.add] in H0, H1.
  rewrite (supabase_getById_run session r userId id Huser H0).
  set (own := List.filter
                (fun row => String.eqb (Supabase.InvoiceRow.id row) id
                            && String.eqb (Supabase.InvoiceRow.user_id row) userId)
                (Supabase.invoices (Supabase.database r))).
  split.
  - intros Hothers.
    assert (Hnone : own = []).
    { unfold own. clear -Hothers. induction Hothers as [|row rest Hrow _ IH]; [reflexivity|].
      cbn [List.filter].
      destruct (String.eqb_spec (Supabase.InvoiceRow.id row) id) as [Hid|Hid];
        [|exact IH]. cbn [andb].
      destruct (String.eqb_spec (Supabase.InvoiceRow.user_id row) userId) as [Hu|Hu];
        [|exact IH].
      exfalso. exact (Hrow Hid Hu). }
    rewrite Hnone. reflexivity.
  - intros invoice r'.
    assert (Hin : forall row, In row own ->
              In row (Supabase.invoices (Supabase.database r))
              /\ Supabase.InvoiceRow.id row = id /\ Supabase.InvoiceRow.user_id row = userId).
    { intros row Hrow. unfold own in Hrow. apply List.filter_In in Hrow as (Hrow & Hboth).
      apply andb_true_iff in Hboth as (Hid%String.eqb_eq & Hu%String.eqb_eq). auto. }
    destruct own as [|row [|row' rows]]; cbn [Supabase.Query.single].
    + intros H. discriminate H.
    + unfold bind at 1.
      rewrite request_succeeds by exact H1.
      unfold Supabase.Query.select_line_items. cbn [fst snd Supabase.database]. unfold ret.
      intros [= <- <-]. cbn [Supabase.database].
      destruct (Hin row (or_introl eq_refl)) as (Hrow & Hid & Hu).
      split; [reflexivity|]. split; [exact Hid|]. exists row. auto.
    + intros H. discriminate H.
Qed.

(** The invoice that user u1 created is not returned to user u2, and is
    returned to u1, built from the row of u1 with its line item. *)
Lemma supabase_getById_own_only_witness :
  Supabase.invoiceService.getById Sample.other_session "uuid-2-0" Sample.created_remote
  = (Returns None,
     {| Supabase.database := Supabase.database Sample.created_remote;
        Supabase.requests := S (Supabase.requests Sample.created_remote) |})
  /\ exists (invoice : Supabase.Invoice.t) (r' : Supabase.Remote),
       Supabase.invoiceService.getById Sample.session "uuid-2-0" Sample.created_remote
       = (Returns (Some invoice), r')
       /\ Supabase.database r' = Supabase.database Sample.created_remote
       /\ Supabase.Invoice.id invoice = "uuid-2-0"
       /\ exists row : Supabase.InvoiceRow.t,
            In row (Supabase.invoices (Supabase.database Sample.created_remote))
            /\ Supabase.InvoiceRow.user_id row = "u1"
            /\ List.length (Supabase.Invoice.lineItems invoice) = 1%nat.
Proof.
  split.
  - apply (proj1 (supabase_getById_own_only Sample.other_session Sample.created_remote
                    "u2" "uuid-2-0" eq_refl (fun k _ => eq_refl))).
    apply Forall_forall. intros row Hrow%list_elem_of_In _ Huser.
    vm_compute in Hrow. destruct Hrow as [<-|[]]. discriminate Huser.
  - assert (Hget : exists (invoice : Supabase.Invoice.t) (r' : Supabase.Remote),
               Supabase.invoiceService.getById Sample.session "uuid-2-0"
                 Sample.created_remote
               = (Returns (Some invoice), r')).
    { vm_compute. eexists. eexists. reflexivity. }
    destruct Hget as (invoice & r' & Hget).
    destruct (proj2 (supabase_getById_own_only Sample.session Sample.created_remote
                       "u1" "uuid-2-0" eq_refl (fun k _ => eq_refl)) invoice r' Hget)
      as (Hdatabase & Hid & row & Hin & _ & Huser & Hinvoice).
    exists invoice, r'. split; [exact Hget|]. split; [exact Hdatabase|].
    split; [exact Hid|]. exists row. split; [exact Hin|]. split; [exact Huser|].
    rewrite Hinvoice. reflexivity.
Defined.








(** X24: the Supabase-backed delete of a signed-in user, when its request
    reaches the database, returns normally whether or not the user has an
    invoice with that id: when they have none (the id is unknown or belongs
    to another user) the database is left as it was and no error is raised;
    when they have one, their rows with that id and the line items of that
    invoice are gone and every other invoice row stays; the clients and the
    numbering sequences are untouched, so a deleted invoice's number is not
    given out again. *)
Theorem supabase_delete_spec (session : Supabase.Session) (r : Supabase.Remote)
    (userId id : string) :
  Supabase.user session = Some userId ->
  Spec.requests_succeed session r 1 ->
  exists r' : Supabase.Remote,
    Supabase.invoiceService.delete session id r = (Returns tt, r')
    /\ Supabase.requests r' = S (Supabase.requests r)
    /\ Supabase.clients (Supabase.database r') = Supabase.clients (Supabase.database r)
    /\ Supabase.invoice_sequences (Supabase.database r')
       = Supabase.invoice_sequences (Supabase.database r)
    /\ (forall row : Supabase.InvoiceRow.t,
          In row (Supabase.invoices (Supabase.database r'))
          <-> In row (Supabase.invoices (Supabase.database r))
              /\ ~ (Supabase.InvoiceRow.id row = id
                    /\ Supabase.InvoiceRow.user_id row = userId))
    /\ (Forall (fun row => Supabase.InvoiceRow.id row = id ->
                           Supabase.InvoiceRow.user_id row <> userId)
               (Supabase.invoices (Supabase.database r)) ->
        Supabase.database r' = Supabase.database r)
    /\ (Exists (fun row => Supabase.InvoiceRow.id row = id
                           /\ Supabase.InvoiceRow.user_id row = userId)
               (Supabase.invoices (Supabase.database r)) ->
        forall item : Supabase.LineItemRow.t,
          In item (Supabase.line_items (Supabase.database r'))
          <-> In item (Supabase.line_items (Supabase.database r))
              /\ Supabase.LineItemRow.invoice_id item <> id).
Proof.
  intros Huser Hok. pose proof (Hok 0%nat ltac:(lia)) as H0. cbn [Nat.add] in H0.
  unfold Supabase.invoiceService.delete, Supabase.invoiceService.getCurrentUserId.
  rewrite Huser. unfold bind at 1. unfold ret at 1.
  unfold bind at 1. rewrite (request_succeeds session _ r H0).
  unfold Supabase.Query.delete_own_invoice. cbn [fst snd]. unfold ret.
  eexists. split; [reflexivity|].
  cbn [Supabase.database Supabase.requests Supabase.clients Supabase.invoices
       Supabase.line_items Supabase.invoice_sequences].
  do 3 (split; [reflexivity|]).
  split.
  { intros row. rewrite List.filter_In.
    destruct (String.eqb_spec (Supabase.InvoiceRow.id row) id),
             (String.eqb_spec (Supabase.InvoiceRow.user_id row) userId);
      cbn [andb negb]; intuition congruence. }
  split.
  - intros Hothers.
    assert (Hkept : Forall (fun row =>
                      negb (String.eqb (Supabase.InvoiceRow.id row) id
                            && String.eqb (Supabase.InvoiceRow.user_id row) userId) = true)
                      (Supabase.invoices (Supabase.database r))).
    { eapply Forall_impl; [exact Hothers|]. cbv beta. intros row Hrow.
      apply negb_true_iff, andb_false_iff.
      destruct (String.eqb_spec (Supabase.InvoiceRow.id row) id) as [Hid|Hid]; [|now left].
      right. apply String.eqb_neq. exact (Hrow Hid). }
    assert (Hnone : existsb (fun row =>
                       String.eqb (Supabase.InvoiceRow.id row) id
                       && String.eqb (Supabase.InvoiceRow.user_id row) userId)
                      (Supabase.invoices (Supabase.database r)) = false).
    { clear -Hkept. induction Hkept as [|row rest Hrow _ IH]; simpl; [reflexivity|].
      apply negb_true_iff in Hrow. now rewrite Hrow, IH. }
    rewrite Hnone, (filter_all _ _ Hkept). now destruct (Supabase.database r).
  - intros Hown item.
    assert (Hsome : existsb (fun row =>
                       String.eqb (Supabase.InvoiceRow.id row) id
                       && String.eqb (Supabase.InvoiceRow.user_id row) userId)
                      (Supabase.invoices (Supabase.database r)) = true).
    { apply existsb_exists. apply Exists_exists in Hown as (row & Hin & Hid & Hu).
      exists row. split; [now apply list_elem_of_In|].
      apply andb_true_iff. now rewrite !String.eqb_eq. }
    rewrite Hsome, List.filter_In, negb_true_iff, String.eqb_neq. reflexivity.
Qed.

Lemma supabase_delete_spec_witness :
  exists r' : Supabase.Remote,
    Supabase.invoiceService.delete Sample.session "uuid-2-0" Sample.created_remote
    = (Returns tt, r')
    /\ Supabase.invoice_sequences (Supabase.database r')
       = Supabase.invoice_sequences (Supabase.database Sample.created_remote).
Proof.
  destruct (supabase_delete_spec Sample.session Sample.created_remote "u1" "uuid-2-0"
              eq_refl (fun k _ => eq_refl))
    as (r' & Hrun & _ & _ & Hsequences & _).
  exists r'. split; [exact Hrun|exact Hsequences].
Defined.

(** ** A new invoice on the dashboard *)

(** X25: after create of an invoice whose input names no status, on an
    available localStorage, the metrics of the stored invoices count one
    more draft and are otherwise those of before: a new draft changes
    neither the revenue nor the pending or overdue amounts and counts. *)
Theorem create_draft_on_dashboard (env : Env) (input : InvoiceInput.t)
    (clients : list Client.t) (w : World) (client : Client.t) :
  available (localStorage w) = true ->
  ValidationResult.valid (invoiceService.validate input) = true ->
  List.find (fun c => String.eqb (Client.id c) (InvoiceInput.clientId input)) clients
    = Some client ->
  InvoiceInput.status input = None ->
  exists (newInvoice : Invoice.t) (w' : World),
    invoiceService.create env input clients w = (Returns newInvoice, w')
    /\ metricsService.calculate (Spec.stored_invoices w') clients
       = {| Metrics.totalRevenue :=
              Metrics.totalRevenue (metricsService.calculate (Spec.stored_invoices w) clients);
            Metrics.pendingAmount :=
              Metrics.pendingAmount (metricsService.calculate (Spec.stored_invoices w) clients);
            Metrics.overdueAmount :=
              Metrics.overdueAmount (metricsService.calculate (Spec.stored_invoices w) clients);
            Metrics.totalClients :=
              Metrics.totalClients (metricsService.calculate (Spec.stored_invoices w) clients);
            Metrics.paidInvoices :=
              Metrics.paidInvoices (metricsService.calculate (Spec.stored_invoices w) clients);
            Metrics.pendingInvoices :=
              Metrics.pendingInvoices
                (metricsService.calculate (Spec.stored_invoices w) clients);
            Metrics.overdueInvoices :=
              Metrics.overdueInvoices
                (metricsService.calculate (Spec.stored_invoices w) clients);
            Metrics.draftInvoices :=
              S (Metrics.draftInvoices
                   (metricsService.calculate (Spec.stored_invoices w) clients)) |}.
Proof.
  intros Havail Hvalid Hclient Hstatus.
  destruct (create_run env input clients w client Hvalid Hclient)
    as (newInvoice & w' & Hrun & _ & _ & _ & _ & Hdraft & _ & _ & _ & _ & _ & _ & _ & _
        & Hstore).
  destruct (Hstore Havail) as (Hinvoices & _).
  exists newInvoice, w'. split; [exact Hrun|].
  rewrite Hinvoices, !calculate_by_status.
  cbn [Metrics.totalRevenue Metrics.pendingAmount Metrics.overdueAmount Metrics.totalClients
       Metrics.paidInvoices Metrics.pendingInvoices Metrics.overdueInvoices
       Metrics.draftInvoices].
  unfold Spec.totals_of. rewrite !with_status_app.
  assert (Hone : forall status,
            Spec.with_status status [JSON.invoice newInvoice]
            = if String.eqb "draft" status then [JSON.invoice newInvoice] else []).
  { intros status. unfold Spec.with_status, Spec.has_status. cbn [List.filter].
    cbn [JSON.invoice Invoice.status].
    rewrite (Hdraft Hstatus). now destruct (String.eqb "draft" status). }
  rewrite !Hone. cbn [String.eqb Ascii.eqb Bool.eqb andb].
  rewrite !app_nil_r, length_app. cbn [List.length]. f_equal. lia.
Qed.

Lemma create_draft_on_dashboard_witness :
  exists (newInvoice : Invoice.t) (w' : World),
    invoiceService.create Sample.env Sample.input [Sample.mockClient] Sample.stocked
    = (Returns newInvoice, w')
    /\ Metrics.draftInvoices
         (metricsService.calculate (Spec.stored_invoices w') [Sample.mockClient])
       = 2%nat.
Proof.
  destruct (create_draft_on_dashboard Sample.env Sample.input [Sample.mockClient]
              Sample.stocked Sample.mockClient eq_refl eq_refl eq_refl eq_refl)
    as (newInvoice & w' & Hrun & Hmetrics).
  exists newInvoice, w'. split; [exact Hrun|]. rewrite Hmetrics. reflexivity.
Defined.

(** ** The Supabase-backed update *)

Lemma filter_map_change {A : Type} (matches : A -> bool) (change : A -> A) (l : list A) :
  (forall x, matches x = true -> matches (change x) = true) ->
  List.filter matches (List.map (fun x => if matches x then change x else x) l)
  = List.map change (List.filter matches l).
Proof.
  intros Hkeeps. induction l as [|x l IH]; [reflexivity|]. cbn [List.map List.filter].
  destruct (matches x) eqn:Hx.
  - rewrite (Hkeeps x Hx). cbn [List.map]. now rewrite IH.
  - rewrite Hx. exact IH.
Qed.


(** The first request of update, when it reaches the database and the
    user has exactly one invoice with the id. *)
Lemma supabase_update_row (session : Supabase.Session) (r : Supabase.Remote)
    (userId now id : string) (input : Supabase.PartialInvoiceInput.t)
    (row : Supabase.InvoiceRow.t) :
  Supabase.fault session (Supabase.requests r) = None ->
  List.filter (fun row => String.eqb (Supabase.InvoiceRow.id row) id
                          && String.eqb (Supabase.InvoiceRow.user_id row) userId)
              (Supabase.invoices (Supabase.database r)) = [row] ->
  exists (reply : Supabase.InvoiceRow.t * option Supabase.ClientRow.t)
         (rows : list Supabase.InvoiceRow.t),
    Supabase.invoiceService.request session
      (Supabase.Query.update_invoice id userId
         (Supabase.invoiceService.updateData now input)) r
    = (Returns (inr reply),
       {| Supabase.database :=
            {| Supabase.clients := Supabase.clients (Supabase.database r);
               Supabase.invoices := rows;
               Supabase.line_items := Supabase.line_items (Supabase.database r);
               Supabase.invoice_sequences :=
                 Supabase.invoice_sequences (Supabase.database r) |};
          Supabase.requests := S (Supabase.requests r) |})
    /\ List.filter (fun row => String.eqb (Supabase.InvoiceRow.id row) id
                               && String.eqb (Supabase.InvoiceRow.user_id row) userId) rows
       = [Supabase.invoiceService.updateData now input row]
    /\ List.length rows = List.length (Supabase.invoices (Supabase.database r))
    /\ (forall (i : nat) (other : Supabase.InvoiceRow.t),
          Supabase.invoices (Supabase.database r) !! i = Some other ->
          ~ (Supabase.InvoiceRow.id other = id /\ Supabase.InvoiceRow.user_id other = userId) ->
          rows !! i = Some other).
Proof.
  intros H0 Hrow. rewrite (request_succeeds session _ r H0).
  unfold Supabase.Query.update_invoice. rewrite Hrow. cbn [Supabase.Query.single fst snd].
  eexists. eexists. split; [reflexivity|]. split; [|split].
  - rewrite (filter_map_change _ (Supabase.invoiceService.updateData now input)).
    + now rewrite Hrow.
    + intros x Hx. exact Hx.
  - apply length_map.
  - intros i other Hi Hnot.
    change (List.map ?f ?l) with (f <$> l). rewrite list_lookup_fmap, Hi. cbn [fmap option_fmap option_map].
    destruct (String.eqb_spec (Supabase.InvoiceRow.id other) id),
             (String.eqb_spec (Supabase.InvoiceRow.user_id other) userId);
      cbn [andb]; try reflexivity.
    exfalso. apply Hnot. auto.
Qed.



(** X27: the Supabase-backed update with an input that brings no line
    items, for a signed-in user who has exactly one invoice with the id and
    whose three requests reach the database, returns that invoice with the
    properties the input carries replaced and every property the input
    leaves out kept (notes cannot be cleared this way), updatedAt set to the
    time of the call, and the id, number, createdAt, totals and line items
    as they were; no other invoice row, no line item, client or sequence is
    changed. *)
Theorem supabase_update_partial (session : Supabase.Session) (r : Supabase.Remote)
    (userId now id : string) (input : Supabase.PartialInvoiceInput.t)
    (row : Supabase.InvoiceRow.t) :
  Supabase.user session = Some userId ->
  Spec.requests_succeed session r 3 ->
  List.filter (fun row => String.eqb (Supabase.InvoiceRow.id row) id
                          && String.eqb (Supabase.InvoiceRow.user_id row) userId)
              (Supabase.invoices (Supabase.database r)) = [row] ->
  Supabase.PartialInvoiceInput.lineItems input = None ->
  exists (invoice : Supabase.Invoice.t) (r' : Supabase.Remote),
    Supabase.invoiceService.update session now id input r = (Returns (Some invoice), r')
    /\ Supabase.Invoice.id invoice = id
    /\ Supabase.Invoice.invoiceNumber invoice = Supabase.InvoiceRow.invoice_number row
    /\ Supabase.Invoice.createdAt invoice = Supabase.InvoiceRow.created_at row
    /\ Supabase.Invoice.updatedAt invoice = now
    /\ Supabase.Invoice.status invoice
       = default (Supabase.InvoiceRow.status row) (Supabase.PartialInvoiceInput.status input)
    /\ Supabase.Invoice.issueDate invoice
       = default (Supabase.InvoiceRow.issue_date row)
                 (Supabase.PartialInvoiceInput.issueDate input)
    /\ Supabase.Invoice.dueDate invoice
       = default (Supabase.InvoiceRow.due_date row)
                 (Supabase.PartialInvoiceInput.dueDate input)
    /\ Supabase.Invoice.clientId invoice
       = default (default "" (Supabase.InvoiceRow.client_id row))
                 (Supabase.PartialInvoiceInput.clientId input)
    /\ Supabase.Invoice.notes invoice
       = match Supabase.PartialInvoiceInput.notes input with
         | Some notes => Some notes
         | None => Supabase.InvoiceRow.notes row
         end
    /\ Supabase.Invoice.subtotal invoice = Supabase.InvoiceRow.subtotal row
    /\ Supabase.Invoice.tax invoice = Supabase.InvoiceRow.tax row
    /\ Supabase.Invoice.total invoice = Supabase.InvoiceRow.total row
    /\ Supabase.Invoice.lineItems invoice
       = List.map Supabase.invoiceService.toLineItem
           (List.filter (fun item => String.eqb (Supabase.LineItemRow.invoice_id item) id)
                        (Supabase.line_items (Supabase.database r)))
    /\ Supabase.line_items (Supabase.database r') = Supabase.line_items (Supabase.database r)
    /\ Supabase.clients (Supabase.database r') = Supabase.clients (Supabase.database r)
    /\ Supabase.invoice_sequences (Supabase.database r')
       = Supabase.invoice_sequences (Supabase.database r)
    /\ (forall (i : nat) (other : Supabase.InvoiceRow.t),
          Supabase.invoices (Supabase.database r) !! i = Some other ->
          ~ (Supabase.InvoiceRow.id other = id /\ Supabase.InvoiceRow.user_id other = userId) ->
          Supabase.invoices (Supabase.database r') !! i = Some other).
Proof.
  intros Huser Hok Hrow Hitems.
  pose proof (Hok 0%nat ltac:(lia)) as H0. pose proof (Hok 1%nat ltac:(lia)) as H1.
  pose proof (Hok 2%nat ltac:(lia)) as H2. cbn [Nat.add] in H0, H1, H2.
  destruct (supabase_update_row session r userId now id input row H0 Hrow)
    as (reply & rows & Hupdate & Hchanged & _ & Hothers).
  unfold Supabase.invoiceService.update.
  unfold Supabase.invoiceService.getCurrentUserId at 1. rewrite Huser.
  unfold bind at 1. unfold ret at 1. unfold bind at 1. rewrite Hupdate, Hitems.
  unfold bind at 1. unfold ret at 1.
  match goal with
  | |- context [Supabase.invoiceService.getById session ?id' ?v] =>
      rewrite (supabase_getById_run session v userId id' Huser H1)
  end.
  cbn [Supabase.database Supabase.requests Supabase.invoices Supabase.clients
       Supabase.line_items Supabase.invoice_sequences].
  rewrite Hchanged. cbn [Supabase.Query.single].
  unfold bind at 1. rewrite request_succeeds by exact H2.
  unfold Supabase.Query.select_line_items.
  cbn [fst snd Supabase.database Supabase.requests Supabase.invoices Supabase.clients
       Supabase.line_items Supabase.invoice_sequences].
  unfold ret. eexists. eexists. split; [reflexivity|].
  assert (Hid : Supabase.InvoiceRow.id row = id).
  { assert (Hin : In row [row]) by (left; reflexivity).
    rewrite <- Hrow in Hin. apply List.filter_In in Hin as (_ & Hboth).
    apply andb_true_iff in Hboth as (Hid%String.eqb_eq & _). exact Hid. }
  unfold Supabase.invoiceService.updateData. rewrite Hitems.
  cbn [Supabase.invoiceService.toInvoice Supabase.Invoice.invoiceNumber Supabase.Invoice.id
       Supabase.Invoice.clientId Supabase.Invoice.status Supabase.Invoice.issueDate
       Supabase.Invoice.dueDate Supabase.Invoice.notes Supabase.Invoice.lineItems
       Supabase.Invoice.subtotal Supabase.Invoice.tax Supabase.Invoice.total
       Supabase.Invoice.createdAt Supabase.Invoice.updatedAt
       Supabase.InvoiceRow.invoice_number Supabase.InvoiceRow.id
       Supabase.InvoiceRow.client_id Supabase.InvoiceRow.status
       Supabase.InvoiceRow.issue_date Supabase.InvoiceRow.due_date
       Supabase.InvoiceRow.notes Supabase.InvoiceRow.subtotal Supabase.InvoiceRow.tax
       Supabase.InvoiceRow.total Supabase.InvoiceRow.created_at
       Supabase.InvoiceRow.updated_at Supabase.database Supabase.requests
       Supabase.invoices Supabase.line_items Supabase.clients Supabase.invoice_sequences
       fmap option_fmap option_map default].
  split; [exact Hid|]. do 6 (split; [reflexivity|]).
  split.
  { destruct (Supabase.PartialInvoiceInput.clientId input) as [clientId|];
      cbn [default]; [|reflexivity]. unfold Datatypes.id.
    destruct (String.eqb_spec clientId "") as [->|_]; reflexivity. }
  do 8 (split; [reflexivity|]). exact Hothers.
Qed.

Lemma supabase_update_partial_witness :
  exists (invoice : Supabase.Invoice.t) (r' : Supabase.Remote),
    Supabase.invoiceService.update Sample.session "2026-01-16T09:00:00Z" "uuid-2-0"
      Sample.status_edit Sample.created_remote
    = (Returns (Some invoice), r')
    /\ Supabase.Invoice.status invoice = "sent"
    /\ Supabase.Invoice.updatedAt invoice = "2026-01-16T09:00:00Z".
Proof.
  destruct Sample.created_row as [|row rows] eqn:Hrows; [discriminate Hrows|].
  assert (Hrow : List.filter
                   (fun row => String.eqb (Supabase.InvoiceRow.id row) "uuid-2-0"
                               && String.eqb (Supabase.InvoiceRow.user_id row) "u1")
                   (Supabase.invoices (Supabase.database Sample.created_remote)) = [row]).
  { vm_compute in Hrows. injection Hrows as <- <-. vm_compute. reflexivity. }
  destruct (supabase_update_partial Sample.session Sample.created_remote "u1"
              "2026-01-16T09:00:00Z" "uuid-2-0" Sample.status_edit row
              eq_refl (fun k _ => eq_refl) Hrow eq_refl)
    as (invoice & r' & Hrun & _ & _ & _ & Hupdated & Hstatus & _).
  exists invoice, r'. split; [exact Hrun|]. split; [exact Hstatus|exact Hupdated].
Defined.





(** * duplicate, in both repositories *)






